(** * Cross validation of PLS / OPLS models ([cross_validation.py])

    A shallow embedding of the [CrossValidation] class: the fold splitter
    [_split], the orchestrating [fit] loop with its accumulators, the
    reductions of [_summary_cv] and [_summary_fit], the final refit
    [_create_optimal_model], [predict] and the read-only properties.

    Conventions of the embedding.
    - Python exceptions are values of [exn]; a call that may raise returns
      a [result].
    - float64 numbers are an abstract type [F] with the operations the code
      applies to them ([Float64]); reductions and linear algebra whose
      accumulation order belongs to numpy are fields of [Numpy].
    - The estimator ([pls.PLS], [opls.OPLS]) and the scaler
      ([pretreatment.Scaler]) live in other modules: they are interfaces
      ([Estimator], [Scaler]) whose fitted parameters are explicit states
      threaded through the calls, because the Python objects are mutated in
      place.
    - 2-D arrays are lists of rows with an explicit column count; index
      assignment is stdpp's list update behind numpy's bounds check. *)

From Stdlib Require Import ZArith QArith Lia String.
From stdpp Require Import base option list gmap strings.

Close Scope Q_scope.
Local Open Scope string_scope.
Local Open Scope list_scope.

(** ** Exceptions and results *)

Inductive exn : Type :=
  | ZeroDivisionError
  | ValueError (msg : string)
  | IndexError
  | TypeError
  | AttributeError.

Inductive result (A : Type) : Type :=
  | Ok (a : A)
  | Raise (e : exn).
Arguments Ok {A} a.
Arguments Raise {A} e.

#[global] Instance result_ret : MRet result := fun A a => Ok a.
#[global] Instance result_bind : MBind result := fun A B f m =>
  match m with
  | Ok a => f a
  | Raise e => Raise e
  end.

(** A [for] loop whose body may raise: the state is threaded from left to
    right and the first exception aborts the loop. *)
Fixpoint for_each {A S : Type} (body : S -> A -> result S) (l : list A) (s : S)
  : result S :=
  match l with
  | [] => Ok s
  | a :: l' => s' ← body s a; for_each body l' s'
  end.

(** ** Python and numpy indexing *)

(** Normalisation of one bound of a slice [a:b] on a sequence of length
    [len]: negative bounds count from the end, everything is clamped. *)
Definition slice_bound (len : nat) (a : Z) : nat :=
  if decide (a < 0)%Z
  then Z.to_nat (Z.max 0 (a + Z.of_nat len))
  else Z.to_nat (Z.min a (Z.of_nat len)).

(** [l[lo:hi] = v] for a scalar [v]. *)
Definition slice_fill {A : Type} (l : list A) (lo hi : Z) (v : A) : list A :=
  let a := slice_bound (length l) lo in
  let b := slice_bound (length l) hi in
  imap (fun j x => if decide (a <= j < b) then v else x) l.

(** [l[mask]] for a boolean mask of the length of [l]. *)
Fixpoint mask_select {A : Type} (l : list A) (mask : list bool) : list A :=
  match l, mask with
  | x :: l', b :: mask' =>
      if b then x :: mask_select l' mask' else mask_select l' mask'
  | _, _ => []
  end.

(** [range(k)] *)
Definition py_range (k : Z) : list Z := seqZ 0 k.

(** [l[i]] on a Python list or a 1-D array, non-negative index. *)
Definition getitem {A : Type} (l : list A) (i : nat) : result A :=
  match l !! i with
  | Some x => Ok x
  | None => Raise IndexError
  end.

(** [a[idx]] for an integer index array [idx] (a gather). *)
Fixpoint take_items {A : Type} (l : list A) (idx : list nat) : result (list A) :=
  match idx with
  | [] => Ok []
  | i :: idx' => x ← getitem l i; xs ← take_items l idx'; Ok (x :: xs)
  end.

(** ** The fold splitter *)

(** One round of the loop of [_split]: the pair yielded for fold [i]. *)
Definition split_fold (n : nat) (blk i : Z) : list nat * list nat :=
  let indices := seq 0 n in
  let train_index := replicate n true in
  let train_index :=
    slice_fill train_index (blk * i) (Z.min (blk * (i + 1)) (Z.of_nat n)) false in
  (mask_select indices train_index, mask_select indices (negb <$> train_index)).

(** [_split(self, n)], with [kfold] standing for [self.kfold]. The
    generator is consumed by one [for] loop, so it is the list of the pairs
    it yields; [n // kfold] raises when [kfold] is zero. *)
Definition _split (kfold : Z) (n : nat) : result (list (list nat * list nat)) :=
  if decide (kfold = 0%Z) then Raise ZeroDivisionError
  else
    let blk := (Z.of_nat n `div` kfold)%Z in
    Ok (split_fold n blk <$> py_range kfold).


(** ** float64 and numpy arrays *)

(** The float64 operations the module applies to scalars. Nothing is
    assumed about them: division by zero, infinities and NaN belong to the
    instance. *)
Class Float64 (F : Type) : Type := {
  f_zero : F;
  f_one : F;
  f_add : F -> F -> F;
  f_sub : F -> F -> F;
  f_mul : F -> F -> F;
  f_div : F -> F -> F;
  f_sq : F -> F;            (* x ** 2 *)
  f_sqrt : F -> F;          (* np.sqrt(x) *)
  f_gtb : F -> F -> bool;   (* a > b *)
  f_neb : F -> F -> bool;   (* a != b *)
}.

(** A 2-D array of shape [(length rows, ncols)]. *)
Record ndarray2 (A : Type) : Type := Array2 {
  ncols : nat;
  rows : list (list A);
}.
Arguments Array2 {A} ncols rows.
Arguments ncols {A} _.
Arguments rows {A} _.

(** What a property such as [scores] returns: a 1-D or a 2-D array. *)
Inductive ndarray (A : Type) : Type :=
  | Arr1 (v : list A)
  | Arr2 (a : ndarray2 A).
Arguments Arr1 {A} v.
Arguments Arr2 {A} a.

(** Reductions and products computed inside numpy. *)
Class Numpy (F : Type) : Type := {
  np_sum : list F -> F;          (* a.sum() of the elements in memory order *)
  np_dot_vv : list F -> list F -> result F;
  np_dot_vm : list F -> ndarray2 F -> result (list F);
  np_dot_mv : ndarray2 F -> list F -> result (list F);
  np_dot_mm : ndarray2 F -> ndarray2 F -> result (ndarray2 F);
  la_norm_axis0 : ndarray2 F -> list F;   (* la.norm(a, axis=0) *)
}.

Section Arrays.
Context {A : Type}.

(** [a.shape[0]] *)
Definition nrows (a : ndarray2 A) : nat := length (rows a).

(** [np.empty((n, m))]: the cells hold whatever [junk] the memory held. *)
Definition np_empty (junk : nat -> nat -> A) (n m : nat) : ndarray2 A :=
  Array2 m ((fun r => junk r <$> seq 0 m) <$> seq 0 n).

(** [a[idx]] for an integer index array: the selected rows. *)
Definition take_rows (a : ndarray2 A) (idx : list nat) : result (ndarray2 A) :=
  rs ← take_items (rows a) idx; Ok (Array2 (ncols a) rs).

(** [a[:, j]] *)
Definition column (a : ndarray2 A) (j : nat) : result (list A) :=
  if decide (j < ncols a) then mapM (fun row => getitem row j) (rows a)
  else Raise IndexError.

(** [a[:, :k]] *)
Definition first_cols (a : ndarray2 A) (k : nat) : ndarray2 A :=
  Array2 (k `min` ncols a) (take k <$> rows a).

(** The cells of column [j], row after row. *)
Definition col_cells (a : ndarray2 A) (j : nat) : list A :=
  omap (fun row => row !! j) (rows a).

(** [a.T] *)
Definition transpose (a : ndarray2 A) : ndarray2 A :=
  Array2 (nrows a) (col_cells a <$> seq 0 (ncols a)).

(** [v[:, np.newaxis]] and [v[np.newaxis, :]] *)
Definition as_column (v : list A) : ndarray2 A := Array2 1 ((fun x => [x]) <$> v).
Definition as_row (v : list A) : ndarray2 A := Array2 (length v) [v].

(** All the elements, row after row. *)
Definition flatten (a : ndarray2 A) : list A := concat (rows a).
End Arrays.

Definition map_array {A B : Type} (f : A -> B) (a : ndarray2 A) : ndarray2 B :=
  Array2 (ncols a) ((fun row : list A => f <$> row) <$> rows a).

(** *** Broadcasting *)

Definition broadcast_error : exn :=
  ValueError "operands could not be broadcast together".

(** The length two axes of lengths [a] and [b] broadcast to. *)
Definition broadcast_len (a b : nat) : result nat :=
  if decide (a = b) then Ok a
  else if decide (a = 1) then Ok b
  else if decide (b = 1) then Ok a
  else Raise broadcast_error.

(** An element-wise binary operation on one axis. *)
Definition broadcast2 {A B C : Type} (f : A -> B -> C) (u : list A) (v : list B)
  : result (list C) :=
  if decide (length u = length v) then Ok (zip_with f u v)
  else match u, v with
       | [a], _ => Ok (f a <$> v)
       | _, [b] => Ok ((fun a => f a b) <$> u)
       | _, _ => Raise broadcast_error
       end.

(** An element-wise binary operation on two 2-D arrays. *)
Definition elementwise2 {A B C : Type} (f : A -> B -> C)
    (a : ndarray2 A) (b : ndarray2 B) : result (ndarray2 C) :=
  nc ← broadcast_len (ncols a) (ncols b);
  rs ← broadcast2 (broadcast2 f) (rows a) (rows b);
  rs ← mapM id rs;
  Ok (Array2 nc rs).

(** The value [v] of an assignment [a[idx, c] = v], broadcast to the [len]
    selected cells. *)
Definition broadcast_to {A : Type} (len : nat) (v : list A) : result (list A) :=
  if decide (length v = len) then Ok v
  else match v with
       | [x] => Ok (replicate len x)
       | _ => Raise (ValueError "shape mismatch")
       end.

(** *** Accumulators

    The four [n] by [npc0] arrays that [fit] fills. Next to the data each
    one carries the history of the cells assigned so far (fold number,
    component count, row, column); the history is never read by the
    program. *)

Record write : Type := Wr {
  w_fold : nat;
  w_comp : nat;
  w_row : nat;
  w_col : nat;
}.

Record accumulator (A : Type) : Type := Acc {
  acc_data : ndarray2 A;
  acc_writes : list write;
}.
Arguments Acc {A} acc_data acc_writes.
Arguments acc_data {A} _.
Arguments acc_writes {A} _.

(** [a[r, c] = x], done for fold [fold] at component count [k]. *)
Definition set_item {A : Type} (fold k c : nat) (a : accumulator A) (rx : nat * A)
  : result (accumulator A) :=
  let d := acc_data a in
  if decide (rx.1 < nrows d /\ c < ncols d)
  then Ok (Acc (Array2 (ncols d) (alter (fun row => <[c := rx.2]> row) rx.1 (rows d)))
               (acc_writes a ++ [Wr fold k rx.1 c]))
  else Raise IndexError.

(** [a[idx, c] = v] for an integer index array [idx]. *)
Definition assign_column {A : Type} (fold k : nat) (a : accumulator A)
    (idx : list nat) (c : nat) (v : list A) : result (accumulator A) :=
  if decide (c < ncols (acc_data a)) then
    vs ← broadcast_to (length idx) v;
    for_each (set_item fold k c) (zip idx vs) a
  else Raise IndexError.

(** ** The collaborators *)

(** The estimator object ([PLS()] or [OPLS()]). [E] is its state: [fit]
    overwrites the fitted parameters and returns the new state, the other
    methods and the attributes read it. *)
Class Estimator (F E : Type) : Type := {
  PLS : E;
  OPLS : E;
  (* fit(x, y, n_comp=k) *)
  est_fit : E -> ndarray2 F -> list F -> nat -> result E;
  (* predict(x, n_component=k) *)
  est_predict : E -> ndarray2 F -> nat -> result (list F);
  (* predict(x, n_component=k, return_scores=True) *)
  est_predict_scores : E -> ndarray2 F -> nat -> result (list F * list F);
  (* correct(x, n_component=k) *)
  est_correct : E -> ndarray2 F -> nat -> result (ndarray2 F);
  (* correct(x, n_component=k, return_scores=True) *)
  est_correct_scores : E -> ndarray2 F -> nat -> result (ndarray2 F * ndarray2 F);
  (* predictive_score(k) *)
  est_predictive_score : E -> nat -> result (list F);
  est_orthogonal_loadings : E -> ndarray2 F;
  est_orthogonal_scores : E -> ndarray2 F;
  est_predictive_loadings : E -> ndarray2 F;
  est_predictive_scores : E -> ndarray2 F;
  est_weights_y : E -> list F;
  est_scores_x : E -> ndarray2 F;
  est_loadings_x : E -> ndarray2 F;
}.

(** The scaler object. [fit] computes and stores the scaling parameters
    and returns the scaled array; [scale] applies the stored parameters.
    The Python methods take a matrix or a vector: one pair of functions
    for each rank. *)
Class Scaler (F SC : Type) : Type := {
  Scaler_new : string -> SC;     (* pretreatment.Scaler(scaler=...) *)
  sc_fit : SC -> ndarray2 F -> result (SC * ndarray2 F);
  sc_scale : SC -> ndarray2 F -> result (ndarray2 F);
  sc_fit_y : SC -> list F -> result (SC * list F);
  sc_scale_y : SC -> list F -> result (list F);
}.

(** The uninitialised arrays of [fit]. *)
Inductive acc_name : Type := Ypred | Pressy | Tortho | Tpred.

Section CrossValidation.
Context {F E SC : Type}.
Context `{!Float64 F, !Numpy F, !Estimator F E, !Scaler F SC}.

(** ** The object *)

(** An attribute is [None] while it holds Python's [None] or does not
    exist yet. *)
Record CrossValidation : Type := CV {
  kfold : Z;
  estimator : option E;
  estimator_id : string;
  scaler : SC;
  _ypred : option (ndarray2 F);
  _Tortho : option (ndarray2 F);
  _Tpred : option (ndarray2 F);
  _ssx : option (gmap nat (gmap string (list F)));
  _ssy : option F;
  y : option (list F);
  _pressy : option (ndarray2 F);
  _n : option nat;
  _pcv : option (gmap nat (list (list F)));
  _opt_component : option nat;
  _mis_classifications : option (list nat);
  _q2 : option (list F);
  _r2xcorr : option (list F);
  _r2xyo : option (list F);
  _cov : option (list F);
  _corr : option (list F);
  _r2x : option F;
  _r2y : option F;
}.

(** Reading an attribute that holds [None] and using it as a number or
    an array, and reading an attribute that was never set. *)
Definition not_none {A : Type} (o : option A) : result A :=
  match o with Some a => Ok a | None => Raise TypeError end.
Definition attribute {A : Type} (o : option A) : result A :=
  match o with Some a => Ok a | None => Raise AttributeError end.

(** [CrossValidation(estimator, kfold, scaler)]; the defaults are
    ["opls"], [10] and ["pareto"]. An identifier that is neither ["pls"]
    nor ["opls"] leaves the object without an [estimator] attribute. *)
Definition __init__ (estimator : string) (kfold : Z) (scaler : string)
  : CrossValidation :=
  {| kfold := kfold;
     estimator :=
       if decide (estimator = "pls") then Some PLS
       else if decide (estimator = "opls") then Some OPLS
       else None;
     estimator_id := estimator;
     scaler := Scaler_new scaler;
     _ypred := None; _Tortho := None; _Tpred := None; _ssx := None;
     _ssy := None; y := None; _pressy := None; _n := None; _pcv := None;
     _opt_component := None; _mis_classifications := None; _q2 := None;
     _r2xcorr := None; _r2xyo := None; _cov := None; _corr := None;
     _r2x := None; _r2y := None |}.

(** ** The loop of [fit] *)

(** The local variables of [fit] that the loop updates, with the two
    collaborators it refits in place. *)
Record fit_vars : Type := FitVars {
  v_npc0 : nat;
  v_ssx : gmap nat (gmap string (list F));
  v_ssy : list F;
  v_ypred : accumulator F;
  v_pressy : accumulator F;
  v_tortho : accumulator F;
  v_tpred : accumulator F;
  v_pcv : gmap nat (list (list F));
  v_scaler : SC;
  v_estimator : option E;
}.

(** [d[key].append(v)] on a [defaultdict(list)]. *)
Definition dd_append `{Countable K} {V : Type}
    (d : gmap K (list V)) (key : K) (v : V) : gmap K (list V) :=
  <[key := default [] (d !! key) ++ [v]]> d.

(** [(a ** 2).sum()] for a vector and for a matrix. *)
Definition sum_sq (v : list F) : F := np_sum (f_sq <$> v).
Definition sum_sq2 (a : ndarray2 F) : F := np_sum (f_sq <$> flatten a).

(** The body of the loop over the component counts [k]. [fold] is the
    number of the current fold, [est] the estimator fitted on it. *)
Definition fit_component (opls : bool) (fold : nat) (test_index : list nat)
    (xtr_scale xte_scale : ndarray2 F) (yte_scale : list F) (ssx_tot : F)
    (est : E) (s : fit_vars) (k : nat) : result fit_vars :=
  '(yp_k, tortho, tpred, ssx, pcv) ←
    (if opls then
       '(xte_corr, tcorr) ← est_correct_scores est xte_scale k;
       '(yp_k, tp_k) ← est_predict_scores est xte_corr k;
       tortho ←
         (if decide (nrows xte_scale = 1) then
            row0 ← getitem (rows tcorr) 0;
            t00 ← getitem row0 0;
            assign_column fold k (v_tortho s) test_index 0 [t00]
          else
            tc ← column tcorr 0;
            assign_column fold k (v_tortho s) test_index (k - 1) tc);
       tpred ← assign_column fold k (v_tpred s) test_index (k - 1) tp_k;
       let ssx_k := default ∅ (v_ssx s !! k) in
       let ssx_k := dd_append ssx_k "corr" (sum_sq2 xte_corr) in
       xte_ortho ←
         np_dot_mm tcorr (transpose (first_cols (est_orthogonal_loadings est) k));
       let ssx_k := dd_append ssx_k "xyo" (sum_sq2 xte_ortho) in
       let ssx_k := dd_append ssx_k "total" ssx_tot in
       tp ← column (est_predictive_scores est) (k - 1);
       w ← np_dot_vm tp xtr_scale;
       let pcv := dd_append (v_pcv s) k ((fun a => f_div a (sum_sq tp)) <$> w) in
       Ok (yp_k, tortho, tpred, <[k := ssx_k]> (v_ssx s), pcv)
     else
       yp_k ← est_predict est xte_scale k;
       Ok (yp_k, v_tortho s, v_tpred s, v_ssx s, v_pcv s));
  ypred ← assign_column fold k (v_ypred s) test_index (k - 1) yp_k;
  err ← broadcast2 f_sub yp_k yte_scale;
  pressy ← assign_column fold k (v_pressy s) test_index (k - 1) (f_sq <$> err);
  Ok {| v_npc0 := v_npc0 s; v_ssx := ssx; v_ssy := v_ssy s;
        v_ypred := ypred; v_pressy := pressy;
        v_tortho := tortho; v_tpred := tpred; v_pcv := pcv;
        v_scaler := v_scaler s; v_estimator := v_estimator s |}.

(** The body of the loop over the folds. *)
Definition fit_fold (opls : bool) (x : ndarray2 F) (y : list F)
    (s : fit_vars) (fold : nat * (list nat * list nat)) : result fit_vars :=
  let '(i, (train_index, test_index)) := fold in
  xtr ← take_rows x train_index;
  xte ← take_rows x test_index;
  ytr ← take_items y train_index;
  yte ← take_items y test_index;
  (* scale matrix *)
  '(sc, xtr_scale) ← sc_fit (v_scaler s) xtr;
  xte_scale ← sc_scale sc xte;
  '(sc, ytr_scale) ← sc_fit_y sc ytr;
  yte_scale ← sc_scale_y sc yte;
  (* variances *)
  let ssy_tot := sum_sq yte_scale in
  let ssx_tot := sum_sq2 xte_scale in
  (* fit the model *)
  let npc := nrows xtr `min` ncols xtr in
  est ← attribute (v_estimator s);
  est ← est_fit est xtr_scale ytr_scale npc;
  let npc0 := if decide (npc < v_npc0 s) then npc else v_npc0 s in
  let s := {| v_npc0 := npc0; v_ssx := v_ssx s; v_ssy := v_ssy s;
              v_ypred := v_ypred s; v_pressy := v_pressy s;
              v_tortho := v_tortho s; v_tpred := v_tpred s; v_pcv := v_pcv s;
              v_scaler := sc; v_estimator := Some est |} in
  (* do prediction iterating through components *)
  s ← for_each
        (fit_component opls i test_index xtr_scale xte_scale yte_scale ssx_tot est)
        (seq 1 npc) s;
  Ok {| v_npc0 := v_npc0 s; v_ssx := v_ssx s; v_ssy := v_ssy s ++ [ssy_tot];
        v_ypred := v_ypred s; v_pressy := v_pressy s;
        v_tortho := v_tortho s; v_tpred := v_tpred s; v_pcv := v_pcv s;
        v_scaler := v_scaler s; v_estimator := v_estimator s |}.

(** The folds with their numbers. *)
Definition enumerate {A : Type} (l : list A) : list (nat * A) :=
  imap (fun i a => (i, a)) l.

(** [fit] up to the end of the loop over the folds: the allocation of
    the accumulators and the cross validation itself. [mem] is the
    content of the memory that [np.empty] hands out. *)
Definition cross_validate (mem : acc_name -> nat -> nat -> F)
    (self : CrossValidation) (x : ndarray2 F) (y : list F) : result fit_vars :=
  let n := nrows x in
  let p := ncols x in
  let npc0 := n `min` p in
  let s := {| v_npc0 := npc0; v_ssx := ∅; v_ssy := [];
              v_ypred := Acc (np_empty (mem Ypred) n npc0) [];
              v_pressy := Acc (np_empty (mem Pressy) n npc0) [];
              v_tortho := Acc (np_empty (mem Tortho) n npc0) [];
              v_tpred := Acc (np_empty (mem Tpred) n npc0) [];
              v_pcv := ∅;
              v_scaler := scaler self; v_estimator := estimator self |} in
  folds ← _split (kfold self) n;
  for_each (fit_fold (bool_decide (estimator_id self = "opls")) x y)
           (enumerate folds) s.

(** ** Summaries *)

(** Python's [sum] over a list of floats. It starts from the integer
    [0]. *)
Definition py_sum (l : list F) : F := foldl f_add f_zero l.

(** [sum(a) / sum(b)]. Both sums are the integer [0] when the lists are
    empty, and only then does the division raise. *)
Definition sum_ratio (a b : list F) : result F :=
  match a, b with
  | [], [] => Raise ZeroDivisionError
  | _, _ => Ok (f_div (py_sum a) (py_sum b))
  end.

(** [a.sum(axis=0)] for a boolean and for a float array. *)
Definition count_axis0 (a : ndarray2 bool) : list nat :=
  (fun j => length (filter (fun row : list bool => row !! j = Some true) (rows a)))
    <$> seq 0 (ncols a).
Definition sum_axis0 (a : ndarray2 F) : list F :=
  (fun j => np_sum (col_cells a j)) <$> seq 0 (ncols a).

(** [np.argmin]: the first index of the least element. [best] is the
    least value so far, [at] its index, [i] the index of the head. *)
Fixpoint argmin_from (at_ best i : nat) (l : list nat) : nat :=
  match l with
  | [] => at_
  | v :: l' =>
      if decide (v < best) then argmin_from i v (S i) l'
      else argmin_from at_ best (S i) l'
  end.
Definition np_argmin (l : list nat) : result nat :=
  match l with
  | [] => Raise (ValueError "attempt to get argmin of an empty sequence")
  | v :: l' => Ok (argmin_from 0 v 1 l')
  end.

(** [(self._ypred > 0).astype(float)] *)
Definition class_of (v : F) : F := if f_gtb v f_zero then f_one else f_zero.
Definition pred_class (ypred : ndarray2 F) : ndarray2 F := map_array class_of ypred.

(** [_summary_cv] *)
Definition _summary_cv (self : CrossValidation) : result CrossValidation :=
  (* number of mis-classifications *)
  ypred ← not_none (_ypred self);
  let _pred_class := pred_class ypred in
  yv ← not_none (y self);
  diff ← elementwise2 f_sub _pred_class (as_column yv);
  let nmc := count_axis0 (map_array (fun d => f_neb d f_zero) diff) in
  j ← np_argmin nmc;
  (* Q2 *)
  pressy ← not_none (_pressy self);
  ssy ← not_none (_ssy self);
  let q2 := (fun s => f_sub f_one (f_div s ssy)) <$> sum_axis0 pressy in
  (* metrics for OPLS *)
  '(r2xcorr, r2xyo) ←
    (if decide (estimator_id self = "opls") then
       let npc := ncols _pred_class in
       ssx ← not_none (_ssx self);
       let ssx_at k key := default [] (default ∅ (ssx !! k) !! key) in
       r2xcorr ← mapM (fun k => sum_ratio (ssx_at k "corr") (ssx_at k "total"))
                      (seq 1 npc);
       r2xyo ← mapM (fun k => sum_ratio (ssx_at k "xyo") (ssx_at k "total"))
                    (seq 1 npc);
       Ok (Some r2xcorr, Some r2xyo)
     else Ok (_r2xcorr self, _r2xyo self));
  Ok {| kfold := kfold self; estimator := estimator self;
        estimator_id := estimator_id self; scaler := scaler self;
        _ypred := _ypred self; _Tortho := _Tortho self; _Tpred := _Tpred self;
        _ssx := _ssx self; _ssy := _ssy self; y := y self;
        _pressy := _pressy self; _n := _n self; _pcv := _pcv self;
        _opt_component := Some j;
        _mis_classifications := Some nmc;
        _q2 := Some q2;
        _r2xcorr := r2xcorr; _r2xyo := r2xyo;
        _cov := _cov self; _corr := _corr self;
        _r2x := _r2x self; _r2y := _r2y self |}.

(** [a += b] on 2-D arrays: [b] is broadcast to the shape of [a]. *)
Definition iadd2 (a b : ndarray2 F) : result (ndarray2 F) :=
  r ← elementwise2 f_add a b;
  if decide (nrows r = nrows a /\ ncols r = ncols a) then Ok r
  else Raise broadcast_error.

(** [_summary_fit]; [x] and [yv] are the scaled data. *)
Definition _summary_fit (self : CrossValidation) (x : ndarray2 F) (yv : list F)
  : result CrossValidation :=
  opt ← not_none (_opt_component self);
  let npc := opt + 1 in
  est ← attribute (estimator self);
  '(cov, corr, xrec, yrec) ←
    (if decide (estimator_id self = "opls") then
       tp ← est_predictive_score est npc;
       ss_tp ← np_dot_vv tp tp;
       (* loadings *)
       w ← np_dot_vm tp x;
       let cov : list F := (fun a => f_div a ss_tp) <$> w in
       corr ← broadcast2 f_div w (f_mul (f_sqrt ss_tp) <$> la_norm_axis0 x);
       (* reconstruct variable matrix X from orthogonal corrections *)
       xrec ← np_dot_mm (est_orthogonal_scores est)
                        (transpose (est_orthogonal_loadings est));
       (* from predictive scores *)
       tp1 ← est_predictive_score est npc;
       pl ← column (est_predictive_loadings est) (npc - 1);
       outer ← np_dot_mm (as_column tp1) (as_row pl);
       xrec ← iadd2 xrec outer;
       (* reconstruct dependent vector y *)
       tp2 ← est_predictive_score est npc;
       wy ← getitem (est_weights_y est) (npc - 1);
       Ok (Some cov, Some corr, xrec, (fun a => f_mul a wy) <$> (tp2 : list F))
     else
       xrec ← np_dot_mm (first_cols (est_scores_x est) npc)
                        (transpose (first_cols (est_loadings_x est) npc));
       yrec ← np_dot_mv (first_cols (est_scores_x est) npc)
                        (take npc (est_weights_y est));
       Ok (_cov self, _corr self, xrec, yrec));
  (* r2x *)
  dx ← elementwise2 f_sub x xrec;
  let r2x := f_sub f_one (f_div (sum_sq2 dx) (sum_sq2 x)) in
  (* r2y *)
  dy ← broadcast2 f_sub yv yrec;
  let r2y := f_sub f_one (f_div (sum_sq dy) (sum_sq yv)) in
  Ok {| kfold := kfold self; estimator := estimator self;
        estimator_id := estimator_id self; scaler := scaler self;
        _ypred := _ypred self; _Tortho := _Tortho self; _Tpred := _Tpred self;
        _ssx := _ssx self; _ssy := _ssy self; y := y self;
        _pressy := _pressy self; _n := _n self; _pcv := _pcv self;
        _opt_component := _opt_component self;
        _mis_classifications := _mis_classifications self;
        _q2 := _q2 self;
        _r2xcorr := _r2xcorr self; _r2xyo := _r2xyo self;
        _cov := cov; _corr := corr;
        _r2x := Some r2x; _r2y := Some r2y |}.

(** The object after the collaborators were refitted in place. *)
Definition with_models (self : CrossValidation) (sc : SC) (est : option E)
  : CrossValidation :=
  {| kfold := kfold self; estimator := est;
     estimator_id := estimator_id self; scaler := sc;
     _ypred := _ypred self; _Tortho := _Tortho self; _Tpred := _Tpred self;
     _ssx := _ssx self; _ssy := _ssy self; y := y self;
     _pressy := _pressy self; _n := _n self; _pcv := _pcv self;
     _opt_component := _opt_component self;
     _mis_classifications := _mis_classifications self;
     _q2 := _q2 self;
     _r2xcorr := _r2xcorr self; _r2xyo := _r2xyo self;
     _cov := _cov self; _corr := _corr self;
     _r2x := _r2x self; _r2y := _r2y self |}.

(** [_create_optimal_model] *)
Definition _create_optimal_model (self : CrossValidation) (x : ndarray2 F)
    (yv : list F) : result CrossValidation :=
  (* scale data matrix *)
  '(sc, y_scale) ← sc_fit_y (scaler self) yv;
  '(sc, x_scale) ← sc_fit sc x;
  (* optimal component number *)
  opt ← not_none (_opt_component self);
  let npc := opt + 1 in
  (* fit the model *)
  est ← attribute (estimator self);
  est ← est_fit est x_scale y_scale npc;
  (* summary the fitting *)
  _summary_fit (with_models self sc (Some est)) x_scale y_scale.

(** The part of [fit] between the loop and the summaries ("save
    metrics"): the accumulators are cut to [npc0] columns and stored. *)
Definition save_metrics (self : CrossValidation) (s : fit_vars) (n : nat)
    (yv : list F) : CrossValidation :=
  let npc0 := v_npc0 s in
  let opls := bool_decide (estimator_id self = "opls") in
  {| kfold := kfold self; estimator := v_estimator s;
     estimator_id := estimator_id self; scaler := v_scaler s;
     _ypred := Some (first_cols (acc_data (v_ypred s)) npc0);
     _Tortho := if opls then Some (first_cols (acc_data (v_tortho s)) npc0)
                else _Tortho self;
     _Tpred := if opls then Some (first_cols (acc_data (v_tpred s)) npc0)
               else _Tpred self;
     _ssx := if opls then Some (v_ssx s) else _ssx self;
     _ssy := Some (py_sum (v_ssy s));
     y := Some yv;
     _pressy := Some (first_cols (acc_data (v_pressy s)) npc0);
     _n := Some n;
     _pcv := if opls then Some (v_pcv s) else _pcv self;
     _opt_component := _opt_component self;
     _mis_classifications := _mis_classifications self;
     _q2 := _q2 self;
     _r2xcorr := _r2xcorr self; _r2xyo := _r2xyo self;
     _cov := _cov self; _corr := _corr self;
     _r2x := _r2x self; _r2y := _r2y self |}.

(** [fit] *)
Definition fit (mem : acc_name -> nat -> nat -> F) (self : CrossValidation)
    (x : ndarray2 F) (yv : list F) : result CrossValidation :=
  s ← cross_validate mem self x yv;
  (* save metrics, opls specific metrics *)
  let self := save_metrics self s (nrows x) yv in
  (* summarize cross validation results *)
  self ← _summary_cv self;
  (* refit for a final model *)
  _create_optimal_model self x yv.

(** [predict] *)
Definition predict (self : CrossValidation) (x : ndarray2 F) : result (list F) :=
  opt ← not_none (_opt_component self);
  let npc := opt + 1 in
  (* scale the matrix *)
  x ← sc_scale (scaler self) x;
  x ← (if decide (estimator_id self = "opls") then
         est ← attribute (estimator self); est_correct est x npc
       else Ok x);
  est ← attribute (estimator self);
  est_predict est x npc.

(** ** Properties

    They are read on an object that is fresh or fitted: the states in
    which no call has raised. *)

Definition only_opls : exn :=
  ValueError "This is only applicable for OPLS/OPLS-DA.".

Definition orthogonal_score (self : CrossValidation) : result (list F) :=
  if decide (estimator_id self <> "opls") then Raise only_opls
  else
    a ← not_none (_Tortho self);
    opt ← not_none (_opt_component self);
    column a opt.

Definition predictive_score (self : CrossValidation) : result (list F) :=
  if decide (estimator_id self <> "opls") then Raise only_opls
  else
    a ← not_none (_Tpred self);
    opt ← not_none (_opt_component self);
    column a opt.

Definition scores (self : CrossValidation) : result (ndarray F) :=
  if decide (estimator_id self = "opls") then
    v ← predictive_score self; Ok (Arr1 v)
  else
    est ← attribute (estimator self); Ok (Arr2 (est_scores_x est)).

Definition q2 (self : CrossValidation) : result F :=
  q ← not_none (_q2 self);
  opt ← not_none (_opt_component self);
  getitem q opt.

Definition optimal_component_num (self : CrossValidation) : result nat :=
  opt ← not_none (_opt_component self); Ok (opt + 1).

Definition R2Xcorr (self : CrossValidation) : result F :=
  if decide (estimator_id self <> "opls") then Raise only_opls
  else
    r ← attribute (_r2xcorr self);
    opt ← not_none (_opt_component self);
    getitem r opt.

Definition R2XYO (self : CrossValidation) : result F :=
  if decide (estimator_id self <> "opls") then Raise only_opls
  else
    r ← attribute (_r2xyo self);
    opt ← not_none (_opt_component self);
    getitem r opt.

Definition R2X (self : CrossValidation) : result F := attribute (_r2x self).
Definition R2y (self : CrossValidation) : result F := attribute (_r2y self).

Definition correlation (self : CrossValidation) : result (list F) :=
  if decide (estimator_id self <> "opls") then Raise only_opls
  else attribute (_corr self).

Definition covariance (self : CrossValidation) : result (list F) :=
  if decide (estimator_id self <> "opls") then Raise only_opls
  else attribute (_cov self).

(** [np.array(self._pcv[self._opt_component+1])]: the vectors appended
    for that component count, none for a missing key. *)
Definition loadings_cv (self : CrossValidation) : result (list (list F)) :=
  if decide (estimator_id self <> "opls") then Raise only_opls
  else
    opt ← not_none (_opt_component self);
    pcv ← not_none (_pcv self);
    Ok (default [] (pcv !! (opt + 1))).

Definition min_nmc (self : CrossValidation) : result nat :=
  nmc ← not_none (_mis_classifications self);
  opt ← not_none (_opt_component self);
  getitem nmc opt.

Definition mis_classifications (self : CrossValidation) : option (list nat) :=
  _mis_classifications self.

End CrossValidation.

Arguments CrossValidation : clear implicits.
Arguments fit_vars : clear implicits.

(** ** A rational instance

    Exact rational arithmetic for [Float64] and [Numpy], a mean-centring
    scaler and a small linear estimator: enough to run the embedding on
    concrete data. *)

Module Fixture.

Definition qadd (a b : Q) : Q := Qred (a + b).
Definition qsub (a b : Q) : Q := Qred (a - b).
Definition qmul (a b : Q) : Q := Qred (a * b).
Definition qdiv (a b : Q) : Q := Qred (a / b).

#[global] Instance float64_Q : Float64 Q := {|
  f_zero := 0%Q;
  f_one := 1%Q;
  f_add := qadd;
  f_sub := qsub;
  f_mul := qmul;
  f_div := qdiv;
  f_sq := fun a => qmul a a;
  f_sqrt := fun a => a;
  f_gtb := fun a b => negb (Qle_bool a b);
  f_neb := fun a b => negb (Qeq_bool a b);
|}.

Definition qsum (l : list Q) : Q := foldr qadd 0%Q l.
Definition dot (u v : list Q) : Q := qsum (zip_with qmul u v).
Definition cols (a : ndarray2 Q) : list (list Q) := col_cells a <$> seq 0 (ncols a).

#[global] Instance numpy_Q : Numpy Q := {|
  np_sum := qsum;
  np_dot_vv := fun u v => Ok (dot u v);
  np_dot_vm := fun v a => Ok (dot v <$> cols a);
  np_dot_mv := fun a v => Ok ((fun row => dot row v) <$> rows a);
  np_dot_mm := fun a b =>
    Ok (Array2 (ncols b) ((fun row => dot row <$> cols b) <$> rows a));
  la_norm_axis0 := fun a => (fun c => dot c c) <$> cols a;
|}.

(** The scaler stores the column means of the array it was fitted on. *)
Definition mean (l : list Q) : Q := qdiv (qsum l) (inject_Z (Z.of_nat (length l))).
Definition centre (means : list Q) (a : ndarray2 Q) : ndarray2 Q :=
  Array2 (ncols a) ((fun row => zip_with qsub row means) <$> rows a).

#[global] Instance scaler_Q : Scaler Q (list Q) := {|
  Scaler_new := fun _ => [];
  sc_fit := fun _ a => let m := mean <$> cols a in Ok (m, centre m a);
  sc_scale := fun m a => Ok (centre m a);
  sc_fit_y := fun _ v => let m := mean v in Ok ([m], (fun a => qsub a m) <$> v);
  sc_scale_y := fun m v => Ok ((fun a => qsub a (default 0%Q (m !! 0%nat))) <$> v);
|}.

(** The estimator keeps the training data; its prediction for a row is
    the sum of the first [k] variables times the mean square of the
    training response. *)
Record model : Type := Model {
  m_x : ndarray2 Q;
  m_y : list Q;
  m_ncomp : nat;
}.

Definition gain (e : model) : Q := mean ((fun a => qmul a a) <$> m_y e).
Definition row_score (k : nat) (row : list Q) : Q := qsum (take k row).
Definition predict_rows (e : model) (a : ndarray2 Q) (k : nat) : list Q :=
  (fun row => qmul (gain e) (row_score k row)) <$> rows a.
Definition ones (n m : nat) : ndarray2 Q := Array2 m (replicate n (replicate m 1%Q)).

#[global] Instance estimator_Q : Estimator Q model := {|
  PLS := Model (Array2 0 []) [] 0;
  OPLS := Model (Array2 0 []) [] 0;
  est_fit := fun _ a v k => Ok (Model a v k);
  est_predict := fun e a k => Ok (predict_rows e a k);
  est_predict_scores := fun e a k =>
    Ok (predict_rows e a k, row_score k <$> rows a);
  est_correct := fun _ a _ => Ok a;
  est_correct_scores := fun _ a k => Ok (a, first_cols a k);
  est_predictive_score := fun e k => column (m_x e) (k - 1);
  est_orthogonal_loadings := fun e => ones (ncols (m_x e)) (m_ncomp e);
  est_orthogonal_scores := fun e => first_cols (m_x e) (m_ncomp e);
  est_predictive_loadings := fun e => ones (ncols (m_x e)) (m_ncomp e);
  est_predictive_scores := fun e => first_cols (m_x e) (m_ncomp e);
  est_weights_y := fun e => replicate (m_ncomp e) (gain e);
  est_scores_x := fun e => first_cols (m_x e) (m_ncomp e);
  est_loadings_x := fun e => ones (ncols (m_x e)) (m_ncomp e);
|}.

(** Six samples of two variables and their classes. *)
Definition x6 : ndarray2 Q :=
  Array2 2 [[1; 0]; [3; 1]; [0; 2]; [4; 1]; [1; 1]; [5; 0]]%Q.
Definition y6 : list Q := [0; 1; 0; 1; 0; 1]%Q.

(** Six samples whose variables are large in class 0 and small in
    class 1. *)
Definition x6_inverse : ndarray2 Q :=
  Array2 2 [[5; 0]; [0; 1]; [4; 2]; [1; 1]; [5; 1]; [0; 0]]%Q.

(** Six samples whose classes show in the sum of the two variables and
    not in the first one. *)
Definition x6_second : ndarray2 Q :=
  Array2 2 [[4; 0]; [0; 9]; [3; 0]; [1; 9]; [4; 0]; [0; 9]]%Q.

(** Uninitialised memory. *)
Definition mem0 (a : acc_name) (r c : nat) : Q := (-7)%Q.

Definition cv (estimator : string) (kfold : Z) : CrossValidation Q model (list Q) :=
  __init__ estimator kfold "pareto".

(** The object after [fit] on the six samples (the fresh object if
    [fit] raises). *)
Definition fitted (estimator : string) (kfold : Z)
  : CrossValidation Q model (list Q) :=
  match fit mem0 (cv estimator kfold) x6 y6 with
  | Ok self => self
  | Raise _ => cv estimator kfold
  end.

(** The same on the samples of [x6_second]. *)
Definition fitted_second (estimator : string) (kfold : Z)
  : CrossValidation Q model (list Q) :=
  match fit mem0 (cv estimator kfold) x6_second y6 with
  | Ok self => self
  | Raise _ => cv estimator kfold
  end.

End Fixture.


(** * The vocabulary of the properties

    Histories of the accumulators, the folds as lists of indices, and the
    quantities the properties below are stated with. None of it is read
    by the program. *)

(** The cells that [a[idx, c] = v] assigns in fold [i] at component count
    [k]. *)
Definition col_writes (i k : nat) (idx : list nat) (c : nat) : list write :=
  (fun r => Wr i k r c) <$> idx.

(** Every row has [ncols] cells. *)
Definition well_formed {A : Type} (a : ndarray2 A) : Prop :=
  Forall (fun row => length row = ncols a) (rows a).

(** [a] has the shape of [b], and is rectangular if [b] is. *)
Definition same_shape {A : Type} (a b : ndarray2 A) : Prop :=
  nrows a = nrows b /\ ncols a = ncols b /\ (well_formed b -> well_formed a).

(** The scaled test responses of the folds, fold after fold: the scaler
    is fitted on the training rows of [x], then on the training part of
    [y], and applied to the test part of [y]; its state goes from one
    fold to the next. *)
Fixpoint scaled_test_responses {F SC : Type} `{!Scaler F SC}
    (sc : SC) (x : ndarray2 F) (yv : list F) (folds : list (list nat * list nat))
  : result (list (list F)) :=
  match folds with
  | [] => Ok []
  | (train_index, test_index) :: folds' =>
      xtr ← take_rows x train_index;
      ytr ← take_items yv train_index;
      yte ← take_items yv test_index;
      '(sc, _) ← sc_fit sc xtr;
      '(sc, _) ← sc_fit_y sc ytr;
      yte_scale ← sc_scale_y sc yte;
      rest ← scaled_test_responses sc x yv folds';
      Ok (yte_scale :: rest)
  end.

(** The cells assigned at component count [k] of fold [i], per
    accumulator. *)
Definition component_writes (opls : bool) (i : nat) (te : list nat) (k : nat)
    (name : acc_name) : list write :=
  match name with
  | Ypred | Pressy => col_writes i k te (k - 1)
  | Tpred => if opls then col_writes i k te (k - 1) else []
  | Tortho =>
      if opls then col_writes i k te (if decide (length te = 1) then 0 else k - 1)
      else []
  end.

(** The component count of a fold: [min(xtr.shape)]. *)
Definition fold_npc (p : nat) (fold : nat * (list nat * list nat)) : nat :=
  length fold.2.1 `min` p.

Definition fold_writes (opls : bool) (p : nat) (fold : nat * (list nat * list nat))
    (name : acc_name) : list write :=
  flat_map (fun k => component_writes opls fold.1 fold.2.2 k name)
           (seq 1 (fold_npc p fold)).

Definition cv_writes (opls : bool) (p : nat) (folds : list (list nat * list nat))
    (name : acc_name) : list write :=
  flat_map (fun fold => fold_writes opls p fold name) (enumerate folds).

(** Whether [fit] assigns to an accumulator at all, and the column it
    assigns to at component count [k] for the test indices [te]. *)
Definition active (opls : bool) (name : acc_name) : bool :=
  match name with
  | Ypred | Pressy => true
  | Tortho | Tpred => opls
  end.

Definition write_col (name : acc_name) (te : list nat) (k : nat) : nat :=
  match name with
  | Tortho => if decide (length te = 1) then 0 else k - 1
  | _ => k - 1
  end.

(** [a[r, c]], if the cell exists. *)
Definition cell {A : Type} (a : ndarray2 A) (r c : nat) : option A :=
  row ← rows a !! r; row !! c.

(** Entry [q] of a vector [v] assigned to [L] cells: the vector itself
    when it has [L] entries, its only entry when it has one. *)
Definition entry_of {A : Type} (L : nat) (v : list A) (q : nat) : option A :=
  if decide (length v = L) then v !! q
  else match v with
       | [a] => if decide (q < L) then Some a else None
       | _ => None
       end.

(** The history of [a] accounts for every cell that differs from the
    array [a0] it started as. *)
Definition history_sound {A : Type} (a0 : ndarray2 A) (a : accumulator A) : Prop :=
  forall r c,
    (forall w, w ∈ acc_writes a -> w_row w = r -> w_col w <> c) ->
    cell (acc_data a) r c = cell a0 r c.

Section Vocabulary.
Context {F E SC : Type}.
Context `{!Float64 F, !Numpy F, !Estimator F E, !Scaler F SC}.
Implicit Types s : fit_vars F E SC.

(** The contract of [scale] that the test [xte_scale.shape[0] == 1]
    relies on: scaling keeps the number of rows. *)
Definition scaler_keeps_rows : Prop :=
  forall (sc : SC) (m m' : ndarray2 F), sc_scale sc m = Ok m' -> nrows m' = nrows m.

Definition acc_of s (name : acc_name) : accumulator F :=
  match name with
  | Ypred => v_ypred s
  | Pressy => v_pressy s
  | Tortho => v_tortho s
  | Tpred => v_tpred s
  end.

(** From [s] to [s'] every accumulator kept its shape and its history
    grew by [W]; for [tortho] the history is known under the contract
    of the scaler. *)
Definition extends s s' (W : acc_name -> list write) : Prop :=
  forall name,
    same_shape (acc_data (acc_of s' name)) (acc_data (acc_of s name))
    /\ ((name = Tortho -> scaler_keeps_rows) ->
        acc_writes (acc_of s' name) = acc_writes (acc_of s name) ++ W name).

(** The class that a prediction stands for: 1 if its value is greater
    than zero, else 0. *)
Definition predicted_class (v : F) : F :=
  if f_gtb v f_zero then f_one else f_zero.

(** Whether the prediction in column [j] of a row of [ypred] is in
    another class than the response [c] of that sample. *)
Definition misclassified (j : nat) (row : list F) (c : F) : bool :=
  match row !! j with
  | Some v => f_neb (f_sub (predicted_class v) c) f_zero
  | None => false
  end.

(** What a fold works with: the estimator fitted on its scaled training
    rows, its scaled test rows and test responses, and its component
    count. *)
Record fold_model : Type := FoldModel {
  fm_est : E;
  fm_xte : ndarray2 F;
  fm_yte : list F;
  fm_npc : nat;
}.

(** The folds one after the other: the scaler is fitted on the training
    rows and applied to the test rows, then fitted on the training
    responses and applied to the test responses; the estimator is fitted
    on the scaled training data with [min(xtr.shape)] components. The
    state of both goes from one fold to the next. *)
Fixpoint fold_models (sc : SC) (est : option E) (x : ndarray2 F) (yv : list F)
    (folds : list (list nat * list nat)) : result (list fold_model) :=
  match folds with
  | [] => Ok []
  | (train_index, test_index) :: folds' =>
      xtr ← take_rows x train_index;
      xte ← take_rows x test_index;
      ytr ← take_items yv train_index;
      yte ← take_items yv test_index;
      '(sc, xtr_scale) ← sc_fit sc xtr;
      xte_scale ← sc_scale sc xte;
      '(sc, ytr_scale) ← sc_fit_y sc ytr;
      yte_scale ← sc_scale_y sc yte;
      let npc := nrows xtr `min` ncols xtr in
      e ← attribute est;
      e ← est_fit e xtr_scale ytr_scale npc;
      rest ← fold_models sc (Some e) x yv folds';
      Ok (FoldModel e xte_scale yte_scale npc :: rest)
  end.

(** The out-of-fold prediction of a fold for its test samples with [k]
    components; with ["opls"] the test rows are corrected first. *)
Definition fold_prediction (opls : bool) (m : fold_model) (k : nat)
  : result (list F) :=
  if opls then
    '(xte_corr, _) ← est_correct_scores (fm_est m) (fm_xte m) k;
    '(yp, _) ← est_predict_scores (fm_est m) xte_corr k;
    Ok yp
  else est_predict (fm_est m) (fm_xte m) k.

(** The predictive scores of the test samples of a fold with [k]
    components. *)
Definition fold_predictive_scores (m : fold_model) (k : nat) : result (list F) :=
  '(xte_corr, _) ← est_correct_scores (fm_est m) (fm_xte m) k;
  '(_, tp) ← est_predict_scores (fm_est m) xte_corr k;
  Ok tp.

(** The first orthogonal score of the first test sample of a fold with
    [k] components, [tcorr[0][0]]. *)
Definition fold_orthogonal_score (m : fold_model) (k : nat) : result F :=
  '(_, tcorr) ← est_correct_scores (fm_est m) (fm_xte m) k;
  row0 ← getitem (rows tcorr) 0;
  getitem row0 0.

(** The vector that a fold assigns to an accumulator at component count
    [k]: the predictions, their squared errors against the scaled test
    responses, the first orthogonal scores and the predictive scores. *)
Definition assigned_vector (opls : bool) (m : fold_model) (k : nat)
    (name : acc_name) : result (list F) :=
  match name with
  | Ypred => fold_prediction opls m k
  | Pressy =>
      yp ← fold_prediction opls m k;
      err ← broadcast2 f_sub yp (fm_yte m);
      Ok (f_sq <$> (err : list F))
  | Tpred => fold_predictive_scores m k
  | Tortho =>
      if decide (nrows (fm_xte m) = 1) then
        t ← fold_orthogonal_score m k; Ok [t : F]
      else
        '(_, tcorr) ← est_correct_scores (fm_est m) (fm_xte m) k;
        column tcorr 0
  end.

(** The column it is assigned to. *)
Definition assigned_col (name : acc_name) (m : fold_model) (k : nat) : nat :=
  match name with
  | Tortho => if decide (nrows (fm_xte m) = 1) then 0 else k - 1
  | _ => k - 1
  end.

(** The array that [fit] stores for an accumulator. *)
Definition stored (self : CrossValidation F E SC) (name : acc_name)
  : option (ndarray2 F) :=
  match name with
  | Ypred => _ypred self
  | Pressy => _pressy self
  | Tortho => _Tortho self
  | Tpred => _Tpred self
  end.

(** [ssx[k][key]] on the [defaultdict] of [defaultdict(list)]. *)
Definition ssx_at (ssx : gmap nat (gmap string (list F))) (k : nat) (key : string)
  : list F :=
  default [] (default ∅ (ssx !! k) !! key).

(** The contract of [scale] on a vector: scaling keeps the number of
    entries. *)
Definition scaler_keeps_length : Prop :=
  forall (sc : SC) (v v' : list F), sc_scale_y sc v = Ok v' -> length v' = length v.

(** The cell [(r, j)] of [pressy] is the square of the difference
    between the cell [(r, j)] of [ypred] and entry [q] of the scaled test
    responses [yte]. *)
Definition squared_error_at (ypred pressy : ndarray2 F) (yte : list F)
    (q r j : nat) : Prop :=
  exists v e, cell ypred r j = Some v /\ yte !! q = Some e
              /\ cell pressy r j = Some (f_sq (f_sub v e)).

End Vocabulary.

Arguments fold_model : clear implicits.

(** * Properties *)

(** ** Results and loops *)

Lemma bind_Ok {A B : Type} (m : result A) (f : A -> result B) (b : B) :
  m ≫= f = Ok b -> exists a, m = Ok a /\ f a = Ok b.
Proof. destruct m as [a|e]; simpl; [eauto | discriminate]. Qed.

(** Inversion of a successful computation in [result]. *)
Ltac inv_ok H :=
  lazymatch type of H with
  | Ok _ = Ok _ => injection H as H; try subst
  | Raise _ = Ok _ => discriminate H
  | mbind _ _ = Ok _ =>
      let a := fresh "a" in
      let Ha := fresh "Hstep" in
      apply bind_Ok in H; destruct H as (a & Ha & H)
  | (let '(_, _) := ?p in _) = Ok _ => destruct p; simpl in H
  | (if decide ?P then _ else _) = Ok _ => destruct (decide P)
  | (if ?b then _ else _) = Ok _ => destruct b eqn:?
  | (match ?o with Some _ => _ | None => _ end) = Ok _ => destruct o eqn:?
  end.

(** A relation between the state before and after that every round
    extends is extended by the whole loop. *)
Lemma for_each_ind {A S : Type} (body : S -> A -> result S)
    (R : list A -> S -> S -> Prop) :
  (forall s, R [] s s) ->
  (forall a l s s1 s2, body s a = Ok s1 -> R l s1 s2 -> R (a :: l) s s2) ->
  forall l s s', for_each body l s = Ok s' -> R l s s'.
Proof.
  intros Hnil Hcons l; induction l as [|a l IH]; intros s s' H; simpl in H.
  - injection H as ->. apply Hnil.
  - apply bind_Ok in H as (s1 & H1 & H2). eauto.
Qed.

(** ** The fold splitter *)

Section Split.

Lemma filter_ext_in {A : Type} (P Q : A -> Prop)
    `{!forall a, Decision (P a), !forall a, Decision (Q a)} (l : list A) :
  (forall a, a ∈ l -> P a <-> Q a) -> filter P l = filter Q l.
Proof.
  induction l as [|a l IH]; intros Hext; [done|].
  assert (P a <-> Q a) as Ha by (apply Hext; set_solver).
  rewrite !filter_cons, IH by (intros; apply Hext; set_solver).
  destruct (decide (P a)), (decide (Q a)); tauto.
Qed.

Lemma mask_select_imap (f : nat -> bool -> bool) (n s : nat) :
  mask_select (seq s n) (imap f (replicate n true))
  = filter (fun j => f (j - s) true = true) (seq s n).
Proof.
  revert f s; induction n as [|n IH]; intros f s; [done|].
  cbn [seq replicate]. rewrite imap_cons. cbn [mask_select].
  rewrite filter_cons, Nat.sub_diag, IH.
  rewrite (filter_ext_in (fun j => (f ∘ S) (j - S s) true = true)
                         (fun j => f (j - s) true = true)).
  - destruct (f 0 true); by case_decide.
  - intros j Hj. apply elem_of_seq in Hj. simpl.
    replace (S (j - S s)) with (j - s) by lia. done.
Qed.

Lemma filter_seq_block (a b n : nat) :
  a <= b <= n -> filter (fun j => a <= j < b) (seq 0 n) = seq a (b - a).
Proof.
  intros Hab.
  replace n with (a + ((b - a) + (n - b))) by lia.
  rewrite !seq_app, !filter_app. simpl.
  assert (forall (P : nat -> Prop) `{!forall j, Decision (P j)} l,
            Forall (fun j => ~ P j) l -> filter P l = []) as Hnone.
  { intros P ? l Hl; induction Hl; [done|]. by rewrite filter_cons_False. }
  assert (forall (P : nat -> Prop) `{!forall j, Decision (P j)} l,
            Forall P l -> filter P l = l) as Hall.
  { intros P ? l Hl; induction Hl as [|j l ? ? IH]; [done|].
    rewrite filter_cons_True by done. by rewrite IH. }
  rewrite Hnone, Hall, Hnone; [by rewrite app_nil_r | | |];
    apply Forall_seq; intros; lia.
Qed.

(** The pair yielded for a fold, whatever the bounds of the slice. *)
Lemma split_fold_filter (n : nat) (blk i : Z) :
  let a := slice_bound n (blk * i) in
  let b := slice_bound n (Z.min (blk * (i + 1)) (Z.of_nat n)) in
  split_fold n blk i =
    (filter (fun j => ~ a <= j < b) (seq 0 n), filter (fun j => a <= j < b) (seq 0 n)).
Proof.
  intros a b. unfold split_fold, slice_fill.
  rewrite length_replicate. fold a b. f_equal.
  - rewrite mask_select_imap. apply list_filter_iff. intros j.
    rewrite Nat.sub_0_r. case_decide; naive_solver.
  - rewrite fmap_imap, mask_select_imap. apply list_filter_iff. intros j.
    rewrite Nat.sub_0_r. simpl. case_decide; naive_solver.
Qed.

(** With a positive number of folds every block lies inside the index
    range, so the clamp [min(blk * (i + 1), n)] never cuts. *)
Lemma split_fold_block (kfold : Z) (n i : nat) :
  (1 <= kfold)%Z -> (Z.of_nat i < kfold)%Z ->
  let blk := n `div` Z.to_nat kfold in
  split_fold n (Z.of_nat n `div` kfold) (Z.of_nat i) =
    (filter (fun j => j ∉ seq (blk * i) blk) (seq 0 n), seq (blk * i) blk).
Proof.
  intros Hk Hi blk.
  assert (Z.of_nat n `div` kfold = Z.of_nat blk)%Z as Hblk.
  { unfold blk. rewrite Nat2Z.inj_div, Z2Nat.id by lia. done. }
  assert (blk * Z.to_nat kfold <= n) as Hle.
  { unfold blk. rewrite Nat.mul_comm. apply Nat.Div0.mul_div_le. }
  assert (blk * (i + 1) <= n) as Hi1.
  { etrans; [|exact Hle]. apply Nat.mul_le_mono_l. lia. }
  rewrite split_fold_filter, Hblk.
  assert (slice_bound n (Z.of_nat blk * Z.of_nat i) = blk * i) as ->.
  { unfold slice_bound. case_decide; [lia|]. nia. }
  assert (slice_bound n (Z.min (Z.of_nat blk * (Z.of_nat i + 1)) (Z.of_nat n))
          = blk * i + blk) as ->.
  { unfold slice_bound. case_decide; [lia|]. nia. }
  f_equal.
  - apply list_filter_iff. intros j. rewrite elem_of_seq. done.
  - rewrite filter_seq_block by lia. f_equal. lia.
Qed.

Lemma split_Ok (kfold : Z) (n : nat) :
  (1 <= kfold)%Z ->
  _split kfold n = Ok (split_fold n (Z.of_nat n `div` kfold) <$> seqZ 0 kfold).
Proof. intros Hk. unfold _split, py_range. case_decide; [lia|done]. Qed.

(** The folds as a function of their number. *)
Lemma split_lookup (kfold : Z) (n : nat) (folds : list (list nat * list nat))
    (i : nat) (tr te : list nat) :
  (1 <= kfold)%Z -> _split kfold n = Ok folds ->
  let blk := n `div` Z.to_nat kfold in
  folds !! i = Some (tr, te) <->
  i < Z.to_nat kfold /\ te = seq (blk * i) blk
  /\ tr = filter (fun j => j ∉ te) (seq 0 n).
Proof.
  intros Hk Hs blk. rewrite split_Ok in Hs by done. injection Hs as <-.
  rewrite list_lookup_fmap. split.
  - intros H. destruct (seqZ 0 kfold !! i) as [z|] eqn:Hz; [|done].
    apply lookup_seqZ in Hz as [-> Hz]. simpl in H.
    rewrite Z.add_0_l, split_fold_block in H by lia.
    injection H as <- <-. split; [lia|done].
  - intros (Hi & -> & ->). rewrite lookup_seqZ_lt by lia. simpl.
    rewrite Z.add_0_l, split_fold_block by lia. done.
Qed.

Lemma split_length (kfold : Z) (n : nat) (folds : list (list nat * list nat)) :
  (1 <= kfold)%Z -> _split kfold n = Ok folds -> length folds = Z.to_nat kfold.
Proof.
  intros Hk Hs. rewrite split_Ok in Hs by done. injection Hs as <-.
  by rewrite length_fmap, length_seqZ.
Qed.

End Split.

Section SplitClaims.

(** The samples held out by some fold are the first [blk * kfold]. *)
Lemma split_held_out (kfold : Z) (n : nat) (folds : list (list nat * list nat))
    (r : nat) :
  (1 <= kfold)%Z -> _split kfold n = Ok folds ->
  (exists i tr te, folds !! i = Some (tr, te) /\ r ∈ te)
  <-> r < n `div` Z.to_nat kfold * Z.to_nat kfold.
Proof.
  intros Hk Hs. set (blk := n `div` Z.to_nat kfold). split.
  - intros (i & tr & te & Hi & Hr).
    apply (split_lookup kfold n folds i tr te Hk Hs) in Hi as (Hi & -> & _).
    apply elem_of_seq in Hr. fold blk in Hr. nia.
  - intros Hr.
    assert (0 < blk) as Hblk by (destruct blk; lia).
    exists (r `div` blk), (filter (fun j => j ∉ seq (blk * (r `div` blk)) blk) (seq 0 n)),
           (seq (blk * (r `div` blk)) blk).
    split.
    + apply (split_lookup kfold n folds _ _ _ Hk Hs). repeat split.
      apply Nat.Div0.div_lt_upper_bound. lia.
    + apply elem_of_seq.
      pose proof (Nat.Div0.mul_div_le r blk).
      pose proof (Nat.mul_succ_div_gt r blk ltac:(lia)). lia.
Qed.

(** Two different folds hold out different samples. *)
Lemma split_disjoint (kfold : Z) (n : nat) (folds : list (list nat * list nat))
    (i1 i2 : nat) (tr1 te1 tr2 te2 : list nat) (r : nat) :
  (1 <= kfold)%Z -> _split kfold n = Ok folds ->
  folds !! i1 = Some (tr1, te1) -> folds !! i2 = Some (tr2, te2) ->
  r ∈ te1 -> r ∈ te2 -> i1 = i2.
Proof.
  intros Hk Hs H1 H2 Hr1 Hr2.
  apply (split_lookup kfold n folds _ _ _ Hk Hs) in H1 as (_ & -> & _).
  apply (split_lookup kfold n folds _ _ _ Hk Hs) in H2 as (_ & -> & _).
  apply elem_of_seq in Hr1, Hr2. nia.
Qed.

(** C3. For a sample count [n] and a fold count [kfold >= 1], with
    [blk = n // kfold], [_split] yields exactly [kfold] pairs; the test
    indices of fold [i] are the positions from [blk * i] up to, not
    including, [min (blk * (i + 1)) n], in order, and its train indices
    are the other indices of [0 .. n-1]. When [kfold] divides [n], the
    test sets are pairwise disjoint and every index below [n] is in one
    of them. *)
Theorem split_blocks (kfold : Z) (n : nat) :
  (1 <= kfold)%Z ->
  let blk := (Z.of_nat n `div` kfold)%Z in
  exists folds,
    _split kfold n = Ok folds
    /\ length folds = Z.to_nat kfold
    /\ (forall i tr te, folds !! i = Some (tr, te) ->
          let lo := Z.to_nat (blk * Z.of_nat i) in
          let hi := Z.to_nat (Z.min (blk * (Z.of_nat i + 1)) (Z.of_nat n)) in
          te = seq lo (hi - lo) /\ tr = filter (fun j => j ∉ te) (seq 0 n))
    /\ ((Z.of_nat n `mod` kfold = 0)%Z ->
          (forall i1 i2 tr1 te1 tr2 te2 r,
             i1 <> i2 ->
             folds !! i1 = Some (tr1, te1) -> folds !! i2 = Some (tr2, te2) ->
             r ∈ te1 -> r ∉ te2)
          /\ (forall r, r < n <-> exists i tr te, folds !! i = Some (tr, te) /\ r ∈ te)).
Proof.
  intros Hk blk.
  exists (split_fold n blk <$> seqZ 0 kfold).
  pose proof (split_Ok kfold n Hk) as Hs. fold blk in Hs.
  split; [done|]. split; [by apply (split_length kfold n)|]. split.
  - intros i tr te Hi lo hi.
    apply (split_lookup kfold n _ i tr te Hk Hs) in Hi as (Hi & Hte & Htr).
    split; [|done]. rewrite Hte. unfold lo, hi, blk.
    set (b := n `div` Z.to_nat kfold).
    assert (Z.of_nat n `div` kfold = Z.of_nat b)%Z as ->.
    { unfold b. rewrite Nat2Z.inj_div, Z2Nat.id by lia. done. }
    assert (b * Z.to_nat kfold <= n) as Hle.
    { unfold b. rewrite Nat.mul_comm. apply Nat.Div0.mul_div_le. }
    assert (b * (i + 1) <= n) by (etrans; [|exact Hle]; apply Nat.mul_le_mono_l; lia).
    f_equal; nia.
  - intros Hdiv. split.
    + intros i1 i2 tr1 te1 tr2 te2 r Hne H1 H2 Hr1 Hr2.
      apply Hne. by eapply (split_disjoint kfold n).
    + intros r. rewrite (split_held_out kfold n _ r Hk Hs).
      assert (n `div` Z.to_nat kfold * Z.to_nat kfold = n) as ->; [|done].
      apply Nat2Z.inj. rewrite Nat2Z.inj_mul, Nat2Z.inj_div, Z2Nat.id by lia.
      pose proof (Z.div_mod (Z.of_nat n) kfold ltac:(lia)). lia.
Qed.

Lemma split_blocks_witness :
  exists folds,
    _split 2 6 = Ok folds
    /\ length folds = 2
    /\ (forall i tr te, folds !! i = Some (tr, te) ->
          let lo := Z.to_nat (3 * Z.of_nat i) in
          let hi := Z.to_nat (Z.min (3 * (Z.of_nat i + 1)) 6) in
          te = seq lo (hi - lo) /\ tr = filter (fun j => j ∉ te) (seq 0 6))
    /\ ((6 `mod` 2 = 0)%Z ->
          (forall i1 i2 tr1 te1 tr2 te2 r,
             i1 <> i2 ->
             folds !! i1 = Some (tr1, te1) -> folds !! i2 = Some (tr2, te2) ->
             r ∈ te1 -> r ∉ te2)
          /\ (forall r, r < 6 <-> exists i tr te, folds !! i = Some (tr, te) /\ r ∈ te)).
Proof. apply (split_blocks 2 6). lia. Defined.

(** C4. Ten samples in three folds: the blocks have three samples each
    and the last fold holds out [6; 7; 8]; sample [9] is in the train
    set of every fold and in no test set. With six samples in four folds
    the samples [4] and [5] are never held out, and after [fit] their rows
    of [_ypred] still hold the uninitialised memory. *)
Theorem split_leaves_remainder :
  _split 3 10 =
    Ok [([3; 4; 5; 6; 7; 8; 9], [0; 1; 2]);
        ([0; 1; 2; 6; 7; 8; 9], [3; 4; 5]);
        ([0; 1; 2; 3; 4; 5; 9], [6; 7; 8])]
  /\ (self ← fit Fixture.mem0 (Fixture.cv "pls" 4) Fixture.x6 Fixture.y6;
      ypred ← not_none (_ypred self);
      Ok (drop 4 (rows ypred)))
     = Ok [[Fixture.mem0 Ypred 4 0; Fixture.mem0 Ypred 4 1];
           [Fixture.mem0 Ypred 5 0; Fixture.mem0 Ypred 5 1]].
Proof. split; vm_compute; reflexivity. Qed.

End SplitClaims.

(** ** The object, its properties and the final model *)

Section Object.
Context {F E SC : Type}.
Context `{!Float64 F, !Numpy F, !Estimator F E, !Scaler F SC}.
Implicit Types self : CrossValidation F E SC.

Lemma getitem_raise {A : Type} (l : list A) (j : nat) (e : exn) :
  getitem l j = Raise e -> e = IndexError.
Proof. unfold getitem. destruct (l !! j); congruence. Qed.

Lemma mapM_getitem_raise {A : Type} (l : list (list A)) (j : nat) (e : exn) :
  mapM (fun row => getitem row j) l = Raise e -> e = IndexError.
Proof.
  induction l as [|row l IH]; simpl; [done|].
  destruct (getitem row j) as [v|e'] eqn:Hrow; simpl.
  - destruct (mapM _ l); simpl; [done|]. intros [= <-]. by apply IH.
  - intros [= <-]. by eapply getitem_raise.
Qed.

Lemma column_raise {A : Type} (a : ndarray2 A) (j : nat) (e : exn) :
  column a j = Raise e -> e = IndexError.
Proof.
  unfold column. case_decide; [apply mapM_getitem_raise | congruence].
Qed.

(** What [_summary_cv] leaves as it found it. *)
Lemma summary_cv_frame self self' :
  _summary_cv self = Ok self' ->
  kfold self' = kfold self /\ estimator self' = estimator self
  /\ estimator_id self' = estimator_id self /\ scaler self' = scaler self
  /\ _ypred self' = _ypred self /\ _pressy self' = _pressy self
  /\ _ssy self' = _ssy self /\ y self' = y self
  /\ _Tortho self' = _Tortho self /\ _Tpred self' = _Tpred self.
Proof.
  unfold _summary_cv. intros H.
  repeat (inv_ok H; try discriminate). simpl. done.
Qed.

(** What [_summary_fit] leaves as it found it. *)
Lemma summary_fit_frame self x yv self' :
  _summary_fit self x yv = Ok self' ->
  kfold self' = kfold self /\ estimator self' = estimator self
  /\ estimator_id self' = estimator_id self /\ scaler self' = scaler self
  /\ _ypred self' = _ypred self /\ _pressy self' = _pressy self
  /\ _ssy self' = _ssy self /\ y self' = y self
  /\ _Tortho self' = _Tortho self /\ _Tpred self' = _Tpred self
  /\ _opt_component self' = _opt_component self
  /\ _mis_classifications self' = _mis_classifications self
  /\ _q2 self' = _q2 self.
Proof.
  unfold _summary_fit. intros H.
  repeat (inv_ok H; try discriminate). simpl. done.
Qed.

(** The steps of a [fit] that returns. *)
Lemma fit_steps mem self x yv self' :
  fit mem self x yv = Ok self' ->
  exists s self1 sc1 y_scale sc2 x_scale opt est0 est,
    cross_validate mem self x yv = Ok s
    /\ _summary_cv (save_metrics self s (nrows x) yv) = Ok self1
    /\ sc_fit_y (scaler self1) yv = Ok (sc1, y_scale)
    /\ sc_fit sc1 x = Ok (sc2, x_scale)
    /\ _opt_component self1 = Some opt
    /\ estimator self1 = Some est0
    /\ est_fit est0 x_scale y_scale (opt + 1) = Ok est
    /\ _summary_fit (with_models self1 sc2 (Some est)) x_scale y_scale = Ok self'.
Proof.
  unfold fit. intros H. inv_ok H. inv_ok H.
  unfold _create_optimal_model in H.
  inv_ok H. destruct a1 as [sc1 y_scale]. inv_ok H. destruct a1 as [sc2 x_scale].
  inv_ok H. inv_ok H. inv_ok H.
  unfold not_none in Hstep3. destruct (_opt_component a0) eqn:Hopt; [|done].
  unfold attribute in Hstep4. destruct (estimator a0) eqn:Hest; [|done].
  injection Hstep3 as ->. injection Hstep4 as ->.
  by eexists a, a0, sc1, y_scale, sc2, x_scale, _, _, _.
Qed.
End Object.

Section ObjectClaims.
Context {F E SC : Type}.
Context `{!Float64 F, !Numpy F, !Estimator F E, !Scaler F SC}.
Implicit Types self : CrossValidation F E SC.

(** C7. On an object whose estimator identifier is not ["opls"], each of
    [orthogonal_score], [predictive_score], [R2Xcorr], [R2XYO],
    [correlation], [covariance] and [loadings_cv] raises the ValueError
    "This is only applicable for OPLS/OPLS-DA.", whatever the other
    attributes hold; when the identifier is ["opls"] none of them raises
    it. *)
Theorem opls_only_properties self :
  (estimator_id self <> "opls" ->
     orthogonal_score self = Raise only_opls
     /\ predictive_score self = Raise only_opls
     /\ R2Xcorr self = Raise only_opls
     /\ R2XYO self = Raise only_opls
     /\ correlation self = Raise only_opls
     /\ covariance self = Raise only_opls
     /\ loadings_cv self = Raise only_opls)
  /\ (estimator_id self = "opls" ->
        orthogonal_score self <> Raise only_opls
        /\ predictive_score self <> Raise only_opls
        /\ R2Xcorr self <> Raise only_opls
        /\ R2XYO self <> Raise only_opls
        /\ correlation self <> Raise only_opls
        /\ covariance self <> Raise only_opls
        /\ loadings_cv self <> Raise only_opls).
Proof.
  unfold orthogonal_score, predictive_score, R2Xcorr, R2XYO, correlation,
    covariance, loadings_cv.
  split; intros Hid.
  - repeat split; by case_decide.
  - repeat split; (case_decide; [done|]);
      unfold not_none, attribute;
      repeat match goal with
             | |- context [match ?o with Some _ => _ | None => _ end] =>
                 destruct o; simpl; try done
             end;
      intros Hr;
      first [ apply column_raise in Hr | apply getitem_raise in Hr ];
      done.
Qed.

(** C8. After a [fit] that returns, [predict] scales its argument with
    the scaler state [sc] left by the last call of the refit,
    [scaler.fit(x)] on the whole data; when the identifier is ["opls"]
    it corrects the scaled matrix with the estimator [est] at
    [_opt_component + 1] components; it predicts with [est] at that
    count. [est] is the estimator fitted by the refit on the whole
    scaled data; the states [v_scaler s] and [v_estimator s] that the
    loop over the folds left behind are only the input of the refit. *)
Theorem predict_uses_final_refit mem self x yv self' :
  fit mem self x yv = Ok self' ->
  exists s est0 sc1 y_scale sc x_scale opt est,
    cross_validate mem self x yv = Ok s
    /\ v_estimator s = Some est0
    /\ sc_fit_y (v_scaler s) yv = Ok (sc1, y_scale)
    /\ sc_fit sc1 x = Ok (sc, x_scale)
    /\ est_fit est0 x_scale y_scale (opt + 1) = Ok est
    /\ _opt_component self' = Some opt
    /\ scaler self' = sc
    /\ estimator self' = Some est
    /\ forall x',
         predict self' x' =
           (xs ← sc_scale sc x';
            xc ← (if decide (estimator_id self = "opls")
                  then est_correct est xs (opt + 1) else Ok xs);
            est_predict est xc (opt + 1)).
Proof.
  intros Hfit.
  apply fit_steps in Hfit
    as (s & self1 & sc1 & y_scale & sc2 & x_scale & opt & est0 & est
        & Hcv & Hsum & Hfy & Hfx & Hopt & Hest0 & Hefit & Hfin).
  apply summary_fit_frame in Hfin
    as (_ & Hest & Hid & Hsc & _ & _ & _ & _ & _ & _ & Hopt' & _).
  apply summary_cv_frame in Hsum
    as (_ & Hest1 & Hid1 & Hsc1 & _).
  simpl in *. rewrite Hsc1 in Hfy. rewrite Hest1 in Hest0.
  exists s, est0, sc1, y_scale, sc2, x_scale, opt, est.
  repeat split; try done; [congruence|].
  intros x'. unfold predict.
  rewrite Hopt', Hopt, Hsc, Hest, Hid, Hid1. simpl.
  destruct (sc_scale sc2 x'); simpl; [|done].
  by case_decide.
Qed.

End ObjectClaims.

(** C6. [CrossValidation(estimator="plsda", kfold=6)] is constructed
    without an exception: the object keeps the identifier and has no
    estimator; the failure comes later, from [fit], as the AttributeError
    of [self.estimator]. *)
Theorem unknown_estimator_accepted :
  let self := Fixture.cv "plsda" 6 in
  estimator_id self = "plsda"
  /\ estimator self = None
  /\ fit Fixture.mem0 self Fixture.x6 Fixture.y6 = Raise AttributeError.
Proof. vm_compute. done. Qed.

Lemma opls_only_properties_witness :
  let pls := Fixture.fitted "pls" 3 in
  let opls := Fixture.fitted "opls" 3 in
  (estimator_id pls <> "opls" /\ R2Xcorr pls = Raise only_opls)
  /\ (estimator_id opls = "opls" /\ R2Xcorr opls <> Raise only_opls).
Proof.
  intros pls opls. split.
  - assert (estimator_id pls <> "opls") as Hid by (vm_compute; discriminate).
    split; [exact Hid|].
    exact (proj1 (proj2 (proj2 (proj1 (opls_only_properties pls) Hid)))).
  - assert (estimator_id opls = "opls") as Hid by (vm_compute; reflexivity).
    split; [exact Hid|].
    exact (proj1 (proj2 (proj2 (proj2 (opls_only_properties opls) Hid)))).
Defined.

Lemma predict_uses_final_refit_witness :
  fit Fixture.mem0 (Fixture.cv "opls" 3) Fixture.x6 Fixture.y6
    = Ok (Fixture.fitted "opls" 3)
  /\ exists sc est opt,
       scaler (Fixture.fitted "opls" 3) = sc
       /\ estimator (Fixture.fitted "opls" 3) = Some est
       /\ forall x',
            predict (Fixture.fitted "opls" 3) x' =
              (xs ← sc_scale sc x';
               xc ← est_correct est xs (opt + 1);
               est_predict est xc (opt + 1)).
Proof.
  assert (fit Fixture.mem0 (Fixture.cv "opls" 3) Fixture.x6 Fixture.y6
          = Ok (Fixture.fitted "opls" 3)) as Hfit by (vm_compute; reflexivity).
  split; [exact Hfit|].
  destruct (predict_uses_final_refit _ _ _ _ _ Hfit)
    as (s & est0 & sc1 & y_scale & sc & x_scale & opt & est
        & _ & _ & _ & _ & _ & _ & Hsc & Hest & Hpredict).
  exists sc, est, opt. repeat split; [exact Hsc | exact Hest |].
  intros x'. rewrite Hpredict. reflexivity.
Defined.

(** ** Histories of the accumulators *)

Section Accumulators.
Context {A : Type}.
Implicit Types a : accumulator A.

Lemma same_shape_trans (a b c : ndarray2 A) :
  same_shape a b -> same_shape b c -> same_shape a c.
Proof. unfold same_shape. naive_solver congruence. Qed.

Lemma set_item_spec fold k c a rx a' :
  set_item fold k c a rx = Ok a' ->
  acc_writes a' = acc_writes a ++ [Wr fold k rx.1 c]
  /\ same_shape (acc_data a') (acc_data a).
Proof.
  unfold set_item. case_decide; [|done]. intros [= <-]. simpl.
  split; [done|]. split; [|split; [done|]].
  - unfold nrows. simpl. apply length_alter.
  - unfold well_formed. simpl. intros Hwf.
    apply Forall_alter; [done|]. intros row _ Hrow. by rewrite length_insert.
Qed.

Lemma broadcast_to_length (len : nat) (v vs : list A) :
  broadcast_to len v = Ok vs -> length vs = len.
Proof.
  unfold broadcast_to. case_decide; [by intros [= <-]|].
  destruct v as [|x [|]]; try done. intros [= <-]. apply length_replicate.
Qed.

Lemma assign_column_spec fold k a idx c v a' :
  assign_column fold k a idx c v = Ok a' ->
  acc_writes a' = acc_writes a ++ col_writes fold k idx c
  /\ same_shape (acc_data a') (acc_data a).
Proof.
  unfold assign_column. case_decide; [|done]. intros Hassign.
  apply bind_Ok in Hassign as (vs & Hvs & Hloop).
  apply broadcast_to_length in Hvs.
  assert (col_writes fold k idx c = (fun rx : nat * A => Wr fold k rx.1 c) <$> zip idx vs)
    as ->.
  { unfold col_writes.
    rewrite <- (fst_zip idx vs) at 1 by lia. by rewrite <- list_fmap_compose. }
  revert Hloop. generalize (zip idx vs) as l. clear. intros l. revert a.
  induction l as [|rx l IH]; intros a Hloop; simpl in Hloop.
  - injection Hloop as <-. by rewrite app_nil_r.
  - apply bind_Ok in Hloop as (a1 & H1 & H2).
    apply set_item_spec in H1 as [Hw Hs]. apply IH in H2 as [Hw2 Hs2].
    split; [|by eapply same_shape_trans].
    rewrite Hw2, Hw, <- app_assoc. done.
Qed.
End Accumulators.

(** ** The loop of [fit] *)

Section FitLoop.
Context {F E SC : Type}.
Context `{!Float64 F, !Numpy F, !Estimator F E, !Scaler F SC}.
Implicit Types s : fit_vars F E SC.

Lemma extends_refl s : extends s s (fun _ => []).
Proof. intros name. split; [done|]. by rewrite app_nil_r. Qed.

Lemma extends_trans s s1 s2 W1 W2 :
  extends s s1 W1 -> extends s1 s2 W2 ->
  extends s s2 (fun name => W1 name ++ W2 name).
Proof.
  intros H1 H2 name. destruct (H1 name) as [Hs1 Hw1], (H2 name) as [Hs2 Hw2].
  split; [by eapply same_shape_trans|].
  intros Hc. rewrite Hw2, Hw1, app_assoc by done. done.
Qed.

Lemma take_items_length {A : Type} (l : list A) (idx : list nat) (xs : list A) :
  take_items l idx = Ok xs -> length xs = length idx.
Proof.
  revert xs; induction idx as [|i idx IH]; intros xs Hxs; simpl in Hxs.
  - by injection Hxs as <-.
  - apply bind_Ok in Hxs as (x0 & _ & Hxs). apply bind_Ok in Hxs as (xs' & Hrec & Hxs).
    injection Hxs as <-. simpl. f_equal. by apply IH.
Qed.

Lemma take_rows_shape {A : Type} (a b : ndarray2 A) (idx : list nat) :
  take_rows a idx = Ok b -> nrows b = length idx /\ ncols b = ncols a.
Proof.
  unfold take_rows. intros Hb. apply bind_Ok in Hb as (rs & Hrs & Hb).
  injection Hb as <-. split; [|done]. by apply take_items_length in Hrs.
Qed.

(** One round of the loop over the component counts. *)
Lemma fit_component_spec opls i te xtr_scale xte_scale yte_scale ssx_tot est s k s' :
  (scaler_keeps_rows -> nrows xte_scale = length te) ->
  fit_component opls i te xtr_scale xte_scale yte_scale ssx_tot est s k = Ok s' ->
  extends s s' (component_writes opls i te k)
  /\ v_npc0 s' = v_npc0 s /\ v_ssy s' = v_ssy s
  /\ v_scaler s' = v_scaler s /\ v_estimator s' = v_estimator s.
Proof.
  intros Hrows Hfit. unfold fit_component in Hfit.
  apply bind_Ok in Hfit as ([[[[yp_k tortho] tpred] ssx] pcv] & Hbranch & Hfit).
  apply bind_Ok in Hfit as (ypred & Hypred & Hfit).
  apply bind_Ok in Hfit as (err & _ & Hfit).
  apply bind_Ok in Hfit as (pressy & Hpressy & Hfit).
  injection Hfit as <-. simpl.
  apply assign_column_spec in Hypred as [Hy1 Hy2].
  apply assign_column_spec in Hpressy as [Hp1 Hp2].
  split; [|done].
  assert (same_shape (acc_data tortho) (acc_data (v_tortho s))
          /\ ((Tortho = Tortho -> scaler_keeps_rows) ->
              acc_writes tortho
              = acc_writes (v_tortho s) ++ component_writes opls i te k Tortho)
          /\ same_shape (acc_data tpred) (acc_data (v_tpred s))
          /\ acc_writes tpred
             = acc_writes (v_tpred s) ++ component_writes opls i te k Tpred)
    as (Hto1 & Hto2 & Htp1 & Htp2).
  { destruct opls; simpl.
    - apply bind_Ok in Hbranch as ([xte_corr tcorr] & _ & Hbranch).
      apply bind_Ok in Hbranch as ([yp tp_k] & _ & Hbranch).
      apply bind_Ok in Hbranch as (tortho' & Htortho & Hbranch).
      apply bind_Ok in Hbranch as (tpred' & Htpred & Hbranch).
      apply bind_Ok in Hbranch as (xte_ortho & _ & Hbranch).
      apply bind_Ok in Hbranch as (tp & _ & Hbranch).
      apply bind_Ok in Hbranch as (w & _ & Hbranch).
      injection Hbranch as <- <- <- <- <-.
      apply assign_column_spec in Htpred as [Htp1 Htp2].
      assert (same_shape (acc_data tortho') (acc_data (v_tortho s))
              /\ acc_writes tortho' = acc_writes (v_tortho s)
                 ++ col_writes i k te (if decide (nrows xte_scale = 1) then 0 else k - 1))
        as [Hto1 Hto2].
      { destruct (decide (nrows xte_scale = 1)).
        - apply bind_Ok in Htortho as (row0 & _ & Htortho).
          apply bind_Ok in Htortho as (t00 & _ & Htortho).
          by apply assign_column_spec in Htortho as [? ?].
        - apply bind_Ok in Htortho as (tc & _ & Htortho).
          by apply assign_column_spec in Htortho as [? ?]. }
      split; [exact Hto1|]. split; [|split; [exact Htp2 | exact Htp1]].
      intros Hc. rewrite Hto2, Hrows by auto. done.
    - apply bind_Ok in Hbranch as (yp & _ & Hbranch).
      injection Hbranch as <- <- <- <- <-.
      by rewrite !app_nil_r. }
  intros [| | |]; simpl; (split; [done|]); intros Hc; auto.
Qed.

(** The whole loop over the component counts of one fold. *)
Lemma fit_components_spec opls i te xtr_scale xte_scale yte_scale ssx_tot est ks s s' :
  (scaler_keeps_rows -> nrows xte_scale = length te) ->
  for_each (fit_component opls i te xtr_scale xte_scale yte_scale ssx_tot est) ks s
    = Ok s' ->
  extends s s' (fun name => flat_map (fun k => component_writes opls i te k name) ks)
  /\ v_npc0 s' = v_npc0 s /\ v_ssy s' = v_ssy s
  /\ v_scaler s' = v_scaler s /\ v_estimator s' = v_estimator s.
Proof.
  intros Hrows. revert ks s s'. apply for_each_ind.
  - intros s. split; [apply extends_refl | done].
  - intros k ks s s1 s2 Hstep (Hext & -> & -> & -> & ->).
    apply fit_component_spec in Hstep as (Hext1 & -> & -> & -> & ->); [|done].
    split; [|done]. simpl. by apply (extends_trans s s1 s2).
Qed.

(** One round of the loop over the folds. *)
Lemma fit_fold_spec opls x yv s fold s' :
  fit_fold opls x yv s fold = Ok s' ->
  extends s s' (fold_writes opls (ncols x) fold)
  /\ v_npc0 s' = v_npc0 s `min` fold_npc (ncols x) fold
  /\ exists yte_scale,
       scaled_test_responses (v_scaler s) x yv [fold.2] = Ok [yte_scale]
       /\ (forall folds,
             scaled_test_responses (v_scaler s) x yv (fold.2 :: folds)
             = (rest ← scaled_test_responses (v_scaler s') x yv folds;
                Ok (yte_scale :: rest)))
       /\ v_ssy s' = v_ssy s ++ [sum_sq yte_scale].
Proof.
  destruct fold as [i [tr te]]. unfold fit_fold. intros Hfit.
  apply bind_Ok in Hfit as (xtr & Hxtr & Hfit).
  apply bind_Ok in Hfit as (xte & Hxte & Hfit).
  apply bind_Ok in Hfit as (ytr & Hytr & Hfit).
  apply bind_Ok in Hfit as (yte & Hyte & Hfit).
  apply bind_Ok in Hfit as ([sc1 xtr_scale] & Hsc1 & Hfit).
  apply bind_Ok in Hfit as (xte_scale & Hxte_scale & Hfit).
  apply bind_Ok in Hfit as ([sc2 ytr_scale] & Hsc2 & Hfit).
  apply bind_Ok in Hfit as (yte_scale & Hyte_scale & Hfit).
  apply bind_Ok in Hfit as (est0 & Hest0 & Hfit).
  apply bind_Ok in Hfit as (est & Hest & Hfit).
  apply bind_Ok in Hfit as (s1 & Hloop & Hfit).
  injection Hfit as <-.
  apply take_rows_shape in Hxtr as Hxtr_shape. destruct Hxtr_shape as [Hn Hp].
  apply take_rows_shape in Hxte as Hxte_shape. destruct Hxte_shape as [Hnte _].
  apply fit_components_spec in Hloop as (Hext & Hnpc0 & Hssy & Hsc & _).
  2:{ intros Hc. rewrite (Hc _ _ _ Hxte_scale). done. }
  simpl in *. split; [|split].
  - unfold fold_writes, fold_npc. simpl. rewrite <- Hn, <- Hp.
    intros name. destruct (Hext name) as [Hs Hw]. by destruct name.
  - rewrite Hnpc0. unfold fold_npc. simpl. rewrite <- Hn, <- Hp.
    case_decide; lia.
  - exists yte_scale. rewrite Hssy, Hsc.
    split; [|split; [|done]].
    + rewrite Hxtr, Hytr, Hyte. simpl. rewrite Hsc1. simpl.
      rewrite Hsc2. simpl. rewrite Hyte_scale. done.
    + intros folds. rewrite Hxtr, Hytr, Hyte. simpl. rewrite Hsc1. simpl.
      rewrite Hsc2. simpl. rewrite Hyte_scale. done.
Qed.

End FitLoop.

Section CrossValidate.
Context {F E SC : Type}.
Context `{!Float64 F, !Numpy F, !Estimator F E, !Scaler F SC}.
Implicit Types s : fit_vars F E SC.
Implicit Types self : CrossValidation F E SC.

Lemma enumerate_lookup {A : Type} (l : list A) (i j : nat) (a : A) :
  enumerate l !! i = Some (j, a) <-> i = j /\ l !! i = Some a.
Proof.
  unfold enumerate. rewrite list_lookup_imap.
  destruct (l !! i); simpl; naive_solver.
Qed.

Lemma enumerate_snd {A : Type} (l : list A) : (enumerate l).*2 = l.
Proof.
  unfold enumerate. rewrite fmap_imap.
  rewrite (imap_ext _ (const id)) by done.
  by rewrite imap_const, list_fmap_id.
Qed.

(** The loop over a list of numbered folds. *)
Lemma fit_folds_spec opls x yv l s s' :
  for_each (fit_fold opls x yv) l s = Ok s' ->
  extends s s' (fun name => flat_map (fun fold => fold_writes opls (ncols x) fold name) l)
  /\ v_npc0 s' <= v_npc0 s
  /\ Forall (fun fold => v_npc0 s' <= fold_npc (ncols x) fold) l
  /\ exists ytes,
       scaled_test_responses (v_scaler s) x yv (l.*2) = Ok ytes
       /\ v_ssy s' = v_ssy s ++ (sum_sq <$> ytes).
Proof.
  revert l s s'. apply for_each_ind.
  - intros s. split; [apply extends_refl|]. split; [done|]. split; [done|].
    exists []. simpl. by rewrite app_nil_r.
  - intros fold l s s1 s2 Hstep (Hext & Hle & Hall & ytes & Hytes & Hssy).
    apply fit_fold_spec in Hstep as (Hext1 & Hnpc & yte & _ & Hresp & Hssy1).
    split; [by apply (extends_trans s s1 s2)|].
    split; [lia|]. split; [constructor; [lia | done]|].
    exists (yte :: ytes). split.
    + rewrite fmap_cons, Hresp, Hytes. done.
    + rewrite Hssy, Hssy1, <- app_assoc. done.
Qed.

Lemma np_empty_shape (junk : nat -> nat -> F) (n m : nat) :
  nrows (np_empty junk n m) = n /\ ncols (np_empty junk n m) = m
  /\ well_formed (np_empty junk n m).
Proof.
  unfold np_empty, nrows, well_formed. simpl.
  rewrite length_fmap, length_seq. split; [done|]. split; [done|].
  apply Forall_fmap, Forall_forall. intros r _. simpl.
  by rewrite length_fmap, length_seq.
Qed.

(** [cross_validate] as a whole: the histories of the accumulators, their
    shape, the final [npc0] and the list [ssy]. *)
Lemma cross_validate_spec mem self x yv s :
  cross_validate mem self x yv = Ok s ->
  let n := nrows x in
  let p := ncols x in
  let opls := bool_decide (estimator_id self = "opls") in
  exists folds,
    _split (kfold self) n = Ok folds
    /\ (forall name,
          nrows (acc_data (acc_of s name)) = n
          /\ ncols (acc_data (acc_of s name)) = n `min` p
          /\ well_formed (acc_data (acc_of s name))
          /\ ((name = Tortho -> scaler_keeps_rows) ->
              acc_writes (acc_of s name) = cv_writes opls p folds name))
    /\ v_npc0 s <= n `min` p
    /\ (forall i fold, folds !! i = Some fold -> v_npc0 s <= fold_npc p (i, fold))
    /\ exists ytes,
         scaled_test_responses (scaler self) x yv folds = Ok ytes
         /\ v_ssy s = sum_sq <$> ytes.
Proof.
  intros Hcv n p opls. unfold cross_validate in Hcv.
  apply bind_Ok in Hcv as (folds & Hsplit & Hloop).
  apply fit_folds_spec in Hloop as (Hext & Hle & Hall & ytes & Hytes & Hssy).
  exists folds. split; [done|].
  split; [|split; [exact Hle|split]].
  - intros name. destruct (Hext name) as [(Hr & Hc & Hwf) Hw].
    pose proof (np_empty_shape (mem name) n (n `min` p)) as (Hr0 & Hc0 & Hwf0).
    fold n p in Hr, Hc, Hwf, Hw.
    destruct name; simpl in Hr, Hc, Hwf, Hw |- *;
      rewrite Hr, Hc; auto.
  - intros i fold Hi. rewrite Forall_forall in Hall. apply Hall.
    apply list_elem_of_lookup. exists i. by apply enumerate_lookup.
  - exists ytes. simpl in Hytes, Hssy. by rewrite enumerate_snd in Hytes.
Qed.

End CrossValidate.

(** ** The assignments to one row *)

Section Rows.

Lemma component_writes_active opls i te k name :
  active opls name = true ->
  component_writes opls i te k name = col_writes i k te (write_col name te k).
Proof. by destruct name, opls. Qed.

Lemma component_writes_inactive opls i te k name :
  active opls name = false -> component_writes opls i te k name = [].
Proof. by destruct name, opls. Qed.

Lemma filter_flat_map {A B : Type} (P : B -> Prop) `{!forall b, Decision (P b)}
    (f : A -> list B) (l : list A) :
  filter P (flat_map f l) = flat_map (fun a => filter P (f a)) l.
Proof.
  induction l as [|a l IH]; simpl; [done|]. by rewrite filter_app, IH.
Qed.

Lemma flat_map_nil {A B : Type} (f : A -> list B) (l : list A) :
  (forall a, a ∈ l -> f a = []) -> flat_map f l = [].
Proof.
  induction l as [|a l IH]; intros Hf; simpl; [done|].
  rewrite Hf, IH; [done | | ]; intros; try apply Hf; set_solver.
Qed.

Lemma flat_map_singleton {A B : Type} (f : A -> list B) (g : A -> B) (l : list A) :
  (forall a, a ∈ l -> f a = [g a]) -> flat_map f l = g <$> l.
Proof.
  induction l as [|a l IH]; intros Hf; simpl; [done|].
  rewrite Hf, IH; [done | | ]; intros; try apply Hf; set_solver.
Qed.

Lemma filter_row_col_writes (i k : nat) (te : list nat) (c r : nat) :
  NoDup te ->
  filter (fun w => w_row w = r) (col_writes i k te c)
  = if decide (r ∈ te) then [Wr i k r c] else [].
Proof.
  unfold col_writes. induction 1 as [|x te Hx Hte IH]; [done|].
  rewrite fmap_cons, filter_cons, IH. simpl.
  destruct (decide (x = r)) as [->|Hne].
  - rewrite (decide_True (P := r ∈ r :: te)) by set_solver.
    rewrite decide_False by done. done.
  - destruct (decide (r ∈ te)).
    + rewrite decide_True by set_solver. done.
    + rewrite decide_False by set_solver. done.
Qed.

(** The assignments of one fold to the row [r]. *)
Lemma fold_writes_row opls p i tr te name r :
  NoDup te -> active opls name = true ->
  filter (fun w => w_row w = r) (fold_writes opls p (i, (tr, te)) name)
  = if decide (r ∈ te)
    then (fun k => Wr i k r (write_col name te k)) <$> seq 1 (length tr `min` p)
    else [].
Proof.
  intros Hte Hact. unfold fold_writes, fold_npc. simpl.
  rewrite filter_flat_map. destruct (decide (r ∈ te)) as [Hr|Hr].
  - apply flat_map_singleton. intros k _.
    rewrite component_writes_active, filter_row_col_writes by done.
    by rewrite decide_True.
  - apply flat_map_nil. intros k _.
    rewrite component_writes_active, filter_row_col_writes by done.
    by rewrite decide_False.
Qed.

Lemma fold_writes_inactive opls p fold name :
  active opls name = false -> fold_writes opls p fold name = [].
Proof.
  intros Hact. unfold fold_writes. apply flat_map_nil. intros k _.
  by apply component_writes_inactive.
Qed.

(** The assignments of the whole cross validation to a row that fold
    [i] holds out: those of fold [i], one per component count. *)
Lemma cv_writes_row kfold n folds opls p name i tr te r :
  (1 <= kfold)%Z -> _split kfold n = Ok folds ->
  folds !! i = Some (tr, te) -> r ∈ te -> active opls name = true ->
  filter (fun w => w_row w = r) (cv_writes opls p folds name)
  = (fun k => Wr i k r (write_col name te k)) <$> seq 1 (length tr `min` p).
Proof.
  intros Hk Hs Hi Hr Hact. unfold cv_writes. rewrite filter_flat_map.
  assert (forall j tr' te', folds !! j = Some (tr', te') -> j <> i ->
            filter (fun w => w_row w = r) (fold_writes opls p (j, (tr', te')) name) = [])
    as Hother.
  { intros j tr' te' Hj Hne.
    assert (NoDup te') as Hnd.
    { apply (split_lookup kfold n folds j tr' te' Hk Hs) in Hj as (_ & -> & _).
      apply NoDup_seq. }
    rewrite fold_writes_row by done. rewrite decide_False; [done|].
    intros Hr'. apply Hne. by eapply (split_disjoint kfold n folds j i). }
  assert (enumerate folds !! i = Some (i, (tr, te))) as Hei
    by by apply enumerate_lookup.
  rewrite <- (take_drop_middle _ _ _ Hei), flat_map_app. simpl.
  rewrite !flat_map_nil.
  - rewrite app_nil_r. simpl. rewrite fold_writes_row, decide_True; try done.
    apply (split_lookup kfold n folds i tr te Hk Hs) in Hi as (_ & -> & _).
    apply NoDup_seq.
  - intros [j [tr' te']] Hin. apply list_elem_of_lookup in Hin as [j' Hj'].
    rewrite lookup_drop in Hj'. apply enumerate_lookup in Hj' as [<- Hj'].
    apply (Hother _ _ _ Hj'). lia.
  - intros [j [tr' te']] Hin. apply elem_of_take in Hin as (j' & Hj' & Hlt).
    apply enumerate_lookup in Hj' as [<- Hj'].
    apply (Hother _ _ _ Hj'). lia.
Qed.

(** A row that no fold holds out is never assigned. *)
Lemma cv_writes_row_none kfold n folds opls p name r :
  (1 <= kfold)%Z -> _split kfold n = Ok folds ->
  (forall i tr te, folds !! i = Some (tr, te) -> r ∉ te) ->
  filter (fun w => w_row w = r) (cv_writes opls p folds name) = [].
Proof.
  intros Hk Hs Hnone. unfold cv_writes. rewrite filter_flat_map.
  apply flat_map_nil. intros [j [tr te]] Hin.
  apply list_elem_of_lookup in Hin as [j' Hj'].
  apply enumerate_lookup in Hj' as [<- Hj'].
  destruct (active opls name) eqn:Hact.
  - rewrite fold_writes_row, decide_False; eauto.
    apply (split_lookup kfold n folds j' tr te Hk Hs) in Hj' as (_ & -> & _).
    apply NoDup_seq.
  - by rewrite fold_writes_inactive.
Qed.

(** Among the assignments [Wr i k r (k - 1)] for [k = 1 .. m], the one
    to column [j]. *)
Lemma filter_col_components (i r j m : nat) :
  filter (fun w => w_col w = j) ((fun k => Wr i k r (k - 1)) <$> seq 1 m)
  = if decide (j < m) then [Wr i (j + 1) r j] else [].
Proof.
  induction m as [|m IH]; [done|].
  rewrite seq_S, fmap_app, filter_app, IH. simpl.
  rewrite filter_cons, filter_nil. simpl. rewrite Nat.sub_0_r.
  destruct (decide (m = j)) as [->|Hne].
  - rewrite decide_False, decide_True by lia. by rewrite Nat.add_comm.
  - destruct (decide (j < m)).
    + rewrite decide_True by lia. done.
    + rewrite decide_False by lia. done.
Qed.

End Rows.

Section WriteClaims.
Context {F E SC : Type}.
Context `{!Float64 F, !Numpy F, !Estimator F E, !Scaler F SC}.
Implicit Types s : fit_vars F E SC.
Implicit Types self : CrossValidation F E SC.

Lemma split_fold_count kfold n folds i fold :
  _split kfold n = Ok folds -> folds !! i = Some fold -> (1 <= kfold)%Z.
Proof.
  unfold _split, py_range. case_decide; [done|]. intros [= <-] Hi.
  rewrite list_lookup_fmap in Hi.
  destruct (seqZ 0 kfold !! i) as [z|] eqn:Hz; [|done].
  apply lookup_seqZ in Hz. lia.
Qed.

(** The assignments to one cell of an accumulator whose column at
    component count [k] is [k - 1]. *)
Lemma cv_writes_cell kfold n folds opls p name r j :
  (1 <= kfold)%Z -> _split kfold n = Ok folds ->
  active opls name = true -> name <> Tortho ->
  (forall i tr te,
     folds !! i = Some (tr, te) -> r ∈ te ->
     filter (fun w => w_row w = r /\ w_col w = j) (cv_writes opls p folds name)
     = if decide (j < length tr `min` p) then [Wr i (j + 1) r j] else [])
  /\ length (filter (fun w => w_row w = r /\ w_col w = j) (cv_writes opls p folds name))
     <= 1.
Proof.
  intros Hk Hs Hact Hname.
  assert (forall l : list write,
            filter (fun w => w_row w = r /\ w_col w = j) l
            = filter (fun w => w_col w = j) (filter (fun w => w_row w = r) l))
    as Hsplit.
  { intros l. rewrite list_filter_filter. apply list_filter_iff. naive_solver. }
  assert (forall i tr te,
            folds !! i = Some (tr, te) -> r ∈ te ->
            filter (fun w => w_row w = r /\ w_col w = j) (cv_writes opls p folds name)
            = if decide (j < length tr `min` p) then [Wr i (j + 1) r j] else [])
    as Hcell.
  { intros i tr te Hi Hr.
    rewrite Hsplit, (cv_writes_row kfold n folds opls p name i tr te r) by done.
    rewrite (list_fmap_ext _ (fun k => Wr i k r (k - 1)));
      [apply filter_col_components|].
    intros ? k _. by destruct name. }
  split; [exact Hcell|].
  destruct (decide (r < n `div` Z.to_nat kfold * Z.to_nat kfold)) as [Hr|Hr].
  - apply (split_held_out kfold n folds r Hk Hs) in Hr as (i & tr & te & Hi & Hr).
    rewrite (Hcell i tr te Hi Hr). case_decide; simpl; lia.
  - rewrite Hsplit, (cv_writes_row_none kfold n folds); [simpl; lia|done|done|].
    intros i tr te Hi Hin. apply Hr.
    apply (split_held_out kfold n folds r Hk Hs). eauto.
Qed.

End WriteClaims.

Lemma fixture_scaler_keeps_rows :
  scaler_keeps_rows (F := Q) (SC := list Q).
Proof.
  intros sc m m' Hm. injection Hm as <-. unfold nrows, Fixture.centre. simpl.
  apply length_fmap.
Qed.

(** ** The summary of the cross validation *)

Section Summary.
Context {F E SC : Type}.
Context `{!Float64 F, !Numpy F, !Estimator F E, !Scaler F SC}.
Implicit Types s : fit_vars F E SC.
Implicit Types self : CrossValidation F E SC.

Lemma broadcast2_singleton_r {A B C : Type} (f : A -> B -> C) (u : list A) (b : B) :
  broadcast2 f u [b] = Ok ((fun a => f a b) <$> u).
Proof.
  unfold broadcast2. destruct (decide (length u = length [b])) as [Hlen|Hlen].
  - by destruct u as [|a [|]].
  - by destruct u as [|a [|]].
Qed.

Lemma broadcast_len_1 (a : nat) : broadcast_len a 1 = Ok a.
Proof. unfold broadcast_len. repeat case_decide; by subst. Qed.

Lemma elementwise2_column_ncols {A B C : Type} (f : A -> B -> C)
    (a : ndarray2 A) (v : list B) (d : ndarray2 C) :
  elementwise2 f a (as_column v) = Ok d -> ncols d = ncols a.
Proof.
  unfold elementwise2. simpl. rewrite broadcast_len_1. simpl. intros Hd.
  apply bind_Ok in Hd as (rs & _ & Hd). apply bind_Ok in Hd as (rs' & _ & Hd).
  by injection Hd as <-.
Qed.

Lemma elementwise2_column {A B C : Type} (f : A -> B -> C)
    (a : ndarray2 A) (v : list B) :
  nrows a = length v ->
  elementwise2 f a (as_column v)
  = Ok (Array2 (ncols a) (zip_with (fun row c => (fun x => f x c) <$> row) (rows a) v)).
Proof.
  unfold elementwise2, nrows. simpl. rewrite broadcast_len_1. simpl. intros Hlen.
  unfold broadcast2 at 1. rewrite decide_True by (by rewrite length_fmap). simpl.
  assert (mapM id (zip_with (broadcast2 f) (rows a) ((fun x => [x]) <$> v))
          = Ok (zip_with (fun row c => (fun x => f x c) <$> row) (rows a) v)) as ->;
    [|done].
  clear Hlen. generalize (rows a) as l. intros l. revert v.
  induction l as [|row l IH]; intros [|c v]; simpl; try done.
  rewrite broadcast2_singleton_r. simpl. by rewrite IH.
Qed.

Lemma map_array_nrows {A B : Type} (f : A -> B) (a : ndarray2 A) :
  nrows (map_array f a) = nrows a.
Proof. unfold map_array, nrows. simpl. apply length_fmap. Qed.

Lemma count_axis0_length (a : ndarray2 bool) : length (count_axis0 a) = ncols a.
Proof. unfold count_axis0. by rewrite length_fmap, length_seq. Qed.

(** The number of mis-classifications of a column, sample by sample. *)
Lemma count_misclassified (j : nat) (rws : list (list F)) (ys : list F) :
  length (filter (fun row : list bool => row !! j = Some true)
            ((fun row : list F => (fun d => f_neb d f_zero) <$> row)
               <$> zip_with (fun row c => (fun v => f_sub v c) <$> row)
                     ((fun row : list F => class_of <$> row) <$> rws) ys))
  = length (filter (fun rc => misclassified j rc.1 rc.2 = true) (zip rws ys)).
Proof.
  revert ys; induction rws as [|row rws IH]; intros [|c ys]; simpl; try done.
  rewrite !filter_cons. simpl. specialize (IH ys).
  assert (((fun d => f_neb d f_zero) <$> ((fun v => f_sub v c) <$> (class_of <$> row)))
            !! j = Some true
          <-> misclassified j row c = true) as Hiff.
  { unfold misclassified, predicted_class. rewrite !list_lookup_fmap.
    destruct (row !! j); simpl; unfold class_of; split; congruence. }
  destruct (decide (_ !! j = Some true)) as [Hl|Hl],
           (decide (misclassified j row c = true)) as [Hr|Hr];
    simpl; try tauto; by rewrite <- ?IH.
Qed.

(** [np.argmin] returns the first index of the least element. *)
Lemma argmin_from_spec (l pre : list nat) (at_ best : nat) :
  pre !! at_ = Some best ->
  (forall i x, pre !! i = Some x -> best <= x /\ (i < at_ -> best < x)) ->
  let j := argmin_from at_ best (length pre) l in
  exists m, (pre ++ l) !! j = Some m
            /\ forall i x, (pre ++ l) !! i = Some x -> m <= x /\ (i < j -> m < x).
Proof.
  revert pre at_ best. induction l as [|v l IH]; intros pre at_ best Hat Hmin; simpl.
  - exists best. by rewrite app_nil_r.
  - assert (at_ < length pre) as Hlt by (by eapply lookup_lt_Some).
    replace (pre ++ v :: l) with ((pre ++ [v]) ++ l) by (by rewrite <- app_assoc).
    replace (S (length pre)) with (length (pre ++ [v]))
      by (rewrite length_app; simpl; lia).
    case_decide.
    + apply IH.
      * by rewrite lookup_app_r, Nat.sub_diag by lia.
      * intros i x Hi. apply lookup_app_Some in Hi as [Hi|[Hge Hi]].
        -- apply Hmin in Hi. lia.
        -- apply list_lookup_singleton_Some in Hi as [Hi <-]. lia.
    + apply IH.
      * by rewrite lookup_app_l.
      * intros i x Hi. apply lookup_app_Some in Hi as [Hi|[Hge Hi]].
        -- by apply Hmin.
        -- apply list_lookup_singleton_Some in Hi as [Hi <-]. lia.
Qed.

Lemma np_argmin_spec (l : list nat) (j : nat) :
  np_argmin l = Ok j ->
  exists m, l !! j = Some m
            /\ forall i x, l !! i = Some x -> m <= x /\ (i < j -> m < x).
Proof.
  destruct l as [|v l]; [done|]. intros [= <-].
  apply (argmin_from_spec l [v] 0 v); [done|].
  intros [|i] x Hi; simplify_eq/=. lia.
Qed.

(** What [_summary_cv] reads and what it stores. *)
Lemma summary_cv_spec self self' :
  _summary_cv self = Ok self' ->
  exists ypred yv diff opt pressy ssy,
    _ypred self = Some ypred /\ y self = Some yv
    /\ elementwise2 f_sub (pred_class ypred) (as_column yv) = Ok diff
    /\ np_argmin (count_axis0 (map_array (fun d => f_neb d f_zero) diff)) = Ok opt
    /\ _pressy self = Some pressy /\ _ssy self = Some ssy
    /\ _opt_component self' = Some opt
    /\ _mis_classifications self'
       = Some (count_axis0 (map_array (fun d => f_neb d f_zero) diff))
    /\ _q2 self' = Some ((fun t => f_sub f_one (f_div t ssy)) <$> sum_axis0 pressy).
Proof.
  unfold _summary_cv, not_none. intros Hs.
  destruct (_ypred self) as [ypred|]; [|done]. simpl in Hs.
  destruct (y self) as [yv|]; [|done]. simpl in Hs.
  apply bind_Ok in Hs as (diff & Hdiff & Hs).
  apply bind_Ok in Hs as (opt & Hopt & Hs).
  destruct (_pressy self) as [pressy|]; [|done]. simpl in Hs.
  destruct (_ssy self) as [ssy|]; [|done]. simpl in Hs.
  apply bind_Ok in Hs as ([r2xcorr r2xyo] & _ & Hs).
  injection Hs as <-. simpl.
  by exists ypred, yv, diff, opt, pressy, ssy.
Qed.

Lemma first_cols_shape {A : Type} (a : ndarray2 A) (k : nat) :
  well_formed a -> k <= ncols a ->
  nrows (first_cols a k) = nrows a /\ ncols (first_cols a k) = k
  /\ well_formed (first_cols a k).
Proof.
  intros Hwf Hk. unfold first_cols, nrows, well_formed. simpl.
  rewrite length_fmap. split; [done|]. split; [lia|].
  apply Forall_fmap. eapply Forall_impl; [exact Hwf|].
  intros row Hrow. simpl in *. rewrite length_take, Hrow. done.
Qed.

(** On a rectangular array [a[:, j]] is the list of the cells of the
    column. *)
Lemma column_well_formed {A : Type} (a : ndarray2 A) (j : nat) :
  well_formed a -> j < ncols a ->
  column a j = Ok (col_cells a j) /\ length (col_cells a j) = nrows a.
Proof.
  unfold column, col_cells, getitem, nrows, well_formed. intros Hwf Hj.
  rewrite decide_True by done. revert Hwf. generalize (rows a) as l.
  induction l as [|row l IH]; intros Hwf; [done|].
  apply Forall_cons in Hwf as [Hrow Hwf]. destruct (IH Hwf) as [IH1 IH2].
  assert (j < length row) as Hlt by (simpl in Hrow; lia).
  destruct (lookup_lt_is_Some_2 row j Hlt) as [v Hv].
  simpl. rewrite Hv. simpl. rewrite IH1. simpl. split; [done|].
  f_equal. exact IH2.
Qed.

End Summary.

Section FitClaims.
Context {F E SC : Type}.
Context `{!Float64 F, !Numpy F, !Estimator F E, !Scaler F SC}.
Implicit Types s : fit_vars F E SC.
Implicit Types self : CrossValidation F E SC.

(** What a [fit] that returns has stored. *)
Lemma fit_summary mem self x yv self' :
  fit mem self x yv = Ok self' ->
  exists s diff opt,
    cross_validate mem self x yv = Ok s
    /\ _ypred self' = Some (first_cols (acc_data (v_ypred s)) (v_npc0 s))
    /\ _pressy self' = Some (first_cols (acc_data (v_pressy s)) (v_npc0 s))
    /\ _ssy self' = Some (py_sum (v_ssy s))
    /\ elementwise2 f_sub
         (pred_class (first_cols (acc_data (v_ypred s)) (v_npc0 s))) (as_column yv)
       = Ok diff
    /\ np_argmin (count_axis0 (map_array (fun d => f_neb d f_zero) diff)) = Ok opt
    /\ _opt_component self' = Some opt
    /\ _mis_classifications self'
       = Some (count_axis0 (map_array (fun d => f_neb d f_zero) diff))
    /\ _q2 self'
       = Some ((fun t => f_sub f_one (f_div t (py_sum (v_ssy s))))
                 <$> sum_axis0 (first_cols (acc_data (v_pressy s)) (v_npc0 s)))
    /\ (estimator_id self = "opls" ->
        _Tpred self' = Some (first_cols (acc_data (v_tpred s)) (v_npc0 s)))
    /\ opt < v_npc0 s
    /\ estimator_id self' = estimator_id self.
Proof.
  intros Hfit.
  apply fit_steps in Hfit
    as (s & self1 & sc1 & y_scale & sc2 & x_scale & opt' & est0 & est
        & Hcv & Hsum & _ & _ & _ & _ & _ & Hfin).
  apply summary_fit_frame in Hfin
    as (_ & _ & Hid & _ & Hyp & Hpr & Hssy & _ & _ & Htp & Hopt & Hnmc & Hq2).
  pose proof (summary_cv_frame _ _ Hsum)
    as (_ & _ & Hid1 & _ & Hyp1 & Hpr1 & Hssy1 & _ & _ & Htp1).
  apply summary_cv_spec in Hsum
    as (ypred & yv' & diff & opt & pressy & ssy
        & Hy & Hyv & Hdiff & Hargmin & Hp & Hs & Hopt1 & Hnmc1 & Hq21).
  simpl in *. injection Hy as <-. injection Hyv as <-.
  injection Hp as <-. injection Hs as <-.
  assert (opt < v_npc0 s) as Hlt.
  { destruct (cross_validate_spec mem self x yv s Hcv) as (folds & _ & Hacc & Hnpc0 & _).
    destruct (Hacc Ypred) as (_ & Hc & _). simpl in Hc.
    destruct (np_argmin_spec _ opt Hargmin) as (m & Hm & _).
    apply lookup_lt_Some in Hm. rewrite count_axis0_length in Hm. simpl in Hm.
    apply elementwise2_column_ncols in Hdiff. rewrite Hdiff in Hm.
    unfold pred_class in Hm. simpl in Hm. lia. }
  exists s, diff, opt.
  repeat split; try congruence.
  intros Hid'. rewrite Htp, Htp1. by rewrite bool_decide_eq_true_2.
Qed.

(** C9. After a [fit] that returns: with the identifier ["pls"],
    [scores] is the [scores_x] of the estimator the object holds; with
    ["opls"], [scores] is what [predictive_score] returns, the column
    [_opt_component] of [_Tpred]. *)
Theorem scores_round_trip mem self x yv self' :
  fit mem self x yv = Ok self' ->
  (estimator_id self = "pls" ->
     exists est, estimator self' = Some est
                 /\ scores self' = Ok (Arr2 (est_scores_x est)))
  /\ (estimator_id self = "opls" ->
        exists tpred opt v,
          _Tpred self' = Some tpred /\ _opt_component self' = Some opt
          /\ column tpred opt = Ok v
          /\ predictive_score self' = Ok v
          /\ scores self' = Ok (Arr1 v)).
Proof.
  intros Hfit. split; intros Hself.
  - apply fit_steps in Hfit
      as (s & self1 & sc1 & y_scale & sc2 & x_scale & opt & est0 & est
          & _ & Hsum & _ & _ & _ & _ & _ & Hfin).
    apply summary_fit_frame in Hfin as (_ & Hest & Hid & _).
    apply summary_cv_frame in Hsum as (_ & _ & Hid1 & _).
    simpl in *. exists est. split; [done|]. unfold scores.
    rewrite Hid, Hid1, Hself, Hest. by case_decide.
  - apply fit_summary in Hfit
      as (s & diff & opt & Hcv & _ & _ & _ & _ & _ & Hopt & _ & _ & Htp & Hlt & Hid).
    destruct (cross_validate_spec mem self x yv s Hcv) as (folds & _ & Hacc & Hnpc0 & _).
    destruct (Hacc Tpred) as (_ & Hc & Hwf & _). simpl in Hc, Hwf.
    destruct (first_cols_shape (acc_data (v_tpred s)) (v_npc0 s) Hwf ltac:(lia))
      as (_ & Hc' & Hwf').
    destruct (column_well_formed _ opt Hwf' ltac:(lia)) as [Hcol _].
    eexists _, opt, _. split; [by apply Htp|]. split; [done|]. split; [exact Hcol|].
    assert (predictive_score self'
            = Ok (col_cells (first_cols (acc_data (v_tpred s)) (v_npc0 s)) opt))
      as Hps.
    { unfold predictive_score. rewrite Hid, Hself, Htp, Hopt by done.
      rewrite decide_False by naive_solver. simpl. exact Hcol. }
    split; [exact Hps|]. unfold scores. rewrite Hid, Hself, Hps.
    by rewrite decide_True.
Qed.

(** C1. After a [fit] that returns: [_ypred] has [n] rows and [npc0]
    columns, [npc0] being the value the loop ended with;
    [mis_classifications] has one entry per column and, for a response
    [y] of [n] entries, entry [j] is the number of samples whose
    predicted class in column [j] ([predicted_class]: 1 if the stored
    prediction is greater than zero, else 0) differs from the sample's
    response;
    [_opt_component] is [np.argmin] of it, the first index that holds
    the least count; [optimal_component_num] is that index plus one and
    lies between [1] and [npc0]. *)
Theorem optimal_component_is_argmin mem self x yv self' :
  fit mem self x yv = Ok self' ->
  exists s ypred nmc opt,
    cross_validate mem self x yv = Ok s
    /\ _ypred self' = Some ypred
    /\ nrows ypred = nrows x /\ ncols ypred = v_npc0 s
    /\ _mis_classifications self' = Some nmc
    /\ length nmc = v_npc0 s
    /\ (length yv = nrows x ->
        forall j, j < v_npc0 s ->
          nmc !! j
          = Some (length (filter (fun rc => misclassified j rc.1 rc.2 = true)
                            (zip (rows ypred) yv))))
    /\ _opt_component self' = Some opt
    /\ np_argmin nmc = Ok opt
    /\ (exists m, nmc !! opt = Some m
                  /\ forall j c, nmc !! j = Some c -> m <= c /\ (j < opt -> m < c))
    /\ optimal_component_num self' = Ok (opt + 1)
    /\ 1 <= opt + 1 <= v_npc0 s.
Proof.
  intros Hfit.
  apply fit_summary in Hfit
    as (s & diff & opt & Hcv & Hyp & _ & _ & Hdiff & Hargmin & Hopt & Hnmc & _).
  destruct (cross_validate_spec mem self x yv s Hcv)
    as (folds & _ & Hacc & Hnpc0 & _).
  destruct (Hacc Ypred) as (Hr & Hc & Hwf & _). simpl in Hr, Hc, Hwf.
  destruct (first_cols_shape (acc_data (v_ypred s)) (v_npc0 s) Hwf ltac:(lia))
    as (Hr' & Hc' & _).
  set (ypred := first_cols (acc_data (v_ypred s)) (v_npc0 s)) in *.
  set (nmc := count_axis0 (map_array (fun d => f_neb d f_zero) diff)) in *.
  assert (length nmc = v_npc0 s) as Hlen.
  { unfold nmc. rewrite count_axis0_length. simpl.
    apply elementwise2_column_ncols in Hdiff. by rewrite Hdiff. }
  destruct (np_argmin_spec nmc opt Hargmin) as (m & Hm & Hmin).
  assert (opt < v_npc0 s) as Hlt
    by (rewrite <- Hlen; by eapply lookup_lt_Some).
  exists s, ypred, nmc, opt.
  split; [done|]. split; [done|]. split; [congruence|]. split; [done|].
  split; [done|]. split; [done|]. split.
  - intros Hy j Hj.
    assert (nrows (pred_class ypred) = length yv) as Hrows.
    { unfold pred_class. rewrite map_array_nrows. congruence. }
    rewrite elementwise2_column in Hdiff by exact Hrows.
    injection Hdiff as <-. unfold nmc, count_axis0. simpl.
    rewrite list_lookup_fmap, lookup_seq_lt by lia. simpl.
    f_equal. apply count_misclassified.
  - split; [done|]. split; [done|]. split; [by exists m|].
    split; [|lia]. unfold optimal_component_num. by rewrite Hopt.
Qed.

(** The general part of C2. *)
Lemma q2_curve_of_fit mem self x yv self' :
  fit mem self x yv = Ok self' ->
  exists s folds ytes pressy ssy q2v opt,
    cross_validate mem self x yv = Ok s
    /\ _split (kfold self) (nrows x) = Ok folds
    /\ scaled_test_responses (scaler self) x yv folds = Ok ytes
    /\ _ssy self' = Some ssy
    /\ ssy = py_sum (sum_sq <$> ytes)
    /\ _pressy self' = Some pressy
    /\ ncols pressy = v_npc0 s
    /\ _q2 self' = Some q2v
    /\ length q2v = v_npc0 s
    /\ (forall j, j < v_npc0 s ->
          column pressy j = Ok (col_cells pressy j)
          /\ q2v !! j = Some (f_sub f_one (f_div (np_sum (col_cells pressy j)) ssy)))
    /\ _opt_component self' = Some opt
    /\ opt < v_npc0 s
    /\ q2 self' = Ok (f_sub f_one (f_div (np_sum (col_cells pressy opt)) ssy)).
Proof.
  intros Hfit.
  apply fit_summary in Hfit
    as (s & diff & opt & Hcv & _ & Hpr & Hssy & Hdiff & Hargmin & Hopt & _ & Hq2 & _).
  destruct (cross_validate_spec mem self x yv s Hcv)
    as (folds & Hs & Hacc & Hnpc0 & _ & ytes & Hytes & Hssy_list).
  destruct (Hacc Pressy) as (Hr & Hc & Hwf & _). simpl in Hr, Hc, Hwf.
  destruct (first_cols_shape (acc_data (v_pressy s)) (v_npc0 s) Hwf ltac:(lia))
    as (Hr' & Hc' & Hwf').
  set (pressy := first_cols (acc_data (v_pressy s)) (v_npc0 s)) in *.
  assert (forall j, j < v_npc0 s ->
            ((fun t => f_sub f_one (f_div t (py_sum (v_ssy s)))) <$> sum_axis0 pressy)
              !! j
            = Some (f_sub f_one (f_div (np_sum (col_cells pressy j)) (py_sum (v_ssy s)))))
    as Hq2j.
  { intros j Hj. unfold sum_axis0.
    rewrite !list_lookup_fmap, lookup_seq_lt by lia. done. }
  assert (opt < v_npc0 s) as Hlt.
  { destruct (np_argmin_spec _ opt Hargmin) as (m & Hm & _).
    apply lookup_lt_Some in Hm. rewrite count_axis0_length in Hm. simpl in Hm.
    apply elementwise2_column_ncols in Hdiff. rewrite Hdiff in Hm.
    unfold pred_class in Hm. simpl in Hm. lia. }
  eexists s, folds, ytes, pressy, _, _, opt.
  split; [done|]. split; [done|]. split; [done|]. split; [exact Hssy|].
  split; [by rewrite Hssy_list|]. split; [done|]. split; [done|].
  split; [exact Hq2|]. split.
  { unfold sum_axis0. by rewrite !length_fmap, length_seq, Hc'. }
  split.
  { intros j Hj. split; [|by apply Hq2j].
    apply column_well_formed; [done | by rewrite Hc']. }
  split; [done|]. split; [done|].
  unfold q2, getitem. rewrite Hq2, Hopt. simpl. by rewrite Hq2j.
Qed.

End FitClaims.

(** C2. After a [fit] that returns, entry [j] of the Q2 curve is
    [1 - sum(pressy[:, j]) / ssy] for every column [j < npc0], where [ssy]
    is Python's sum over the folds of the sums of squares of the scaled
    test responses; the property [q2] is the entry at [_opt_component].
    The value can be negative: on the six samples of [x6_inverse] in three
    folds it is [-163/48]. *)
Theorem q2_curve :
  (forall (F E SC : Type) (HF : Float64 F) (HN : Numpy F) (HE : Estimator F E)
          (HS : Scaler F SC) mem (self : CrossValidation F E SC) x yv self',
     fit mem self x yv = Ok self' ->
     exists s folds ytes pressy ssy q2v opt,
       cross_validate mem self x yv = Ok s
       /\ _split (kfold self) (nrows x) = Ok folds
       /\ scaled_test_responses (scaler self) x yv folds = Ok ytes
       /\ _ssy self' = Some ssy
       /\ ssy = py_sum (sum_sq <$> ytes)
       /\ _pressy self' = Some pressy
       /\ ncols pressy = v_npc0 s
       /\ _q2 self' = Some q2v
       /\ length q2v = v_npc0 s
       /\ (forall j, j < v_npc0 s ->
             column pressy j = Ok (col_cells pressy j)
             /\ q2v !! j = Some (f_sub f_one (f_div (np_sum (col_cells pressy j)) ssy)))
       /\ _opt_component self' = Some opt
       /\ opt < v_npc0 s
       /\ q2 self' = Ok (f_sub f_one (f_div (np_sum (col_cells pressy opt)) ssy)))
  /\ (exists self',
        fit Fixture.mem0 (Fixture.cv "pls" 3) Fixture.x6_inverse Fixture.y6 = Ok self'
        /\ q2 self' = Ok (-163 # 48)%Q
        /\ (-163 # 48 < 0)%Q).
Proof.
  split.
  - intros F E SC HF HN HE HS mem self x yv self'. apply q2_curve_of_fit.
  - destruct (fit Fixture.mem0 (Fixture.cv "pls" 3) Fixture.x6_inverse Fixture.y6)
      as [self'|e] eqn:Hfit; [|vm_compute in Hfit; discriminate Hfit].
    exists self'. split; [done|]. split; [|done].
    assert ((self'' ← fit Fixture.mem0 (Fixture.cv "pls" 3) Fixture.x6_inverse Fixture.y6;
             q2 self'') = Ok (-163 # 48)%Q) as Hq by (vm_compute; reflexivity).
    by rewrite Hfit in Hq.
Qed.

Lemma q2_curve_witness :
  fit Fixture.mem0 (Fixture.cv "opls" 3) Fixture.x6 Fixture.y6
    = Ok (Fixture.fitted "opls" 3)
  /\ exists pressy ssy opt,
       _pressy (Fixture.fitted "opls" 3) = Some pressy
       /\ _ssy (Fixture.fitted "opls" 3) = Some ssy
       /\ _opt_component (Fixture.fitted "opls" 3) = Some opt
       /\ q2 (Fixture.fitted "opls" 3)
          = Ok (f_sub f_one (f_div (np_sum (col_cells pressy opt)) ssy)).
Proof.
  assert (fit Fixture.mem0 (Fixture.cv "opls" 3) Fixture.x6 Fixture.y6
          = Ok (Fixture.fitted "opls" 3)) as Hfit by (vm_compute; reflexivity).
  split; [exact Hfit|].
  destruct (proj1 q2_curve _ _ _ _ _ _ _ _ _ _ _ _ Hfit)
    as (s & folds & ytes & pressy & ssy & q2v & opt
        & _ & _ & _ & Hssy & _ & Hpressy & _ & _ & _ & _ & Hopt & _ & Hq2).
  exists pressy, ssy, opt. repeat split; assumption.
Defined.

Lemma optimal_component_is_argmin_witness :
  fit Fixture.mem0 (Fixture.cv "opls" 3) Fixture.x6 Fixture.y6
    = Ok (Fixture.fitted "opls" 3)
  /\ exists nmc opt,
       _mis_classifications (Fixture.fitted "opls" 3) = Some nmc
       /\ np_argmin nmc = Ok opt
       /\ optimal_component_num (Fixture.fitted "opls" 3) = Ok (opt + 1).
Proof.
  assert (fit Fixture.mem0 (Fixture.cv "opls" 3) Fixture.x6 Fixture.y6
          = Ok (Fixture.fitted "opls" 3)) as Hfit by (vm_compute; reflexivity).
  split; [exact Hfit|].
  destruct (optimal_component_is_argmin _ _ _ _ _ Hfit)
    as (s & ypred & nmc & opt & _ & _ & _ & _ & Hnmc & _ & _ & _ & Hargmin & _ & Hnum & _).
  exists nmc, opt. repeat split; assumption.
Defined.

Lemma scores_round_trip_witness :
  fit Fixture.mem0 (Fixture.cv "opls" 3) Fixture.x6 Fixture.y6
    = Ok (Fixture.fitted "opls" 3)
  /\ exists v, predictive_score (Fixture.fitted "opls" 3) = Ok v
               /\ scores (Fixture.fitted "opls" 3) = Ok (Arr1 v).
Proof.
  assert (fit Fixture.mem0 (Fixture.cv "opls" 3) Fixture.x6 Fixture.y6
          = Ok (Fixture.fitted "opls" 3)) as Hfit by (vm_compute; reflexivity).
  split; [exact Hfit|].
  destruct (proj2 (scores_round_trip _ _ _ _ _ Hfit) eq_refl)
    as (tpred & opt & v & _ & _ & _ & Hps & Hsc).
  exists v. split; assumption.
Defined.

(** * Further properties *)

(** ** More on the fold splitter *)

(** The two index lists of a fold and their lengths. *)
Lemma split_fold_perm (kfold : Z) (n : nat) (folds : list (list nat * list nat))
    (i : nat) (tr te : list nat) :
  (1 <= kfold)%Z -> _split kfold n = Ok folds -> folds !! i = Some (tr, te) ->
  let blk := n `div` Z.to_nat kfold in
  length te = blk /\ length tr = n - blk /\ tr ++ te ≡ₚ seq 0 n.
Proof.
  intros Hk Hs Hi blk.
  apply (split_lookup kfold n folds i tr te Hk Hs) in Hi as (Hi & Hte & Htr).
  fold blk in Hte.
  assert (blk * Z.to_nat kfold <= n) as Hle.
  { unfold blk. rewrite Nat.mul_comm. apply Nat.Div0.mul_div_le. }
  assert (blk * i + blk <= n) as Hi1 by nia.
  assert (tr ++ te ≡ₚ seq 0 n) as Hperm.
  { assert (filter (fun j => j ∈ te) (seq 0 n) = te) as Hte'.
    { rewrite (list_filter_iff _ (fun j => blk * i <= j < blk * i + blk))
        by (intros j; rewrite Hte, elem_of_seq; lia).
      rewrite filter_seq_block, Hte by lia. f_equal. lia. }
    rewrite Htr, Permutation_app_comm. rewrite <- Hte' at 1.
    apply filter_app_complement. }
  assert (length te = blk) as Hlen by (by rewrite Hte, length_seq).
  split; [done|]. split; [|done].
  apply Permutation_length in Hperm. rewrite length_app, length_seq in Hperm. lia.
Qed.

(** With [kfold >= 1] every fold holds out exactly [n // kfold] samples
    and trains on the [n - n // kfold] others: the two index lists of a
    fold are together a permutation of [0 .. n-1]. *)
Theorem split_fold_sizes (kfold : Z) (n : nat) (folds : list (list nat * list nat))
    (i : nat) (tr te : list nat) :
  (1 <= kfold)%Z -> _split kfold n = Ok folds -> folds !! i = Some (tr, te) ->
  let blk := n `div` Z.to_nat kfold in
  length te = blk /\ length tr = n - blk /\ tr ++ te ≡ₚ seq 0 n.
Proof. apply split_fold_perm. Qed.

Lemma split_fold_sizes_witness :
  length [6; 7; 8] = 3 /\ length [0; 1; 2; 3; 4; 5; 9] = 10 - 3
  /\ [0; 1; 2; 3; 4; 5; 9] ++ [6; 7; 8] ≡ₚ seq 0 10.
Proof.
  exact (split_fold_sizes 3 10 (split_fold 10 3 <$> seqZ 0 3) 2
           [0; 1; 2; 3; 4; 5; 9] [6; 7; 8] ltac:(lia) eq_refl eq_refl).
Defined.

(** With more folds than samples the block size is zero: each of the
    [kfold] folds trains on all the samples and holds out none. *)
Theorem split_more_folds_than_samples (kfold : Z) (n : nat) :
  (Z.of_nat n < kfold)%Z ->
  _split kfold n = Ok (replicate (Z.to_nat kfold) (seq 0 n, [])).
Proof.
  intros Hk. rewrite split_Ok by lia. f_equal.
  apply list_eq. intros i. rewrite list_lookup_fmap.
  assert (n `div` Z.to_nat kfold = 0) as Hblk by (apply Nat.div_small; lia).
  destruct (decide (i < Z.to_nat kfold)) as [Hi|Hi].
  - rewrite lookup_replicate_2, lookup_seqZ_lt by lia. simpl.
    rewrite Z.add_0_l, split_fold_block by lia. rewrite Hblk. simpl.
    f_equal. f_equal.
    induction (seq 0 n) as [|a l IH]; [done|].
    rewrite filter_cons_True by set_solver. by rewrite IH.
  - rewrite lookup_seqZ_ge by lia. simpl. symmetry.
    apply lookup_replicate_None. lia.
Qed.

Lemma split_more_folds_than_samples_witness :
  _split 4 2 = Ok (replicate 4 ([0; 1], [])).
Proof. apply (split_more_folds_than_samples 4 2). lia. Defined.

(** With [kfold >= 1] the samples that some fold holds out are exactly
    the first [(n // kfold) * kfold]; the last [n mod kfold] samples are
    in every train set. *)
Theorem split_held_out_range (kfold : Z) (n : nat)
    (folds : list (list nat * list nat)) (r : nat) :
  (1 <= kfold)%Z -> _split kfold n = Ok folds ->
  ((exists i tr te, folds !! i = Some (tr, te) /\ r ∈ te)
   <-> r < n `div` Z.to_nat kfold * Z.to_nat kfold)
  /\ (n `div` Z.to_nat kfold * Z.to_nat kfold <= r < n ->
      forall i tr te, folds !! i = Some (tr, te) -> r ∈ tr).
Proof.
  intros Hk Hs. split; [by apply split_held_out|].
  intros Hr i tr te Hi.
  pose proof (split_fold_perm kfold n folds i tr te Hk Hs Hi) as (_ & _ & Hperm).
  assert (r ∈ tr ++ te) as Hin by (rewrite Hperm; apply elem_of_seq; lia).
  apply elem_of_app in Hin as [Hin|Hin]; [done|].
  assert (r < n `div` Z.to_nat kfold * Z.to_nat kfold); [|lia].
  apply (split_held_out kfold n folds r Hk Hs). eauto.
Qed.

Lemma split_held_out_range_witness :
  ((exists i tr te, (split_fold 10 3 <$> seqZ 0 3) !! i = Some (tr, te) /\ 9 ∈ te)
   <-> 9 < 10 `div` 3 * 3)
  /\ (10 `div` 3 * 3 <= 9 < 10 ->
      forall i tr te, (split_fold 10 3 <$> seqZ 0 3) !! i = Some (tr, te) -> 9 ∈ tr).
Proof.
  exact (split_held_out_range 3 10 (split_fold 10 3 <$> seqZ 0 3) 9
           ltac:(lia) eq_refl).
Defined.

(** ** Calls that cannot succeed *)

Section Failures.
Context {F E SC : Type}.
Context `{!Float64 F, !Numpy F, !Estimator F E, !Scaler F SC}.
Implicit Types s : fit_vars F E SC.
Implicit Types self : CrossValidation F E SC.

(** With [kfold = 0] [fit] raises the ZeroDivisionError of
    [n // self.kfold], whatever the data, the estimator and the scaler. *)
Theorem fit_zero_folds mem self x yv :
  kfold self = 0%Z -> fit mem self x yv = Raise ZeroDivisionError.
Proof.
  intros Hk. unfold fit, cross_validate, _split. rewrite Hk. done.
Qed.

(** On an object that was constructed and never fitted, [predict], [q2],
    [optimal_component_num] and [min_nmc] raise TypeError (they use the
    [None] of [_opt_component]), [R2X] and [R2y] raise AttributeError (the
    attributes do not exist yet) and [mis_classifications] is [None]; with
    the identifier ["opls"] the score properties and [loadings_cv] raise
    TypeError and the properties set by the summaries raise
    AttributeError. *)
Theorem unfitted_object_raises (est : string) (k : Z) (sc : string) (x : ndarray2 F) :
  let self : CrossValidation F E SC := __init__ est k sc in
  predict self x = Raise TypeError
  /\ q2 self = Raise TypeError
  /\ optimal_component_num self = Raise TypeError
  /\ min_nmc self = Raise TypeError
  /\ mis_classifications self = None
  /\ R2X self = Raise AttributeError
  /\ R2y self = Raise AttributeError
  /\ (est = "opls" ->
      orthogonal_score self = Raise TypeError
      /\ predictive_score self = Raise TypeError
      /\ scores self = Raise TypeError
      /\ loadings_cv self = Raise TypeError
      /\ R2Xcorr self = Raise AttributeError
      /\ R2XYO self = Raise AttributeError
      /\ correlation self = Raise AttributeError
      /\ covariance self = Raise AttributeError).
Proof.
  intros self. repeat (split; [done|]). intros ->. done.
Qed.

(** The loop over the folds ends with the least component count of the
    folds, if that is less than where it started. *)
Lemma fit_folds_npc0 opls x yv (c : nat) l s s' :
  for_each (fit_fold opls x yv) l s = Ok s' ->
  Forall (fun fold => fold_npc (ncols x) fold = c) l ->
  v_npc0 s' = if decide (l = []) then v_npc0 s else v_npc0 s `min` c.
Proof.
  revert l s s'. apply (for_each_ind (fit_fold opls x yv)
    (fun l s s' => Forall (fun fold => fold_npc (ncols x) fold = c) l ->
                   v_npc0 s' = if decide (l = []) then v_npc0 s else v_npc0 s `min` c)).
  - done.
  - intros fold l s s1 s2 Hstep IH Hall.
    apply Forall_cons in Hall as [Hc Hall]. specialize (IH Hall).
    apply fit_fold_spec in Hstep as (_ & Hnpc & _).
    rewrite decide_False by done. rewrite IH, Hnpc, Hc.
    case_decide; lia.
Qed.

(** With [kfold >= 1], when the loop of [fit] ends [npc0] is
    [min (n - n // kfold) p]: every fold trains on [n - n // kfold]
    samples. *)
Lemma cross_validate_npc0 mem self x yv s :
  (1 <= kfold self)%Z -> cross_validate mem self x yv = Ok s ->
  v_npc0 s = (nrows x - nrows x `div` Z.to_nat (kfold self)) `min` ncols x.
Proof.
  intros Hk Hcv. unfold cross_validate in Hcv.
  apply bind_Ok in Hcv as (folds & Hs & Hloop).
  apply (fit_folds_npc0 _ _ _
           ((nrows x - nrows x `div` Z.to_nat (kfold self)) `min` ncols x)) in Hloop.
  - rewrite Hloop. simpl. case_decide as Hnil; [|lia].
    apply (f_equal length) in Hnil. unfold enumerate in Hnil.
    rewrite length_imap, (split_length _ _ _ Hk Hs) in Hnil. simpl in Hnil. lia.
  - apply Forall_forall. intros [i [tr te]] Hin.
    apply list_elem_of_lookup in Hin as [j Hj]. apply enumerate_lookup in Hj as [<- Hj].
    destruct (split_fold_perm _ _ _ _ _ _ Hk Hs Hj) as (_ & Htr & _).
    unfold fold_npc. simpl. by rewrite Htr.
Qed.

(** After a [fit] that returns with [kfold >= 1], the stored arrays have
    [min (n - n // kfold) p] columns and [optimal_component_num] is at
    most that. *)
Theorem component_count_bound mem self x yv self' :
  (1 <= kfold self)%Z -> fit mem self x yv = Ok self' ->
  let npc0 := (nrows x - nrows x `div` Z.to_nat (kfold self)) `min` ncols x in
  exists ypred pressy c,
    _ypred self' = Some ypred /\ ncols ypred = npc0
    /\ _pressy self' = Some pressy /\ ncols pressy = npc0
    /\ optimal_component_num self' = Ok c /\ 1 <= c <= npc0.
Proof.
  intros Hk Hfit npc0.
  apply fit_summary in Hfit
    as (s & diff & opt & Hcv & Hyp & Hpr & _ & _ & _ & Hopt & _ & _ & _ & Hlt & _).
  pose proof (cross_validate_npc0 mem self x yv s Hk Hcv) as Hnpc0. fold npc0 in Hnpc0.
  destruct (cross_validate_spec mem self x yv s Hcv) as (folds & _ & Hacc & Hle & _).
  destruct (Hacc Ypred) as (_ & Hcy & Hwfy & _).
  destruct (Hacc Pressy) as (_ & Hcp & Hwfp & _). simpl in Hcy, Hwfy, Hcp, Hwfp.
  destruct (first_cols_shape (acc_data (v_ypred s)) (v_npc0 s) Hwfy ltac:(lia))
    as (_ & Hcy' & _).
  destruct (first_cols_shape (acc_data (v_pressy s)) (v_npc0 s) Hwfp ltac:(lia))
    as (_ & Hcp' & _).
  eexists _, _, (opt + 1).
  split; [exact Hyp|]. split; [congruence|]. split; [exact Hpr|]. split; [congruence|].
  split; [|lia]. unfold optimal_component_num. by rewrite Hopt.
Qed.

(** A [fit] that returns had a fold count other than 0 and 1, at least
    one sample and at least one variable: with one fold the train set is
    empty, no component is fitted and [np.argmin] gets an empty array. *)
Theorem fit_needs_folds_and_data mem self x yv self' :
  fit mem self x yv = Ok self' ->
  kfold self <> 0%Z /\ kfold self <> 1%Z /\ 1 <= nrows x /\ 1 <= ncols x.
Proof.
  intros Hfit.
  assert (kfold self <> 0%Z) as H0.
  { intros Hk. unfold fit, cross_validate, _split in Hfit. by rewrite Hk in Hfit. }
  apply fit_summary in Hfit
    as (s & diff & opt & Hcv & _ & _ & _ & _ & _ & _ & _ & _ & _ & Hlt & _).
  destruct (cross_validate_spec mem self x yv s Hcv) as (folds & _ & _ & Hle & _).
  split; [done|]. split; [|lia].
  intros Hk.
  pose proof (cross_validate_npc0 mem self x yv s ltac:(lia) Hcv) as Hnpc0.
  rewrite Hk in Hnpc0. change (Z.to_nat 1) with 1 in Hnpc0.
  rewrite Nat.div_1_r in Hnpc0. lia.
Qed.

(** The counts of mis-classifications after a [fit] that returns. *)
Lemma mis_classifications_parts mem self x yv self' :
  fit mem self x yv = Ok self' ->
  exists ypred nmc opt m,
    _mis_classifications self' = Some nmc
    /\ _opt_component self' = Some opt
    /\ nmc !! opt = Some m
    /\ (forall j c, nmc !! j = Some c -> m <= c)
    /\ nrows ypred = nrows x
    /\ (length yv = nrows x ->
        forall j, j < length nmc ->
          nmc !! j
          = Some (length (filter (fun rc => misclassified j rc.1 rc.2 = true)
                            (zip (rows ypred) yv)))).
Proof.
  intros Hfit.
  apply fit_summary in Hfit
    as (s & diff & opt & Hcv & Hyp & _ & _ & Hdiff & Hargmin & Hopt & Hnmc & _).
  destruct (cross_validate_spec mem self x yv s Hcv)
    as (folds & _ & Hacc & Hnpc0 & _).
  destruct (Hacc Ypred) as (Hr & Hc & Hwf & _). simpl in Hr, Hc, Hwf.
  destruct (first_cols_shape (acc_data (v_ypred s)) (v_npc0 s) Hwf ltac:(lia))
    as (Hr' & Hc' & _).
  set (ypred := first_cols (acc_data (v_ypred s)) (v_npc0 s)) in *.
  set (nmc := count_axis0 (map_array (fun d => f_neb d f_zero) diff)) in *.
  destruct (np_argmin_spec nmc opt Hargmin) as (m & Hm & Hmin).
  exists ypred, nmc, opt, m.
  split; [done|]. split; [done|]. split; [done|].
  split; [intros j c Hj; by apply (Hmin j c)|]. split; [congruence|].
  intros Hy j Hj.
  assert (nrows (pred_class ypred) = length yv) as Hrows.
  { unfold pred_class. rewrite map_array_nrows. congruence. }
  rewrite elementwise2_column in Hdiff by exact Hrows.
  injection Hdiff as <-. unfold nmc, count_axis0 in Hj |- *. simpl in Hj |- *.
  rewrite length_fmap, length_seq in Hj.
  rewrite list_lookup_fmap, lookup_seq_lt by lia. simpl.
  f_equal. apply count_misclassified.
Qed.

(** After a [fit] that returns, [min_nmc] is an entry of
    [mis_classifications] and no entry is less; for a response of [n]
    entries it is at most [n]. *)
Theorem min_nmc_is_least mem self x yv self' :
  fit mem self x yv = Ok self' ->
  exists nmc m,
    mis_classifications self' = Some nmc
    /\ min_nmc self' = Ok m
    /\ m ∈ nmc
    /\ (forall c, c ∈ nmc -> m <= c)
    /\ (length yv = nrows x -> m <= nrows x).
Proof.
  intros Hfit.
  destruct (mis_classifications_parts mem self x yv self' Hfit)
    as (ypred & nmc & opt & m & Hnmc & Hopt & Hm & Hmin & Hrows & Hcount).
  exists nmc, m. split; [done|]. split.
  { unfold min_nmc, getitem. rewrite Hnmc, Hopt. simpl. by rewrite Hm. }
  split; [by eapply list_elem_of_lookup_2|]. split.
  - intros c Hc. apply list_elem_of_lookup in Hc as [j Hj]. by apply (Hmin j c).
  - intros Hy. apply lookup_lt_Some in Hm as Hlt.
    rewrite (Hcount Hy opt Hlt) in Hm. injection Hm as <-.
    etrans; [apply length_filter|].
    rewrite length_zip, <- Hrows. fold (nrows ypred). lia.
Qed.

End Failures.

(** ** The length of the response *)

Section Response.
Context {F E SC : Type}.
Context `{!Float64 F, !Numpy F, !Estimator F E, !Scaler F SC}.
Implicit Types s : fit_vars F E SC.
Implicit Types self : CrossValidation F E SC.

Lemma take_items_in_range {A : Type} (l : list A) (idx : list nat) :
  Forall (fun i => i < length l) idx -> exists xs, take_items l idx = Ok xs.
Proof.
  induction 1 as [|i idx Hi _ [xs IH]]; simpl; [by eexists|].
  destruct (lookup_lt_is_Some_2 l i Hi) as [a Ha].
  unfold getitem. rewrite Ha. simpl. rewrite IH. simpl. by eexists.
Qed.

Lemma take_items_out_of_range {A : Type} (l : list A) (idx : list nat) (i : nat) :
  i ∈ idx -> length l <= i -> take_items l idx = Raise IndexError.
Proof.
  intros Hin Hi. induction idx as [|j idx IH]; [by apply elem_of_nil in Hin|].
  simpl. unfold getitem. destruct (l !! j) as [a|] eqn:Hj; simpl; [|done].
  apply elem_of_cons in Hin as [->|Hin].
  - apply lookup_lt_Some in Hj. lia.
  - by rewrite IH.
Qed.

Lemma broadcast2_lengths {A B C : Type} (f : A -> B -> C) u v w :
  broadcast2 f u v = Ok w -> length u = length v \/ length u = 1 \/ length v = 1.
Proof.
  unfold broadcast2. case_decide; [by left|].
  destruct u as [|a [|]], v as [|b [|]]; simpl; intros; simplify_eq; auto.
Qed.

(** The first fold already fails on [y[train_index]] when the response is
    too short: its train indices go up to [n - 1]. *)
Lemma cross_validate_short_response mem self x yv :
  (2 <= kfold self)%Z -> length yv < nrows x ->
  cross_validate mem self x yv = Raise IndexError.
Proof.
  intros Hk Hy. unfold cross_validate.
  rewrite split_Ok by lia. simpl.
  rewrite seqZ_cons by lia. unfold enumerate. rewrite fmap_cons, imap_cons.
  cbn [for_each].
  set (n := nrows x) in *.
  pose proof (split_fold_block (kfold self) n 0 ltac:(lia) ltac:(lia)) as Hfold.
  simpl in Hfold. rewrite Nat.mul_0_r in Hfold.
  change (Z.of_nat 0) with 0%Z in Hfold.
  set (blk := n `div` Z.to_nat (kfold self)) in *.
  assert (blk < n) as Hblk.
  { unfold blk. apply Nat.div_lt; lia. }
  remember (fit_fold _ _ _ _ _) as step eqn:Hstep.
  assert (step = Raise IndexError) as ->; [|done].
  subst step. unfold fit_fold. rewrite Hfold.
  set (tr := filter (fun j => j ∉ seq 0 blk) (seq 0 n)).
  destruct (take_items_in_range (rows x) tr) as [xtr Hxtr].
  { apply Forall_forall. intros j Hj. apply list_elem_of_filter in Hj as [_ Hj].
    apply elem_of_seq in Hj. unfold n, nrows in Hj. lia. }
  destruct (take_items_in_range (rows x) (seq 0 blk)) as [xte Hxte].
  { apply Forall_forall. intros j Hj. apply elem_of_seq in Hj.
    unfold n, nrows in Hblk. lia. }
  unfold take_rows. rewrite Hxtr, Hxte. simpl.
  rewrite (take_items_out_of_range yv tr (n - 1)); [done| |lia].
  apply list_elem_of_filter. rewrite !elem_of_seq. lia.
Qed.

(** With [kfold >= 2] and a response shorter than the number of samples,
    [fit] raises the IndexError of [y[train_index]] in the first fold. *)
Theorem fit_short_response mem self x yv :
  (2 <= kfold self)%Z -> length yv < nrows x ->
  fit mem self x yv = Raise IndexError.
Proof.
  intros Hk Hy. unfold fit.
  by rewrite cross_validate_short_response.
Qed.

(** With [kfold >= 2] and at least two samples, a [fit] that returns was
    given a response of exactly [n] entries: a shorter one raises in the
    first fold, a longer one cannot be broadcast against the [n] rows of
    the predicted classes. *)
Theorem fit_response_length mem self x yv self' :
  fit mem self x yv = Ok self' ->
  (2 <= kfold self)%Z -> 2 <= nrows x -> length yv = nrows x.
Proof.
  intros Hfit Hk Hn.
  apply fit_summary in Hfit
    as (s & diff & opt & Hcv & _ & _ & _ & Hdiff & _).
  destruct (decide (length yv < nrows x)) as [Hlt|Hge].
  { by rewrite (cross_validate_short_response mem self x yv Hk Hlt) in Hcv. }
  destruct (cross_validate_spec mem self x yv s Hcv) as (folds & _ & Hacc & Hle & _).
  destruct (Hacc Ypred) as (Hr & Hc & Hwf & _). simpl in Hr, Hc, Hwf.
  destruct (first_cols_shape (acc_data (v_ypred s)) (v_npc0 s) Hwf ltac:(lia))
    as (Hr' & _ & _).
  unfold elementwise2 in Hdiff.
  apply bind_Ok in Hdiff as (nc & _ & Hdiff).
  apply bind_Ok in Hdiff as (rs & Hrs & _).
  apply broadcast2_lengths in Hrs.
  unfold pred_class, map_array, as_column in Hrs. simpl in Hrs.
  rewrite !length_fmap in Hrs.
  unfold nrows in Hr', Hr, Hn, Hge |- *. simpl in Hr'. rewrite length_fmap in Hr'.
  lia.
Qed.

End Response.

(** ** The properties above on the six samples *)

Lemma fit_zero_folds_witness :
  fit Fixture.mem0 (Fixture.cv "pls" 0) Fixture.x6 Fixture.y6
    = Raise ZeroDivisionError.
Proof.
  exact (fit_zero_folds Fixture.mem0 (Fixture.cv "pls" 0) Fixture.x6 Fixture.y6
           eq_refl).
Defined.

Lemma unfitted_object_raises_witness :
  predict (Fixture.cv "opls" 3) Fixture.x6 = Raise TypeError
  /\ loadings_cv (Fixture.cv "opls" 3) = Raise TypeError
  /\ covariance (Fixture.cv "opls" 3) = Raise AttributeError.
Proof.
  destruct (unfitted_object_raises (F := Q) (E := Fixture.model) (SC := list Q)
              "opls" 3 "pareto" Fixture.x6)
    as (Hp & _ & _ & _ & _ & _ & _ & Hopls).
  destruct (Hopls eq_refl) as (_ & _ & _ & Hl & _ & _ & _ & Hc).
  split; [exact Hp|]. split; [exact Hl | exact Hc].
Defined.

Lemma component_count_bound_witness :
  fit Fixture.mem0 (Fixture.cv "opls" 3) Fixture.x6 Fixture.y6
    = Ok (Fixture.fitted "opls" 3)
  /\ exists c, optimal_component_num (Fixture.fitted "opls" 3) = Ok c
               /\ 1 <= c <= 2.
Proof.
  assert (fit Fixture.mem0 (Fixture.cv "opls" 3) Fixture.x6 Fixture.y6
          = Ok (Fixture.fitted "opls" 3)) as Hfit by (vm_compute; reflexivity).
  split; [exact Hfit|].
  assert (1 <= kfold (Fixture.cv "opls" 3))%Z as Hk by (simpl; lia).
  destruct (component_count_bound _ _ _ _ _ Hk Hfit)
    as (ypred & pressy & c & _ & _ & _ & _ & Hc & Hle).
  exists c. split; [exact Hc | exact Hle].
Defined.

Lemma fit_needs_folds_and_data_witness :
  fit Fixture.mem0 (Fixture.cv "pls" 3) Fixture.x6 Fixture.y6
    = Ok (Fixture.fitted "pls" 3)
  /\ kfold (Fixture.cv "pls" 3) <> 1%Z.
Proof.
  assert (fit Fixture.mem0 (Fixture.cv "pls" 3) Fixture.x6 Fixture.y6
          = Ok (Fixture.fitted "pls" 3)) as Hfit by (vm_compute; reflexivity).
  split; [exact Hfit|].
  exact (proj1 (proj2 (fit_needs_folds_and_data _ _ _ _ _ Hfit))).
Defined.

Lemma min_nmc_is_least_witness :
  fit Fixture.mem0 (Fixture.cv "pls" 3) Fixture.x6 Fixture.y6
    = Ok (Fixture.fitted "pls" 3)
  /\ exists m, min_nmc (Fixture.fitted "pls" 3) = Ok m /\ m <= 6.
Proof.
  assert (fit Fixture.mem0 (Fixture.cv "pls" 3) Fixture.x6 Fixture.y6
          = Ok (Fixture.fitted "pls" 3)) as Hfit by (vm_compute; reflexivity).
  split; [exact Hfit|].
  destruct (min_nmc_is_least _ _ _ _ _ Hfit) as (nmc & m & _ & Hm & _ & _ & Hle).
  exists m. split; [exact Hm | exact (Hle eq_refl)].
Defined.

Lemma fit_short_response_witness :
  fit Fixture.mem0 (Fixture.cv "pls" 3) Fixture.x6 [0; 1]%Q = Raise IndexError.
Proof.
  apply (fit_short_response Fixture.mem0 (Fixture.cv "pls" 3) Fixture.x6 [0; 1]%Q).
  - simpl. lia.
  - unfold nrows. simpl. lia.
Defined.

Lemma fit_response_length_witness :
  fit Fixture.mem0 (Fixture.cv "opls" 3) Fixture.x6 Fixture.y6
    = Ok (Fixture.fitted "opls" 3)
  /\ length Fixture.y6 = nrows Fixture.x6.
Proof.
  assert (fit Fixture.mem0 (Fixture.cv "opls" 3) Fixture.x6 Fixture.y6
          = Ok (Fixture.fitted "opls" 3)) as Hfit by (vm_compute; reflexivity).
  split; [exact Hfit|].
  apply (fit_response_length _ _ _ _ _ Hfit); simpl; [lia|].
  unfold nrows. simpl. lia.
Defined.

(** ** The estimator of the object *)

Section EstimatorNeeded.
Context {F E SC : Type}.
Context `{!Float64 F, !Numpy F, !Estimator F E, !Scaler F SC}.
Implicit Types s : fit_vars F E SC.
Implicit Types self : CrossValidation F E SC.

(** The estimator that the loop leaves behind was refitted from the one
    of the object. *)
Lemma cross_validate_estimator mem self x yv s :
  cross_validate mem self x yv = Ok s ->
  is_Some (v_estimator s) -> is_Some (estimator self).
Proof.
  unfold cross_validate. intros Hcv Hsome.
  apply bind_Ok in Hcv as (folds & _ & Hloop).
  destruct (enumerate folds) as [|[i [tr te]] l]; simpl in Hloop.
  - injection Hloop as <-. exact Hsome.
  - apply bind_Ok in Hloop as (s1 & Hfold & _).
    unfold fit_fold in Hfold.
    apply bind_Ok in Hfold as (xtr & _ & Hfold).
    apply bind_Ok in Hfold as (xte & _ & Hfold).
    apply bind_Ok in Hfold as (ytr & _ & Hfold).
    apply bind_Ok in Hfold as (yte & _ & Hfold).
    apply bind_Ok in Hfold as ([sc1 xtr_scale] & _ & Hfold).
    apply bind_Ok in Hfold as (xte_scale & _ & Hfold).
    apply bind_Ok in Hfold as ([sc2 ytr_scale] & _ & Hfold).
    apply bind_Ok in Hfold as (yte_scale & _ & Hfold).
    apply bind_Ok in Hfold as (est0 & Hest0 & _).
    simpl in Hest0. unfold attribute in Hest0.
    destruct (estimator self); [by eexists | done].
Qed.

(** A [fit] on an object constructed with an estimator identifier other
    than ["pls"] and ["opls"] never returns: whatever the fold count and
    the data, some exception ends it. *)
Theorem fit_needs_known_estimator mem (id : string) (k : Z) (sc : string)
    x yv self' :
  fit mem (__init__ id k sc) x yv = Ok self' -> id = "pls" \/ id = "opls".
Proof.
  intros Hfit.
  apply fit_steps in Hfit
    as (s & self1 & sc1 & y_scale & sc2 & x_scale & opt & est0 & est
        & Hcv & Hsum & _ & _ & _ & Hest0 & _).
  apply summary_cv_frame in Hsum as (_ & Hest1 & _).
  rewrite Hest1 in Hest0. simpl in Hest0.
  destruct (cross_validate_estimator _ _ _ _ _ Hcv) as [e He]; [by eexists|].
  simpl in He. repeat case_decide; auto. done.
Qed.

End EstimatorNeeded.

Lemma fit_needs_known_estimator_witness :
  fit Fixture.mem0 (__init__ "opls" 3 "pareto") Fixture.x6 Fixture.y6
    = Ok (Fixture.fitted "opls" 3)
  /\ ("opls" = "pls" \/ "opls" = "opls").
Proof.
  assert (fit Fixture.mem0 (__init__ "opls" 3 "pareto") Fixture.x6 Fixture.y6
          = Ok (Fixture.fitted "opls" 3)) as Hfit by (vm_compute; reflexivity).
  split; [exact Hfit|].
  exact (fit_needs_known_estimator _ _ _ _ _ _ _ Hfit).
Defined.

(** ** Rows that no fold holds out *)

Section Untouched.
Context {F E SC : Type}.
Context `{!Float64 F, !Numpy F, !Estimator F E, !Scaler F SC}.
Implicit Types s : fit_vars F E SC.
Implicit Types self : CrossValidation F E SC.

Lemma set_item_other_rows {A : Type} fold k c (a a' : accumulator A) rx r :
  set_item fold k c a rx = Ok a' -> r <> rx.1 ->
  rows (acc_data a') !! r = rows (acc_data a) !! r.
Proof.
  unfold set_item. case_decide; [|done]. intros [= <-] Hr. simpl.
  by apply list_lookup_alter_ne.
Qed.

Lemma assign_column_other_rows {A : Type} fold k (a a' : accumulator A) idx c v r :
  assign_column fold k a idx c v = Ok a' -> r ∉ idx ->
  rows (acc_data a') !! r = rows (acc_data a) !! r.
Proof.
  unfold assign_column. case_decide as Hc; [|done]. intros Hassign Hr.
  apply bind_Ok in Hassign as (vs & _ & Hloop).
  assert (Forall (fun rx : nat * A => r <> rx.1) (zip idx vs)) as Hall.
  { apply Forall_forall. intros [r' x'] Hin ->. by apply elem_of_zip_l in Hin. }
  clear Hc. revert a Hloop. induction Hall as [|rx l Hrx _ IH]; intros a Hloop; simpl in Hloop.
  - by injection Hloop as <-.
  - apply bind_Ok in Hloop as (a1 & H1 & H2).
    rewrite (IH _ H2). by eapply set_item_other_rows.
Qed.

(** One round of the loop over the component counts assigns to the rows
    of the test indices only. *)
Lemma fit_component_other_rows opls i te xtr_scale xte_scale yte_scale ssx_tot
    est s k s' r name :
  fit_component opls i te xtr_scale xte_scale yte_scale ssx_tot est s k = Ok s' ->
  r ∉ te ->
  rows (acc_data (acc_of s' name)) !! r = rows (acc_data (acc_of s name)) !! r.
Proof.
  intros Hfit Hr. unfold fit_component in Hfit.
  apply bind_Ok in Hfit as ([[[[yp_k tortho] tpred] ssx] pcv] & Hbranch & Hfit).
  apply bind_Ok in Hfit as (ypred & Hypred & Hfit).
  apply bind_Ok in Hfit as (err & _ & Hfit).
  apply bind_Ok in Hfit as (pressy & Hpressy & Hfit).
  injection Hfit as <-.
  apply (assign_column_other_rows _ _ _ _ _ _ _ r) in Hypred; [|done].
  apply (assign_column_other_rows _ _ _ _ _ _ _ r) in Hpressy; [|done].
  assert (rows (acc_data tortho) !! r = rows (acc_data (v_tortho s)) !! r
          /\ rows (acc_data tpred) !! r = rows (acc_data (v_tpred s)) !! r)
    as [Hto Htp].
  { destruct opls.
    - apply bind_Ok in Hbranch as ([xte_corr tcorr] & _ & Hbranch).
      apply bind_Ok in Hbranch as ([yp tp_k] & _ & Hbranch).
      apply bind_Ok in Hbranch as (tortho' & Htortho & Hbranch).
      apply bind_Ok in Hbranch as (tpred' & Htpred & Hbranch).
      apply bind_Ok in Hbranch as (xte_ortho & _ & Hbranch).
      apply bind_Ok in Hbranch as (tp & _ & Hbranch).
      apply bind_Ok in Hbranch as (w & _ & Hbranch).
      injection Hbranch as <- <- <- <- <-.
      split; [|by eapply assign_column_other_rows].
      destruct (decide (nrows xte_scale = 1)).
      + apply bind_Ok in Htortho as (row0 & _ & Htortho).
        apply bind_Ok in Htortho as (t00 & _ & Htortho).
        by eapply assign_column_other_rows.
      + apply bind_Ok in Htortho as (tc & _ & Htortho).
        by eapply assign_column_other_rows.
    - apply bind_Ok in Hbranch as (yp & _ & Hbranch).
      by injection Hbranch as <- <- <- <- <-. }
  by destruct name.
Qed.

Lemma fit_components_other_rows opls i te xtr_scale xte_scale yte_scale ssx_tot
    est ks s s' r name :
  for_each (fit_component opls i te xtr_scale xte_scale yte_scale ssx_tot est) ks s
    = Ok s' ->
  r ∉ te ->
  rows (acc_data (acc_of s' name)) !! r = rows (acc_data (acc_of s name)) !! r.
Proof.
  intros Hloop Hr. revert ks s s' Hloop.
  apply (for_each_ind _ (fun ks s0 s1 =>
    rows (acc_data (acc_of s1 name)) !! r = rows (acc_data (acc_of s0 name)) !! r)).
  - done.
  - intros k ks s0 s1 s2 Hstep IH. rewrite IH.
    by eapply fit_component_other_rows.
Qed.

(** One round of the loop over the folds assigns to the rows of its test
    indices only. *)
Lemma fit_fold_other_rows opls x yv s fold s' r name :
  fit_fold opls x yv s fold = Ok s' -> r ∉ fold.2.2 ->
  rows (acc_data (acc_of s' name)) !! r = rows (acc_data (acc_of s name)) !! r.
Proof.
  destruct fold as [i [tr te]]. unfold fit_fold. intros Hfit Hr. simpl in Hr.
  apply bind_Ok in Hfit as (xtr & _ & Hfit).
  apply bind_Ok in Hfit as (xte & _ & Hfit).
  apply bind_Ok in Hfit as (ytr & _ & Hfit).
  apply bind_Ok in Hfit as (yte & _ & Hfit).
  apply bind_Ok in Hfit as ([sc1 xtr_scale] & _ & Hfit).
  apply bind_Ok in Hfit as (xte_scale & _ & Hfit).
  apply bind_Ok in Hfit as ([sc2 ytr_scale] & _ & Hfit).
  apply bind_Ok in Hfit as (yte_scale & _ & Hfit).
  apply bind_Ok in Hfit as (est0 & _ & Hfit).
  apply bind_Ok in Hfit as (est & _ & Hfit).
  apply bind_Ok in Hfit as (s1 & Hloop & Hfit).
  injection Hfit as <-.
  apply (fit_components_other_rows _ _ _ _ _ _ _ _ _ _ _ r name) in Hloop; [|done].
  by destruct name.
Qed.

Lemma fit_folds_other_rows opls x yv l s s' r name :
  for_each (fit_fold opls x yv) l s = Ok s' ->
  Forall (fun fold => r ∉ fold.2.2) l ->
  rows (acc_data (acc_of s' name)) !! r = rows (acc_data (acc_of s name)) !! r.
Proof.
  revert l s s'.
  apply (for_each_ind _ (fun l s0 s1 =>
    Forall (fun fold => r ∉ fold.2.2) l ->
    rows (acc_data (acc_of s1 name)) !! r = rows (acc_data (acc_of s0 name)) !! r)).
  - done.
  - intros fold l s0 s1 s2 Hstep IH Hall.
    apply Forall_cons in Hall as [Hr Hall]. rewrite IH by done.
    by eapply fit_fold_other_rows.
Qed.

Lemma np_empty_row {A : Type} (junk : nat -> nat -> A) (n m r : nat) :
  r < n -> rows (np_empty junk n m) !! r = Some (junk r <$> seq 0 m).
Proof.
  intros Hr. unfold np_empty. simpl.
  by rewrite list_lookup_fmap, lookup_seq_lt.
Qed.

(** When the loop of [fit] ends, a row that no fold held out is as
    [np.empty] allocated it, in each of the four arrays. *)
Lemma cross_validate_other_rows mem self x yv s folds r name :
  cross_validate mem self x yv = Ok s ->
  _split (kfold self) (nrows x) = Ok folds ->
  (forall i tr te, folds !! i = Some (tr, te) -> r ∉ te) ->
  r < nrows x ->
  rows (acc_data (acc_of s name)) !! r
  = Some (mem name r <$> seq 0 (nrows x `min` ncols x)).
Proof.
  intros Hcv Hs Hnone Hr. unfold cross_validate in Hcv.
  rewrite Hs in Hcv. simpl in Hcv.
  apply (fit_folds_other_rows _ _ _ _ _ _ r name) in Hcv.
  - rewrite Hcv. destruct name; simpl; by apply np_empty_row.
  - apply Forall_forall. intros [i [tr te]] Hin.
    apply list_elem_of_lookup in Hin as [j Hj].
    apply enumerate_lookup in Hj as [_ Hj]. simpl. by eapply Hnone.
Qed.

(** The arrays that a [fit] that returns has stored. *)
Lemma fit_stored mem self x yv self' :
  fit mem self x yv = Ok self' ->
  exists s,
    cross_validate mem self x yv = Ok s
    /\ forall name,
         active (bool_decide (estimator_id self = "opls")) name = true ->
         stored self' name = Some (first_cols (acc_data (acc_of s name)) (v_npc0 s)).
Proof.
  intros Hfit.
  apply fit_steps in Hfit
    as (s & self1 & sc1 & y_scale & sc2 & x_scale & opt & est0 & est
        & Hcv & Hsum & _ & _ & _ & _ & _ & Hfin).
  apply summary_fit_frame in Hfin
    as (_ & _ & _ & _ & Hyp & Hpr & _ & _ & Hto & Htp & _).
  apply summary_cv_frame in Hsum
    as (_ & _ & _ & _ & Hyp1 & Hpr1 & _ & _ & Hto1 & Htp1).
  simpl in *. exists s. split; [done|].
  intros name Hact. destruct name; simpl in Hact |- *.
  - by rewrite Hyp, Hyp1.
  - by rewrite Hpr, Hpr1.
  - by rewrite Hto, Hto1, Hact.
  - by rewrite Htp, Htp1, Hact.
Qed.

Lemma first_cols_row {A : Type} (junk : nat -> A) (m k : nat) :
  k <= m -> take k (junk <$> seq 0 m) = junk <$> seq 0 k.
Proof. intros Hk. rewrite <- fmap_take, take_seq. f_equal. f_equal. lia. Qed.

(** With [kfold >= 1], after a [fit] that returns, the rows of the last
    [n mod kfold] samples, which no fold holds out, are uninitialised
    memory in each stored array ([_ypred] and [_pressy], with ["opls"]
    also [_Tortho] and [_Tpred]): [fit] never assigned to them. *)
Theorem remainder_rows_uninitialised mem self x yv self' r name :
  (1 <= kfold self)%Z -> fit mem self x yv = Ok self' ->
  nrows x `div` Z.to_nat (kfold self) * Z.to_nat (kfold self) <= r < nrows x ->
  active (bool_decide (estimator_id self = "opls")) name = true ->
  exists a, stored self' name = Some a
            /\ rows a !! r = Some (mem name r <$> seq 0 (ncols a)).
Proof.
  intros Hk Hfit Hr Hact.
  apply fit_stored in Hfit as (s & Hcv & Hst).
  destruct (cross_validate_spec mem self x yv s Hcv) as (folds & Hs & Hacc & Hle & _).
  destruct (Hacc name) as (_ & Hc & _).
  eexists. split; [by apply Hst|]. simpl.
  rewrite list_lookup_fmap.
  rewrite (cross_validate_other_rows mem self x yv s folds r name Hcv Hs); [|..|lia].
  - simpl. f_equal. rewrite first_cols_row by lia. f_equal. f_equal. lia.
  - intros i tr te Hi Hin.
    assert (r < nrows x `div` Z.to_nat (kfold self) * Z.to_nat (kfold self)); [|lia].
    apply (split_held_out (kfold self) (nrows x) folds r Hk Hs). eauto.
Qed.

End Untouched.

Lemma remainder_rows_uninitialised_witness :
  fit Fixture.mem0 (Fixture.cv "opls" 4) Fixture.x6 Fixture.y6
    = Ok (Fixture.fitted "opls" 4)
  /\ exists a, stored (Fixture.fitted "opls" 4) Tpred = Some a
               /\ rows a !! 5 = Some (Fixture.mem0 Tpred 5 <$> seq 0 (ncols a)).
Proof.
  assert (fit Fixture.mem0 (Fixture.cv "opls" 4) Fixture.x6 Fixture.y6
          = Ok (Fixture.fitted "opls" 4)) as Hfit by (vm_compute; reflexivity).
  split; [exact Hfit|].
  assert (1 <= kfold (Fixture.cv "opls" 4))%Z as Hk by (simpl; lia).
  apply (remainder_rows_uninitialised _ _ _ _ _ 5 Tpred Hk Hfit).
  - vm_compute. lia.
  - reflexivity.
Defined.

(** ** A negative fold count *)

Section NegativeFolds.
Context {F E SC : Type}.
Context `{!Float64 F, !Numpy F, !Estimator F E, !Scaler F SC}.
Implicit Types s : fit_vars F E SC.
Implicit Types self : CrossValidation F E SC.

Lemma mapM_Ok_lookup {A B : Type} (f : A -> result B) (l : list A) (r : list B) :
  mapM f l = Ok r ->
  length r = length l
  /\ forall i a, l !! i = Some a -> exists b, f a = Ok b /\ r !! i = Some b.
Proof.
  revert r. induction l as [|a l IH]; intros r Hr; simpl in Hr.
  - injection Hr as <-. split; [done|]. intros i a Hi. done.
  - apply bind_Ok in Hr as (b & Hb & Hr). apply bind_Ok in Hr as (r' & Hr' & Hr).
    injection Hr as <-. destruct (IH r' Hr') as [Hlen Hlook].
    split; [simpl; by rewrite Hlen|].
    intros [|i] a' Hi; simpl in Hi |- *.
    + injection Hi as <-. eauto.
    + by apply Hlook.
Qed.

(** What [_summary_cv] computes when the identifier is ["opls"]. *)
Lemma summary_cv_opls self self' :
  _summary_cv self = Ok self' -> estimator_id self = "opls" ->
  exists ypred ssx r2xcorr r2xyo,
    _ypred self = Some ypred /\ _ssx self = Some ssx
    /\ mapM (fun k => sum_ratio (ssx_at ssx k "corr") (ssx_at ssx k "total"))
            (seq 1 (ncols ypred)) = Ok r2xcorr
    /\ mapM (fun k => sum_ratio (ssx_at ssx k "xyo") (ssx_at ssx k "total"))
            (seq 1 (ncols ypred)) = Ok r2xyo
    /\ _r2xcorr self' = Some r2xcorr /\ _r2xyo self' = Some r2xyo
    /\ _ssx self' = Some ssx /\ _pcv self' = _pcv self.
Proof.
  unfold _summary_cv, not_none. intros Hs Hid.
  destruct (_ypred self) as [ypred|]; [|done]. simpl in Hs.
  destruct (y self) as [yv|]; [|done]. simpl in Hs.
  apply bind_Ok in Hs as (diff & Hdiff & Hs).
  apply bind_Ok in Hs as (opt & Hopt & Hs).
  destruct (_pressy self) as [pressy|]; [|done]. simpl in Hs.
  destruct (_ssy self) as [ssy|]; [|done]. simpl in Hs.
  apply bind_Ok in Hs as ([r2xcorr r2xyo] & Hopls & Hs).
  injection Hs as <-. simpl.
  rewrite decide_True in Hopls by done.
  unfold not_none in Hopls. destruct (_ssx self) as [ssx|]; [|done]. simpl in Hopls.
  apply bind_Ok in Hopls as (rc & Hrc & Hopls).
  apply bind_Ok in Hopls as (ro & Hro & Hopls).
  injection Hopls as <- <-.
  by exists ypred, ssx, rc, ro.
Qed.

(** What [_summary_fit] leaves as it found it, for ["opls"]. *)
Lemma summary_fit_frame_opls self x yv self' :
  _summary_fit self x yv = Ok self' ->
  _r2xcorr self' = _r2xcorr self /\ _r2xyo self' = _r2xyo self
  /\ _ssx self' = _ssx self /\ _pcv self' = _pcv self.
Proof.
  unfold _summary_fit. intros H.
  repeat (inv_ok H; try discriminate). simpl. done.
Qed.

(** With a negative fold count no fold is run. *)
Lemma cross_validate_negative mem self x yv :
  (kfold self < 0)%Z ->
  let n := nrows x in
  let m := n `min` ncols x in
  cross_validate mem self x yv
  = Ok {| v_npc0 := m; v_ssx := ∅; v_ssy := [];
          v_ypred := Acc (np_empty (mem Ypred) n m) [];
          v_pressy := Acc (np_empty (mem Pressy) n m) [];
          v_tortho := Acc (np_empty (mem Tortho) n m) [];
          v_tpred := Acc (np_empty (mem Tpred) n m) [];
          v_pcv := ∅;
          v_scaler := scaler self; v_estimator := estimator self |}.
Proof.
  intros Hk n m. unfold cross_validate, _split, py_range.
  rewrite decide_False by lia. simpl.
  assert (seqZ 0 (kfold self) = []) as ->; [|done].
  unfold seqZ. by destruct (kfold self).
Qed.

Lemma first_cols_np_empty {A : Type} (junk : nat -> nat -> A) (n m : nat) :
  first_cols (np_empty junk n m) m = np_empty junk n m.
Proof.
  unfold first_cols, np_empty. simpl. f_equal; [lia|].
  rewrite <- list_fmap_compose. apply list_fmap_ext. intros i r _. simpl.
  apply take_ge. by rewrite length_fmap, length_seq.
Qed.

(** A negative fold count is not rejected. No fold is run: with the
    identifier ["opls"] [fit] cannot return (the sums of [_summary_cv] are
    over empty lists), and when [fit] returns, the stored predictions and
    squared errors are the uninitialised arrays as [np.empty] allocated
    them and [_ssy] is the empty sum. *)
Theorem fit_negative_folds mem self x yv self' :
  (kfold self < 0)%Z -> fit mem self x yv = Ok self' ->
  let n := nrows x in
  let m := n `min` ncols x in
  estimator_id self <> "opls"
  /\ _ypred self' = Some (np_empty (mem Ypred) n m)
  /\ _pressy self' = Some (np_empty (mem Pressy) n m)
  /\ _ssy self' = Some f_zero.
Proof.
  intros Hk Hfit n m.
  pose proof (cross_validate_negative mem self x yv Hk) as Hneg. simpl in Hneg.
  split.
  - intros Hid.
    apply fit_steps in Hfit
      as (s & self1 & sc1 & y_scale & sc2 & x_scale & opt & est0 & est
          & Hcv & Hsum & _).
    rewrite Hneg in Hcv. injection Hcv as <-.
    pose proof (summary_cv_spec _ _ Hsum)
      as (ypred & yv' & diff & j & pressy & ssy & Hy & _ & Hdiff & Harg & _).
    apply summary_cv_opls in Hsum
      as (ypred' & ssx & rc & ro & Hy' & Hssx & Hrc & _); [|done].
    rewrite Hy in Hy'. injection Hy' as <-.
    simpl in Hssx. rewrite bool_decide_eq_true_2 in Hssx by done.
    injection Hssx as <-.
    destruct (np_argmin_spec _ j Harg) as (c & Hc & _).
    apply lookup_lt_Some in Hc. rewrite count_axis0_length in Hc. simpl in Hc.
    apply elementwise2_column_ncols in Hdiff. rewrite Hdiff in Hc.
    unfold pred_class in Hc. simpl in Hc.
    destruct (ncols ypred) as [|c']; [lia|]. simpl in Hrc. done.
  - apply fit_summary in Hfit as (s & diff & opt & Hcv & Hyp & Hpr & Hssy & _).
    rewrite Hneg in Hcv. injection Hcv as <-. simpl in Hyp, Hpr, Hssy.
    rewrite first_cols_np_empty in Hyp, Hpr. done.
Qed.

End NegativeFolds.

Lemma fit_negative_folds_witness :
  fit Fixture.mem0 (Fixture.cv "pls" (-2)) Fixture.x6 Fixture.y6
    = Ok (Fixture.fitted "pls" (-2))
  /\ _ypred (Fixture.fitted "pls" (-2))
     = Some (np_empty (Fixture.mem0 Ypred) 6 2).
Proof.
  assert (fit Fixture.mem0 (Fixture.cv "pls" (-2)) Fixture.x6 Fixture.y6
          = Ok (Fixture.fitted "pls" (-2))) as Hfit by (vm_compute; reflexivity).
  split; [exact Hfit|].
  assert (kfold (Fixture.cv "pls" (-2)) < 0)%Z as Hk by (simpl; lia).
  exact (proj1 (proj2 (fit_negative_folds _ _ _ _ _ Hk Hfit))).
Defined.

(** ** The lists that ["opls"] collects over the folds *)

Section FoldLists.
Context {F E SC : Type}.
Context `{!Float64 F, !Numpy F, !Estimator F E, !Scaler F SC}.
Implicit Types s : fit_vars F E SC.
Implicit Types self : CrossValidation F E SC.

Lemma dd_append_lookup `{Countable K} {V : Type} (d : gmap K (list V))
    (key key' : K) (v : V) :
  default [] (dd_append d key v !! key')
  = default [] (d !! key') ++ (if decide (key' = key) then [v] else []).
Proof.
  unfold dd_append. case_decide as Hk.
  - subst. by rewrite lookup_insert_eq.
  - rewrite lookup_insert_ne by done. by rewrite app_nil_r.
Qed.

(** One round of the loop over the component counts appends one entry to
    each list of its component count. *)
Lemma fit_component_lists i te xtr_scale xte_scale yte_scale ssx_tot est s k s'
    (k' : nat) (key : string) :
  fit_component true i te xtr_scale xte_scale yte_scale ssx_tot est s k = Ok s' ->
  key ∈ ["corr"; "xyo"; "total"] ->
  length (ssx_at (v_ssx s') k' key)
  = length (ssx_at (v_ssx s) k' key) + (if decide (k' = k) then 1 else 0)
  /\ length (default [] (v_pcv s' !! k'))
     = length (default [] (v_pcv s !! k')) + (if decide (k' = k) then 1 else 0).
Proof.
  intros Hfit Hkey. unfold fit_component in Hfit.
  apply bind_Ok in Hfit as ([[[[yp_k tortho] tpred] ssx] pcv] & Hbranch & Hfit).
  apply bind_Ok in Hfit as (ypred & _ & Hfit).
  apply bind_Ok in Hfit as (err & _ & Hfit).
  apply bind_Ok in Hfit as (pressy & _ & Hfit).
  injection Hfit as <-. simpl.
  apply bind_Ok in Hbranch as ([xte_corr tcorr] & _ & Hbranch).
  apply bind_Ok in Hbranch as ([yp tp_k] & _ & Hbranch).
  apply bind_Ok in Hbranch as (tortho' & _ & Hbranch).
  apply bind_Ok in Hbranch as (tpred' & _ & Hbranch).
  apply bind_Ok in Hbranch as (xte_ortho & _ & Hbranch).
  apply bind_Ok in Hbranch as (tp & _ & Hbranch).
  apply bind_Ok in Hbranch as (w & _ & Hbranch).
  injection Hbranch as <- <- <- <- <-.
  split.
  - unfold ssx_at. case_decide as Hk.
    + subst k'. rewrite lookup_insert_eq. simpl.
      rewrite !dd_append_lookup, !length_app.
      repeat (apply elem_of_cons in Hkey as [->|Hkey]; [simpl; lia|]).
      by apply elem_of_nil in Hkey.
    + rewrite lookup_insert_ne by done. lia.
  - rewrite dd_append_lookup, length_app. by case_decide.
Qed.

Lemma filter_eq_seq (k' a n : nat) :
  length (filter (fun k => k' = k) (seq a n))
  = if decide (a <= k' < a + n) then 1 else 0.
Proof.
  revert a; induction n as [|n IH]; intros a; simpl.
  - case_decide; [lia|done].
  - rewrite filter_cons.
    destruct (decide (k' = a)); simpl; rewrite IH; repeat case_decide; lia.
Qed.

Lemma fit_components_lists i te xtr_scale xte_scale yte_scale ssx_tot est ks s s'
    (k' : nat) (key : string) :
  for_each (fit_component true i te xtr_scale xte_scale yte_scale ssx_tot est) ks s
    = Ok s' ->
  key ∈ ["corr"; "xyo"; "total"] ->
  length (ssx_at (v_ssx s') k' key)
  = length (ssx_at (v_ssx s) k' key) + length (filter (fun k => k' = k) ks)
  /\ length (default [] (v_pcv s' !! k'))
     = length (default [] (v_pcv s !! k')) + length (filter (fun k => k' = k) ks).
Proof.
  intros Hloop Hkey. revert ks s s' Hloop.
  apply (for_each_ind _ (fun ks s s' =>
    length (ssx_at (v_ssx s') k' key)
    = length (ssx_at (v_ssx s) k' key) + length (filter (fun k => k' = k) ks)
    /\ length (default [] (v_pcv s' !! k'))
       = length (default [] (v_pcv s !! k')) + length (filter (fun k => k' = k) ks))).
  - intros s. simpl. lia.
  - intros k ks s s1 s2 Hstep [IH1 IH2].
    destruct (fit_component_lists _ _ _ _ _ _ _ _ _ _ k' key Hstep Hkey) as [H1 H2].
    rewrite IH1, IH2, H1, H2, filter_cons. case_decide; simpl; lia.
Qed.

(** One round of the loop over the folds appends one entry to the lists
    of each component count of the fold. *)
Lemma fit_fold_lists x yv s fold s' (k' : nat) (key : string) :
  fit_fold true x yv s fold = Ok s' ->
  key ∈ ["corr"; "xyo"; "total"] ->
  let one := if decide (1 <= k' <= fold_npc (ncols x) fold) then 1 else 0 in
  length (ssx_at (v_ssx s') k' key) = length (ssx_at (v_ssx s) k' key) + one
  /\ length (default [] (v_pcv s' !! k')) = length (default [] (v_pcv s !! k')) + one.
Proof.
  destruct fold as [i [tr te]]. unfold fit_fold. intros Hfit Hkey.
  apply bind_Ok in Hfit as (xtr & Hxtr & Hfit).
  apply bind_Ok in Hfit as (xte & _ & Hfit).
  apply bind_Ok in Hfit as (ytr & _ & Hfit).
  apply bind_Ok in Hfit as (yte & _ & Hfit).
  apply bind_Ok in Hfit as ([sc1 xtr_scale] & _ & Hfit).
  apply bind_Ok in Hfit as (xte_scale & _ & Hfit).
  apply bind_Ok in Hfit as ([sc2 ytr_scale] & _ & Hfit).
  apply bind_Ok in Hfit as (yte_scale & _ & Hfit).
  apply bind_Ok in Hfit as (est0 & _ & Hfit).
  apply bind_Ok in Hfit as (est & _ & Hfit).
  apply bind_Ok in Hfit as (s1 & Hloop & Hfit).
  injection Hfit as <-.
  apply take_rows_shape in Hxtr as [Hn Hp].
  destruct (fit_components_lists _ _ _ _ _ _ _ _ _ _ k' key Hloop Hkey) as [H1 H2].
  simpl in *. rewrite H1, H2, filter_eq_seq.
  unfold fold_npc. simpl. rewrite Hn, Hp.
  repeat case_decide; lia.
Qed.

Lemma fit_folds_lists x yv (c : nat) l s s' (k' : nat) (key : string) :
  for_each (fit_fold true x yv) l s = Ok s' ->
  Forall (fun fold => fold_npc (ncols x) fold = c) l ->
  key ∈ ["corr"; "xyo"; "total"] -> 1 <= k' <= c ->
  length (ssx_at (v_ssx s') k' key) = length (ssx_at (v_ssx s) k' key) + length l
  /\ length (default [] (v_pcv s' !! k')) = length (default [] (v_pcv s !! k')) + length l.
Proof.
  intros Hloop Hall Hkey Hk. revert l s s' Hloop Hall.
  apply (for_each_ind _ (fun l s s' =>
    Forall (fun fold => fold_npc (ncols x) fold = c) l ->
    length (ssx_at (v_ssx s') k' key) = length (ssx_at (v_ssx s) k' key) + length l
    /\ length (default [] (v_pcv s' !! k'))
       = length (default [] (v_pcv s !! k')) + length l)).
  - intros s _. simpl. lia.
  - intros fold l s s1 s2 Hstep IH Hall.
    apply Forall_cons in Hall as [Hc Hall]. destruct (IH Hall) as [IH1 IH2].
    destruct (fit_fold_lists _ _ _ _ _ k' key Hstep Hkey) as [H1 H2].
    rewrite Hc, decide_True in H1, H2 by done.
    rewrite IH1, IH2, H1, H2. simpl. lia.
Qed.

(** With ["opls"] and [kfold >= 1], when the loop of [fit] ends every
    list of a component count [1 <= k <= npc0] has one entry per fold. *)
Lemma cross_validate_lists mem self x yv s (k' : nat) (key : string) :
  (1 <= kfold self)%Z -> estimator_id self = "opls" ->
  cross_validate mem self x yv = Ok s ->
  key ∈ ["corr"; "xyo"; "total"] -> 1 <= k' <= v_npc0 s ->
  length (ssx_at (v_ssx s) k' key) = Z.to_nat (kfold self)
  /\ length (default [] (v_pcv s !! k')) = Z.to_nat (kfold self).
Proof.
  intros Hk Hid Hcv Hkey Hk'.
  pose proof (cross_validate_npc0 mem self x yv s Hk Hcv) as Hnpc0.
  unfold cross_validate in Hcv.
  apply bind_Ok in Hcv as (folds & Hs & Hloop).
  rewrite bool_decide_eq_true_2 in Hloop by done.
  apply (fit_folds_lists _ _
           ((nrows x - nrows x `div` Z.to_nat (kfold self)) `min` ncols x)
           _ _ _ k' key) in Hloop; [| |done|lia].
  - destruct Hloop as [H1 H2]. rewrite H1, H2. simpl.
    unfold enumerate. rewrite length_imap, (split_length _ _ _ Hk Hs).
    unfold ssx_at. rewrite !lookup_empty. simpl. done.
  - apply Forall_forall. intros [i [tr te]] Hin.
    apply list_elem_of_lookup in Hin as [j Hj]. apply enumerate_lookup in Hj as [<- Hj].
    destruct (split_fold_perm _ _ _ _ _ _ Hk Hs Hj) as (_ & Htr & _).
    unfold fold_npc. simpl. by rewrite Htr.
Qed.

Lemma sum_ratio_Ok (a b : list F) :
  b <> [] -> sum_ratio a b = Ok (f_div (py_sum a) (py_sum b)).
Proof. intros Hb. unfold sum_ratio. by destruct a, b. Qed.

(** After a [fit] with ["opls"] and [kfold >= 1] that returns, at the
    chosen component count every list of sums of squares has one entry
    per fold, [R2Xcorr] and [R2XYO] are the ratios of the sums of these
    lists over the folds, and [loadings_cv] has one vector per fold. *)
Theorem opls_metrics_over_folds mem self x yv self' :
  (1 <= kfold self)%Z -> estimator_id self = "opls" ->
  fit mem self x yv = Ok self' ->
  exists opt ssx loads,
    _opt_component self' = Some opt /\ _ssx self' = Some ssx
    /\ (forall key, key ∈ ["corr"; "xyo"; "total"] ->
          length (ssx_at ssx (opt + 1) key) = Z.to_nat (kfold self))
    /\ R2Xcorr self'
       = Ok (f_div (py_sum (ssx_at ssx (opt + 1) "corr"))
                   (py_sum (ssx_at ssx (opt + 1) "total")))
    /\ R2XYO self'
       = Ok (f_div (py_sum (ssx_at ssx (opt + 1) "xyo"))
                   (py_sum (ssx_at ssx (opt + 1) "total")))
    /\ loadings_cv self' = Ok loads
    /\ length loads = Z.to_nat (kfold self).
Proof.
  intros Hk Hid Hfit.
  pose proof (fit_summary _ _ _ _ _ Hfit)
    as (s' & diff & opt & Hcv' & Hyp & _ & _ & _ & _ & Hopt & _ & _ & _ & Hlt & Hid').
  apply fit_steps in Hfit
    as (s & self1 & sc1 & y_scale & sc2 & x_scale & opt' & est0 & est
        & Hcv & Hsum & _ & _ & _ & _ & _ & Hfin).
  rewrite Hcv in Hcv'. injection Hcv' as <-.
  apply summary_fit_frame_opls in Hfin as (Hrc' & Hro' & Hssx' & Hpcv').
  apply summary_cv_opls in Hsum
    as (ypred & ssx & rc & ro & Hy & Hssx & Hrc & Hro & Hrc1 & Hro1 & Hssx1 & Hpcv1);
    [|done].
  simpl in *. rewrite bool_decide_eq_true_2 in Hssx, Hpcv1 by done.
  injection Hssx as <-. injection Hy as <-.
  destruct (cross_validate_spec mem self x yv s Hcv) as (folds & _ & Hacc & Hle & _).
  destruct (Hacc Ypred) as (_ & Hc & _). simpl in Hc.
  assert (ncols (first_cols (acc_data (v_ypred s)) (v_npc0 s)) = v_npc0 s) as Hnc
    by (simpl; lia).
  rewrite Hnc in Hrc, Hro.
  assert (forall key, key ∈ ["corr"; "xyo"; "total"] ->
            length (ssx_at (v_ssx s) (opt + 1) key) = Z.to_nat (kfold self)) as Hlen.
  { intros key Hkey.
    by destruct (cross_validate_lists mem self x yv s (opt + 1) key Hk Hid Hcv Hkey
                   ltac:(lia)). }
  assert (ssx_at (v_ssx s) (opt + 1) "total" <> []) as Htot.
  { intros Hnil. apply (f_equal length) in Hnil.
    rewrite Hlen in Hnil by set_solver. simpl in Hnil. lia. }
  assert (seq 1 (v_npc0 s) !! opt = Some (opt + 1)) as Hseq.
  { rewrite lookup_seq_lt by done. f_equal. lia. }
  destruct (mapM_Ok_lookup _ _ _ Hrc) as [_ Hrcl].
  destruct (mapM_Ok_lookup _ _ _ Hro) as [_ Hrol].
  destruct (Hrcl opt _ Hseq) as (vc & Hvc & Hrcopt).
  destruct (Hrol opt _ Hseq) as (vo & Hvo & Hroopt).
  rewrite sum_ratio_Ok in Hvc, Hvo by done.
  injection Hvc as <-. injection Hvo as <-.
  exists opt, (v_ssx s), (default [] (v_pcv s !! (opt + 1))).
  split; [done|]. split; [congruence|]. split; [exact Hlen|].
  split; [|split; [|split]].
  - unfold R2Xcorr, getitem. rewrite Hid', Hid, Hrc', Hrc1, Hopt.
    rewrite decide_False by naive_solver. simpl. by rewrite Hrcopt.
  - unfold R2XYO, getitem. rewrite Hid', Hid, Hro', Hro1, Hopt.
    rewrite decide_False by naive_solver. simpl. by rewrite Hroopt.
  - unfold loadings_cv. rewrite Hid', Hid, Hpcv', Hpcv1, Hopt.
    rewrite decide_False by naive_solver. done.
  - by destruct (cross_validate_lists mem self x yv s (opt + 1) "corr" Hk Hid Hcv
                   ltac:(set_solver) ltac:(lia)).
Qed.

End FoldLists.

Lemma opls_metrics_over_folds_witness :
  fit Fixture.mem0 (Fixture.cv "opls" 3) Fixture.x6 Fixture.y6
    = Ok (Fixture.fitted "opls" 3)
  /\ exists loads, loadings_cv (Fixture.fitted "opls" 3) = Ok loads
                   /\ length loads = 3.
Proof.
  assert (fit Fixture.mem0 (Fixture.cv "opls" 3) Fixture.x6 Fixture.y6
          = Ok (Fixture.fitted "opls" 3)) as Hfit by (vm_compute; reflexivity).
  split; [exact Hfit|].
  assert (1 <= kfold (Fixture.cv "opls" 3))%Z as Hk by (simpl; lia).
  destruct (opls_metrics_over_folds _ _ _ _ _ Hk eq_refl Hfit)
    as (opt & ssx & loads & _ & _ & _ & _ & _ & Hl & Hlen).
  exists loads. split; [exact Hl | exact Hlen].
Defined.

(** ** Cells that the history does not mention *)

Section History.
Context {F E SC : Type}.
Context `{!Float64 F, !Numpy F, !Estimator F E, !Scaler F SC}.
Implicit Types s : fit_vars F E SC.
Implicit Types self : CrossValidation F E SC.

Lemma set_item_sound {A : Type} fold k c (a0 : ndarray2 A) (a a' : accumulator A) rx :
  history_sound a0 a -> set_item fold k c a rx = Ok a' -> history_sound a0 a'.
Proof.
  unfold set_item. intros Hsound Hset. case_decide; [|done].
  injection Hset as <-. intros r c' Hnone. simpl in Hnone |- *.
  rewrite <- Hsound.
  2:{ intros w Hw. apply Hnone. apply elem_of_app. by left. }
  assert (rx.1 = r -> c <> c') as Hne.
  { intros Hr Hc. apply (Hnone (Wr fold k rx.1 c)); [|done..].
    apply elem_of_app. right. by apply list_elem_of_singleton. }
  unfold cell. simpl. destruct (decide (rx.1 = r)) as [Hr|Hr].
  - rewrite <- Hr, list_lookup_alter_eq.
    destruct (rows (acc_data a) !! rx.1) as [row|]; simpl; [|done].
    apply list_lookup_insert_ne. auto.
  - by rewrite list_lookup_alter_ne.
Qed.

Lemma assign_column_sound {A : Type} fold k (a0 : ndarray2 A) (a a' : accumulator A)
    idx c v :
  history_sound a0 a -> assign_column fold k a idx c v = Ok a' -> history_sound a0 a'.
Proof.
  unfold assign_column. intros Hsound Hassign. case_decide as Hc; [|done].
  apply bind_Ok in Hassign as (vs & _ & Hloop). clear Hc.
  revert a Hsound Hloop. induction (zip idx vs) as [|rx l IH]; intros a Hsound Hloop;
    simpl in Hloop.
  - by injection Hloop as <-.
  - apply bind_Ok in Hloop as (a1 & H1 & H2).
    apply (IH a1); [|done]. by eapply set_item_sound.
Qed.

Lemma fit_component_sound opls i te xtr_scale xte_scale yte_scale ssx_tot est s k s'
    (a0 : acc_name -> ndarray2 F) :
  (forall name, history_sound (a0 name) (acc_of s name)) ->
  fit_component opls i te xtr_scale xte_scale yte_scale ssx_tot est s k = Ok s' ->
  forall name, history_sound (a0 name) (acc_of s' name).
Proof.
  intros Hsound Hfit. unfold fit_component in Hfit.
  apply bind_Ok in Hfit as ([[[[yp_k tortho] tpred] ssx] pcv] & Hbranch & Hfit).
  apply bind_Ok in Hfit as (ypred & Hypred & Hfit).
  apply bind_Ok in Hfit as (err & _ & Hfit).
  apply bind_Ok in Hfit as (pressy & Hpressy & Hfit).
  injection Hfit as <-.
  apply (assign_column_sound _ _ (a0 Ypred)) in Hypred; [|apply (Hsound Ypred)].
  apply (assign_column_sound _ _ (a0 Pressy)) in Hpressy; [|apply (Hsound Pressy)].
  assert (history_sound (a0 Tortho) tortho /\ history_sound (a0 Tpred) tpred)
    as [Hto Htp].
  { destruct opls.
    - apply bind_Ok in Hbranch as ([xte_corr tcorr] & _ & Hbranch).
      apply bind_Ok in Hbranch as ([yp tp_k] & _ & Hbranch).
      apply bind_Ok in Hbranch as (tortho' & Htortho & Hbranch).
      apply bind_Ok in Hbranch as (tpred' & Htpred & Hbranch).
      apply bind_Ok in Hbranch as (xte_ortho & _ & Hbranch).
      apply bind_Ok in Hbranch as (tp & _ & Hbranch).
      apply bind_Ok in Hbranch as (w & _ & Hbranch).
      injection Hbranch as <- <- <- <- <-.
      split; [|eapply assign_column_sound; [apply (Hsound Tpred) | done]].
      destruct (decide (nrows xte_scale = 1)).
      + apply bind_Ok in Htortho as (row0 & _ & Htortho).
        apply bind_Ok in Htortho as (t00 & _ & Htortho).
        eapply assign_column_sound; [apply (Hsound Tortho) | done].
      + apply bind_Ok in Htortho as (tc & _ & Htortho).
        eapply assign_column_sound; [apply (Hsound Tortho) | done].
    - apply bind_Ok in Hbranch as (yp & _ & Hbranch).
      injection Hbranch as <- <- <- <- <-.
      split; [apply (Hsound Tortho) | apply (Hsound Tpred)]. }
  by intros [| | |].
Qed.

Lemma fit_fold_sound opls x yv s fold s' (a0 : acc_name -> ndarray2 F) :
  (forall name, history_sound (a0 name) (acc_of s name)) ->
  fit_fold opls x yv s fold = Ok s' ->
  forall name, history_sound (a0 name) (acc_of s' name).
Proof.
  destruct fold as [i [tr te]]. unfold fit_fold. intros Hsound Hfit.
  apply bind_Ok in Hfit as (xtr & _ & Hfit).
  apply bind_Ok in Hfit as (xte & _ & Hfit).
  apply bind_Ok in Hfit as (ytr & _ & Hfit).
  apply bind_Ok in Hfit as (yte & _ & Hfit).
  apply bind_Ok in Hfit as ([sc1 xtr_scale] & _ & Hfit).
  apply bind_Ok in Hfit as (xte_scale & _ & Hfit).
  apply bind_Ok in Hfit as ([sc2 ytr_scale] & _ & Hfit).
  apply bind_Ok in Hfit as (yte_scale & _ & Hfit).
  apply bind_Ok in Hfit as (est0 & _ & Hfit).
  apply bind_Ok in Hfit as (est & _ & Hfit).
  apply bind_Ok in Hfit as (s1 & Hloop & Hfit).
  injection Hfit as <-.
  assert (forall name, history_sound (a0 name) (acc_of s1 name)) as H1.
  { revert Hloop. match goal with |- for_each ?body ?ks ?s0 = _ -> _ =>
      assert (forall name, history_sound (a0 name) (acc_of s0 name)) as H0
        by (by intros [| | |]; [apply (Hsound Ypred) | apply (Hsound Pressy)
                               | apply (Hsound Tortho) | apply (Hsound Tpred)]);
      revert H0; generalize s0; generalize ks end.
    intros ks s0 H0 Hloop. revert ks s0 s1 Hloop H0.
    apply (for_each_ind _ (fun ks s0 s1 =>
      (forall name, history_sound (a0 name) (acc_of s0 name)) ->
      forall name, history_sound (a0 name) (acc_of s1 name))).
    - done.
    - intros k ks s0 s1' s2 Hstep IH H0. apply IH.
      by eapply fit_component_sound. }
  intros [| | |]; [apply (H1 Ypred) | apply (H1 Pressy)
                  | apply (H1 Tortho) | apply (H1 Tpred)].
Qed.

(** When the loop of [fit] ends, a cell that the history of an
    accumulator does not mention is as [np.empty] allocated it. *)
Lemma cross_validate_sound mem self x yv s name :
  cross_validate mem self x yv = Ok s ->
  history_sound (np_empty (mem name) (nrows x) (nrows x `min` ncols x)) (acc_of s name).
Proof.
  unfold cross_validate. intros Hcv.
  apply bind_Ok in Hcv as (folds & _ & Hloop).
  revert name. revert Hloop.
  match goal with |- for_each ?body ?l ?s0 = _ -> _ =>
    assert (forall name,
              history_sound (np_empty (mem name) (nrows x) (nrows x `min` ncols x))
                (acc_of s0 name)) as H0 by (by intros [| | |]);
    revert H0; generalize s0; generalize l end.
  intros l s0 H0 Hloop. revert l s0 s Hloop H0.
  apply (for_each_ind _ (fun l s0 s1 =>
    (forall name,
       history_sound (np_empty (mem name) (nrows x) (nrows x `min` ncols x))
         (acc_of s0 name)) ->
    forall name,
      history_sound (np_empty (mem name) (nrows x) (nrows x `min` ncols x))
        (acc_of s1 name))).
  - done.
  - intros fold l s0 s1 s2 Hstep IH H0. apply IH.
    by eapply fit_fold_sound.
Qed.

Lemma cell_first_cols {A : Type} (a : ndarray2 A) (k r j : nat) :
  j < k -> cell (first_cols a k) r j = cell a r j.
Proof.
  intros Hj. unfold cell, first_cols. simpl. rewrite list_lookup_fmap.
  destruct (rows a !! r) as [row|]; simpl; [|done].
  by apply lookup_take_lt.
Qed.

Lemma cell_np_empty {A : Type} (junk : nat -> nat -> A) (n m r j : nat) :
  r < n -> j < m -> cell (np_empty junk n m) r j = Some (junk r j).
Proof.
  intros Hr Hj. unfold cell. rewrite np_empty_row by done. simpl.
  by rewrite list_lookup_fmap, lookup_seq_lt.
Qed.

Lemma mapM_Ok_seq {A B : Type} (g : A -> result B) (h : nat -> B) (l : list A) :
  (forall i a, l !! i = Some a -> g a = Ok (h i)) ->
  mapM g l = Ok (h <$> seq 0 (length l)).
Proof.
  revert h. induction l as [|a l IH]; intros h Hl; [done|].
  simpl. rewrite (Hl 0 a) by done. simpl.
  rewrite (IH (fun i => h (S i))) by (intros i a' Hi; by apply (Hl (S i))).
  simpl. by rewrite <- fmap_S_seq, <- list_fmap_compose.
Qed.

(** A column whose cells are known. *)
Lemma column_cells {A : Type} (a : ndarray2 A) (j : nat) (h : nat -> A) :
  j < ncols a ->
  (forall r, r < nrows a -> cell a r j = Some (h r)) ->
  column a j = Ok (h <$> seq 0 (nrows a)).
Proof.
  intros Hj Hcells. unfold column. rewrite decide_True by done.
  apply mapM_Ok_seq. intros r row Hr.
  specialize (Hcells r ltac:(by eapply lookup_lt_Some)).
  unfold cell in Hcells. rewrite Hr in Hcells. simpl in Hcells.
  unfold getitem. by rewrite Hcells.
Qed.

(** With ["opls"], a scaler that keeps the number of rows and folds that
    hold out one sample each ([n // kfold = 1], as in leave-one-out), the
    loop of [fit] assigns to column [0] of [tortho] only: when the chosen
    component count is at least two, [orthogonal_score] returns nothing
    but the uninitialised memory of [np.empty]. *)
Theorem single_sample_folds_orthogonal_score mem self x yv self' opt :
  scaler_keeps_rows -> (1 <= kfold self)%Z -> estimator_id self = "opls" ->
  nrows x `div` Z.to_nat (kfold self) = 1 ->
  fit mem self x yv = Ok self' ->
  _opt_component self' = Some opt -> 1 <= opt ->
  orthogonal_score self' = Ok ((fun r => mem Tortho r opt) <$> seq 0 (nrows x)).
Proof.
  intros Hkeep Hk Hid Hblk Hfit Hopt Hopt1.
  pose proof (fit_summary _ _ _ _ _ Hfit)
    as (s' & diff & opt' & Hcv' & _ & _ & _ & _ & _ & Hopt' & _ & _ & _ & Hlt & Hid').
  rewrite Hopt in Hopt'. injection Hopt' as <-.
  apply fit_stored in Hfit as (s & Hcv & Hst).
  rewrite Hcv in Hcv'. injection Hcv' as <-.
  specialize (Hst Tortho). simpl in Hst.
  rewrite bool_decide_eq_true_2 in Hst by done. specialize (Hst eq_refl).
  destruct (cross_validate_spec mem self x yv s Hcv) as (folds & Hs & Hacc & Hle & _).
  destruct (Hacc Tortho) as (Hr & Hc & Hwf & Hw). simpl in Hr, Hc, Hwf, Hw.
  specialize (Hw ltac:(done)).
  destruct (first_cols_shape (acc_data (v_tortho s)) (v_npc0 s) Hwf ltac:(lia))
    as (Hr' & Hc' & _).
  unfold orthogonal_score. rewrite Hid', Hid, Hst, Hopt.
  rewrite decide_False by naive_solver. simpl.
  rewrite <- Hr, <- Hr'. apply column_cells; [lia|].
  intros r Hrlt. rewrite cell_first_cols by done.
  rewrite (cross_validate_sound mem self x yv s Tortho Hcv).
  - apply cell_np_empty; lia.
  - simpl. rewrite Hw. intros w Hin _.
    unfold cv_writes in Hin. apply list_elem_of_In, in_flat_map in Hin
      as ([i [tr te]] & Hfold & Hin).
    apply list_elem_of_In, list_elem_of_lookup in Hfold as [j Hj].
    apply enumerate_lookup in Hj as [_ Hj].
    destruct (split_fold_perm _ _ _ _ _ _ Hk Hs Hj) as (Hte & _).
    unfold fold_writes in Hin. apply in_flat_map in Hin as (k & _ & Hin).
    apply list_elem_of_In in Hin. simpl in Hin.
    rewrite bool_decide_eq_true_2 in Hin by done.
    rewrite decide_True in Hin by lia.
    apply list_elem_of_fmap in Hin as (r' & -> & _). simpl. lia.
Qed.

End History.

Lemma single_sample_folds_orthogonal_score_witness :
  fit Fixture.mem0 (Fixture.cv "opls" 6) Fixture.x6_second Fixture.y6
    = Ok (Fixture.fitted_second "opls" 6)
  /\ orthogonal_score (Fixture.fitted_second "opls" 6)
     = Ok ((fun r => Fixture.mem0 Tortho r 1) <$> seq 0 (nrows Fixture.x6_second)).
Proof.
  assert (fit Fixture.mem0 (Fixture.cv "opls" 6) Fixture.x6_second Fixture.y6
          = Ok (Fixture.fitted_second "opls" 6)) as Hfit
    by (vm_compute; reflexivity).
  split; [exact Hfit|].
  assert (1 <= kfold (Fixture.cv "opls" 6))%Z as Hk by (simpl; lia).
  apply (single_sample_folds_orthogonal_score
           Fixture.mem0 (Fixture.cv "opls" 6) Fixture.x6_second Fixture.y6
           (Fixture.fitted_second "opls" 6) 1
           fixture_scaler_keeps_rows Hk eq_refl); [reflexivity | exact Hfit | | lia].
  vm_compute. reflexivity.
Defined.

(** ** The squared errors *)

Section SquaredErrors.
Context {F E SC : Type}.
Context `{!Float64 F, !Numpy F, !Estimator F E, !Scaler F SC}.
Implicit Types s : fit_vars F E SC.
Implicit Types self : CrossValidation F E SC.

Lemma set_item_cells {A : Type} fold k c (a a' : accumulator A) rx :
  well_formed (acc_data a) -> set_item fold k c a rx = Ok a' ->
  well_formed (acc_data a')
  /\ cell (acc_data a') rx.1 c = Some rx.2
  /\ forall r c', r <> rx.1 \/ c' <> c ->
       cell (acc_data a') r c' = cell (acc_data a) r c'.
Proof.
  intros Hwf Hset.
  pose proof (set_item_spec _ _ _ _ _ _ Hset) as (_ & _ & _ & Hwf').
  split; [by apply Hwf'|].
  unfold set_item in Hset. case_decide as Hin; [|done]. destruct Hin as [Hr Hc].
  injection Hset as <-. unfold cell. simpl.
  destruct (lookup_lt_is_Some_2 _ _ Hr) as [row Hrow].
  assert (length row = ncols (acc_data a)) as Hlen
    by (by eapply (Forall_lookup_1 _ _ _ _ Hwf)).
  split.
  - rewrite list_lookup_alter_eq, Hrow. simpl.
    apply list_lookup_insert_eq. lia.
  - intros r c' Hne. destruct (decide (r = rx.1)) as [->|Hr'].
    + rewrite list_lookup_alter_eq, Hrow. simpl.
      apply list_lookup_insert_ne. naive_solver.
    + by rewrite list_lookup_alter_ne.
Qed.

Lemma set_items_cells {A : Type} fold k c (l : list (nat * A)) (a a' : accumulator A) :
  well_formed (acc_data a) -> NoDup (l.*1) ->
  for_each (set_item fold k c) l a = Ok a' ->
  well_formed (acc_data a')
  /\ (forall q rx, l !! q = Some rx -> cell (acc_data a') rx.1 c = Some rx.2)
  /\ forall r c', r ∉ l.*1 \/ c' <> c ->
       cell (acc_data a') r c' = cell (acc_data a) r c'.
Proof.
  revert a. induction l as [|rx l IH]; intros a Hwf Hnd Hloop; simpl in Hloop.
  - injection Hloop as <-. split; [done|]. split; [|done]. intros q rx Hq. done.
  - apply bind_Ok in Hloop as (a1 & H1 & H2).
    rewrite fmap_cons in Hnd. apply NoDup_cons in Hnd as [Hnotin Hnd].
    destruct (set_item_cells _ _ _ _ _ _ Hwf H1) as (Hwf1 & Hval1 & Hframe1).
    destruct (IH a1 Hwf1 Hnd H2) as (Hwf2 & Hval2 & Hframe2).
    split; [done|]. split.
    + intros [|q] rx' Hq; simpl in Hq.
      * injection Hq as <-. rewrite Hframe2 by auto. done.
      * by eapply Hval2.
    + intros r c' Hne. rewrite fmap_cons, not_elem_of_cons in Hne.
      rewrite Hframe2 by naive_solver. apply Hframe1. naive_solver.
Qed.

(** [a[idx, c] = v] for distinct indices: the cells of column [c] in the
    rows [idx] hold the broadcast values, all the others are as
    before. *)
Lemma assign_column_cells {A : Type} fold k (a a' : accumulator A) idx c v :
  well_formed (acc_data a) -> NoDup idx ->
  assign_column fold k a idx c v = Ok a' ->
  well_formed (acc_data a')
  /\ exists vs,
       broadcast_to (length idx) v = Ok vs
       /\ (forall q r, idx !! q = Some r -> cell (acc_data a') r c = vs !! q)
       /\ forall r c', r ∉ idx \/ c' <> c ->
            cell (acc_data a') r c' = cell (acc_data a) r c'.
Proof.
  intros Hwf Hnd. unfold assign_column. case_decide; [|done]. intros Hassign.
  apply bind_Ok in Hassign as (vs & Hvs & Hloop).
  pose proof (broadcast_to_length _ _ _ Hvs) as Hlen.
  assert ((zip idx vs).*1 = idx) as Hfst by (apply fst_zip; lia).
  apply set_items_cells in Hloop as (Hwf' & Hval & Hframe);
    [|done|by rewrite Hfst].
  split; [done|]. exists vs. split; [done|]. rewrite Hfst in Hframe.
  split; [|done]. intros q r Hq.
  destruct (lookup_lt_is_Some_2 vs q) as [x Hx].
  { rewrite Hlen. by eapply lookup_lt_Some. }
  rewrite Hx. apply (Hval q (r, x)).
  apply lookup_zip_with_Some. by exists r, x.
Qed.

(** The values assigned to [ypred] and to [pressy] in one round. *)
Lemma squared_errors (L : nat) (yp yte err vs_y vs_p : list F) :
  length yte = L ->
  broadcast_to L yp = Ok vs_y -> broadcast2 f_sub yp yte = Ok err ->
  broadcast_to L (f_sq <$> err) = Ok vs_p ->
  forall q, q < L ->
    exists v e, vs_y !! q = Some v /\ yte !! q = Some e
                /\ vs_p !! q = Some (f_sq (f_sub v e)).
Proof.
  intros Hyte Hy Herr Hp q Hq.
  destruct (lookup_lt_is_Some_2 yte q ltac:(lia)) as [e He].
  unfold broadcast_to in Hy. unfold broadcast2 in Herr.
  destruct (decide (length yp = L)) as [Hlen|Hlen].
  - injection Hy as <-. rewrite decide_True in Herr by lia. injection Herr as <-.
    unfold broadcast_to in Hp.
    rewrite decide_True in Hp by (rewrite length_fmap, length_zip_with; lia).
    injection Hp as <-.
    destruct (lookup_lt_is_Some_2 yp q ltac:(lia)) as [v Hv].
    exists v, e. split; [done|]. split; [done|].
    rewrite list_lookup_fmap, lookup_zip_with, Hv. simpl. by rewrite He.
  - destruct yp as [|a [|]]; try done. injection Hy as <-.
    rewrite decide_False in Herr by (simpl in *; lia). injection Herr as <-.
    unfold broadcast_to in Hp.
    rewrite decide_True in Hp by (by rewrite !length_fmap).
    injection Hp as <-.
    exists a, e. split; [by apply lookup_replicate_2|]. split; [done|].
    by rewrite !list_lookup_fmap, He.
Qed.

(** One round of the loop over the component counts: in the rows of the
    test indices, column [k - 1] of [pressy] holds the squared errors of
    column [k - 1] of [ypred]; no other cell of the two arrays
    changes. *)
Lemma fit_component_cells opls i te xtr_scale xte_scale yte_scale ssx_tot est s k s' :
  well_formed (acc_data (v_ypred s)) -> well_formed (acc_data (v_pressy s)) ->
  NoDup te -> length yte_scale = length te ->
  fit_component opls i te xtr_scale xte_scale yte_scale ssx_tot est s k = Ok s' ->
  well_formed (acc_data (v_ypred s')) /\ well_formed (acc_data (v_pressy s'))
  /\ (forall q r, te !! q = Some r ->
        squared_error_at (acc_data (v_ypred s')) (acc_data (v_pressy s'))
          yte_scale q r (k - 1))
  /\ forall r c, r ∉ te \/ c <> k - 1 ->
       cell (acc_data (v_ypred s')) r c = cell (acc_data (v_ypred s)) r c
       /\ cell (acc_data (v_pressy s')) r c = cell (acc_data (v_pressy s)) r c.
Proof.
  intros Hwfy Hwfp Hnd Hlen Hfit. unfold fit_component in Hfit.
  apply bind_Ok in Hfit as ([[[[yp_k tortho] tpred] ssx] pcv] & _ & Hfit).
  apply bind_Ok in Hfit as (ypred & Hypred & Hfit).
  apply bind_Ok in Hfit as (err & Herr & Hfit).
  apply bind_Ok in Hfit as (pressy & Hpressy & Hfit).
  injection Hfit as <-. simpl.
  apply assign_column_cells in Hypred
    as (Hwfy' & vs_y & Hvs_y & Hval_y & Hframe_y); [|done..].
  apply assign_column_cells in Hpressy
    as (Hwfp' & vs_p & Hvs_p & Hval_p & Hframe_p); [|done..].
  split; [done|]. split; [done|]. split.
  - intros q r Hq.
    destruct (squared_errors _ _ _ _ _ _ Hlen Hvs_y Herr Hvs_p q
                ltac:(by eapply lookup_lt_Some)) as (v & e & Hv & He & Hp).
    exists v, e. rewrite (Hval_y q r Hq), (Hval_p q r Hq). done.
  - intros r c Hne. split; [by apply Hframe_y | by apply Hframe_p].
Qed.

Lemma fit_components_cells opls i te xtr_scale xte_scale yte_scale ssx_tot est ks s s' :
  NoDup te -> length yte_scale = length te ->
  for_each (fit_component opls i te xtr_scale xte_scale yte_scale ssx_tot est) ks s
    = Ok s' ->
  well_formed (acc_data (v_ypred s)) -> well_formed (acc_data (v_pressy s)) ->
  NoDup ks -> Forall (fun k => 1 <= k) ks ->
  well_formed (acc_data (v_ypred s')) /\ well_formed (acc_data (v_pressy s'))
  /\ (forall k q r, k ∈ ks -> te !! q = Some r ->
        squared_error_at (acc_data (v_ypred s')) (acc_data (v_pressy s'))
          yte_scale q r (k - 1))
  /\ forall r c, r ∉ te \/ (forall k, k ∈ ks -> c <> k - 1) ->
       cell (acc_data (v_ypred s')) r c = cell (acc_data (v_ypred s)) r c
       /\ cell (acc_data (v_pressy s')) r c = cell (acc_data (v_pressy s)) r c.
Proof.
  intros Hnd Hlen. revert ks s s'.
  apply (for_each_ind _ (fun ks s s' =>
    well_formed (acc_data (v_ypred s)) -> well_formed (acc_data (v_pressy s)) ->
    NoDup ks -> Forall (fun k => 1 <= k) ks ->
    well_formed (acc_data (v_ypred s')) /\ well_formed (acc_data (v_pressy s'))
    /\ (forall k q r, k ∈ ks -> te !! q = Some r ->
          squared_error_at (acc_data (v_ypred s')) (acc_data (v_pressy s'))
            yte_scale q r (k - 1))
    /\ forall r c, r ∉ te \/ (forall k, k ∈ ks -> c <> k - 1) ->
         cell (acc_data (v_ypred s')) r c = cell (acc_data (v_ypred s)) r c
         /\ cell (acc_data (v_pressy s')) r c = cell (acc_data (v_pressy s)) r c)).
  - intros s Hwfy Hwfp _ _. split; [done|]. split; [done|]. split; [|done].
    intros k q r Hk. by apply elem_of_nil in Hk.
  - intros k ks s s1 s2 Hstep IH Hwfy Hwfp Hndk Hpos.
    apply NoDup_cons in Hndk as [Hk Hndk]. apply Forall_cons in Hpos as [Hk1 Hpos].
    destruct (fit_component_cells _ _ _ _ _ _ _ _ _ _ _ Hwfy Hwfp Hnd Hlen Hstep)
      as (Hwfy1 & Hwfp1 & Hval1 & Hframe1).
    destruct (IH Hwfy1 Hwfp1 Hndk Hpos) as (Hwfy2 & Hwfp2 & Hval2 & Hframe2).
    split; [done|]. split; [done|]. split.
    + intros k' q r Hk' Hq. apply elem_of_cons in Hk' as [->|Hk'].
      * destruct (Hval1 q r Hq) as (v & e & Hv & He & Hp).
        assert (forall k0, k0 ∈ ks -> k - 1 <> k0 - 1) as Hcol.
        { intros k0 Hk0 Heq. rewrite Forall_forall in Hpos.
          specialize (Hpos k0 Hk0). assert (k = k0) as -> by lia. done. }
        destruct (Hframe2 r (k - 1) ltac:(by right)) as [Hy2 Hp2].
        exists v, e. by rewrite Hy2, Hp2.
      * by apply Hval2.
    + intros r c Hne.
      destruct (Hframe2 r c) as [Hy2 Hp2].
      { destruct Hne as [?|Hne]; [by left|]. right. intros k0 Hk0.
        apply Hne. by right. }
      destruct (Hframe1 r c) as [Hy1 Hp1].
      { destruct Hne as [?|Hne]; [by left|]. right. apply Hne. by left. }
      split; congruence.
Qed.

(** One round of the loop over the folds, for distinct test indices and
    a scaler that keeps the number of entries. *)
Lemma fit_fold_cells opls x yv s fold s' :
  scaler_keeps_length ->
  well_formed (acc_data (v_ypred s)) -> well_formed (acc_data (v_pressy s)) ->
  NoDup fold.2.2 ->
  fit_fold opls x yv s fold = Ok s' ->
  well_formed (acc_data (v_ypred s')) /\ well_formed (acc_data (v_pressy s'))
  /\ (exists yte_scale,
        scaled_test_responses (v_scaler s) x yv [fold.2] = Ok [yte_scale]
        /\ forall q r j, fold.2.2 !! q = Some r -> j < fold_npc (ncols x) fold ->
             squared_error_at (acc_data (v_ypred s')) (acc_data (v_pressy s'))
               yte_scale q r j)
  /\ forall r c, r ∉ fold.2.2 ->
       cell (acc_data (v_ypred s')) r c = cell (acc_data (v_ypred s)) r c
       /\ cell (acc_data (v_pressy s')) r c = cell (acc_data (v_pressy s)) r c.
Proof.
  destruct fold as [i [tr te]]. unfold fit_fold. simpl.
  intros Hkeep Hwfy Hwfp Hnd Hfit.
  apply bind_Ok in Hfit as (xtr & Hxtr & Hfit).
  apply bind_Ok in Hfit as (xte & Hxte & Hfit).
  apply bind_Ok in Hfit as (ytr & Hytr & Hfit).
  apply bind_Ok in Hfit as (yte & Hyte & Hfit).
  apply bind_Ok in Hfit as ([sc1 xtr_scale] & Hsc1 & Hfit).
  apply bind_Ok in Hfit as (xte_scale & Hxte_scale & Hfit).
  apply bind_Ok in Hfit as ([sc2 ytr_scale] & Hsc2 & Hfit).
  apply bind_Ok in Hfit as (yte_scale & Hyte_scale & Hfit).
  apply bind_Ok in Hfit as (est0 & Hest0 & Hfit).
  apply bind_Ok in Hfit as (est & Hest & Hfit).
  apply bind_Ok in Hfit as (s1 & Hloop & Hfit).
  injection Hfit as <-. simpl.
  apply take_rows_shape in Hxtr as Hshape. destruct Hshape as [Hn Hp].
  assert (length yte_scale = length te) as Hlen.
  { rewrite (Hkeep _ _ _ Hyte_scale). by eapply take_items_length. }
  apply (fit_components_cells _ _ _ _ _ _ _ _ _ _ _ Hnd Hlen) in Hloop
    as (Hwfy' & Hwfp' & Hval & Hframe);
    [|done|done|apply NoDup_seq|].
  2:{ apply Forall_forall. intros k Hk. apply elem_of_seq in Hk. lia. }
  simpl in Hframe.
  split; [done|]. split; [done|]. split.
  - exists yte_scale. split.
    + rewrite Hxtr, Hytr, Hyte. simpl. rewrite Hsc1. simpl.
      rewrite Hsc2. simpl. rewrite Hyte_scale. done.
    + intros q r j Hq Hj. unfold fold_npc in Hj. simpl in Hj.
      replace j with (S j - 1) by lia. apply Hval; [|done].
      apply elem_of_seq. lia.
  - intros r c Hr. apply Hframe. by left.
Qed.

(** The loop over numbered folds whose test indices are all distinct. *)
Lemma fit_folds_cells opls x yv l s s' :
  scaler_keeps_length ->
  for_each (fit_fold opls x yv) l s = Ok s' ->
  well_formed (acc_data (v_ypred s)) -> well_formed (acc_data (v_pressy s)) ->
  NoDup (concat ((fun fold => fold.2.2) <$> l)) ->
  well_formed (acc_data (v_ypred s')) /\ well_formed (acc_data (v_pressy s'))
  /\ (exists ytes,
        scaled_test_responses (v_scaler s) x yv (l.*2) = Ok ytes
        /\ forall m fold yte q r j,
             l !! m = Some fold -> ytes !! m = Some yte ->
             fold.2.2 !! q = Some r -> j < fold_npc (ncols x) fold ->
             squared_error_at (acc_data (v_ypred s')) (acc_data (v_pressy s'))
               yte q r j)
  /\ forall r c, r ∉ concat ((fun fold => fold.2.2) <$> l) ->
       cell (acc_data (v_ypred s')) r c = cell (acc_data (v_ypred s)) r c
       /\ cell (acc_data (v_pressy s')) r c = cell (acc_data (v_pressy s)) r c.
Proof.
  intros Hkeep. revert l s s'.
  apply (for_each_ind _ (fun l s s' =>
    well_formed (acc_data (v_ypred s)) -> well_formed (acc_data (v_pressy s)) ->
    NoDup (concat ((fun fold => fold.2.2) <$> l)) ->
    well_formed (acc_data (v_ypred s')) /\ well_formed (acc_data (v_pressy s'))
    /\ (exists ytes,
          scaled_test_responses (v_scaler s) x yv (l.*2) = Ok ytes
          /\ forall m fold yte q r j,
               l !! m = Some fold -> ytes !! m = Some yte ->
               fold.2.2 !! q = Some r -> j < fold_npc (ncols x) fold ->
               squared_error_at (acc_data (v_ypred s')) (acc_data (v_pressy s'))
                 yte q r j)
    /\ forall r c, r ∉ concat ((fun fold => fold.2.2) <$> l) ->
         cell (acc_data (v_ypred s')) r c = cell (acc_data (v_ypred s)) r c
         /\ cell (acc_data (v_pressy s')) r c = cell (acc_data (v_pressy s)) r c)).
  - intros s Hwfy Hwfp _. split; [done|]. split; [done|]. split; [|done].
    exists []. split; [done|]. intros m fold yte q r j Hm. done.
  - intros fold l s s1 s2 Hstep IH Hwfy Hwfp Hnd.
    rewrite fmap_cons in Hnd. simpl in Hnd.
    apply NoDup_app in Hnd as (Hnd1 & Hdisj & Hnd2).
    destruct (fit_fold_cells _ _ _ _ _ _ Hkeep Hwfy Hwfp Hnd1 Hstep)
      as (Hwfy1 & Hwfp1 & (yte0 & Hyte0 & Hval1) & Hframe1).
    destruct (IH Hwfy1 Hwfp1 Hnd2) as (Hwfy2 & Hwfp2 & (ytes & Hytes & Hval2) & Hframe2).
    apply fit_fold_spec in Hstep as (_ & _ & yte0' & Hyte0' & Hchain & _).
    rewrite Hyte0 in Hyte0'. injection Hyte0' as <-.
    split; [done|]. split; [done|]. split.
    + exists (yte0 :: ytes). split.
      { rewrite fmap_cons, Hchain, Hytes. done. }
      intros [|m] fold' yte q r j Hm Hyte Hq Hj; simpl in Hm, Hyte.
      * injection Hm as <-. injection Hyte as <-.
        destruct (Hval1 q r j Hq Hj) as (v & e & Hv & He & Hp).
        destruct (Hframe2 r j) as [Hy2 Hp2].
        { apply Hdisj. by eapply list_elem_of_lookup_2. }
        exists v, e. by rewrite Hy2, Hp2.
      * by eapply Hval2.
    + intros r c Hr. rewrite fmap_cons in Hr. simpl in Hr.
      apply not_elem_of_app in Hr as [Hr1 Hr2].
      destruct (Hframe2 r c Hr2) as [Hy2 Hp2].
      destruct (Hframe1 r c Hr1) as [Hy1 Hp1].
      split; congruence.
Qed.

Lemma NoDup_concat_disjoint {A : Type} (ls : list (list A)) :
  (forall i l, ls !! i = Some l -> NoDup l) ->
  (forall i1 i2 l1 l2 a, ls !! i1 = Some l1 -> ls !! i2 = Some l2 ->
     a ∈ l1 -> a ∈ l2 -> i1 = i2) ->
  NoDup (concat ls).
Proof.
  induction ls as [|l ls IH]; intros Hnd Hdisj; simpl; [constructor|].
  apply NoDup_app. split; [by apply (Hnd 0)|]. split.
  - intros a Ha Hin. apply list_elem_of_In, in_concat in Hin as (l' & Hl' & Ha').
    apply list_elem_of_In in Ha'.
    apply list_elem_of_In, list_elem_of_lookup in Hl' as [i Hi].
    by specialize (Hdisj 0 (S i) l l' a eq_refl Hi Ha Ha').
  - apply IH.
    + intros i l' Hi. by apply (Hnd (S i)).
    + intros i1 i2 l1 l2 a H1 H2 Ha1 Ha2.
      by specialize (Hdisj (S i1) (S i2) l1 l2 a H1 H2 Ha1 Ha2) as [= ->].
Qed.

(** With a scaler that keeps the number of entries, after a [fit] that
    returns, for every sample [r] that a fold holds
    out and every stored column [j], the cell [(r, j)] of [_pressy] is
    the square of the difference between the cell [(r, j)] of [_ypred]
    and the scaled response of the sample in that fold. *)
Theorem pressy_is_squared_error mem self x yv self' :
  scaler_keeps_length -> fit mem self x yv = Ok self' ->
  exists folds ytes ypred pressy,
    _split (kfold self) (nrows x) = Ok folds
    /\ scaled_test_responses (scaler self) x yv folds = Ok ytes
    /\ _ypred self' = Some ypred /\ _pressy self' = Some pressy
    /\ forall i tr te yte q r j,
         folds !! i = Some (tr, te) -> ytes !! i = Some yte ->
         te !! q = Some r -> j < ncols ypred ->
         squared_error_at ypred pressy yte q r j.
Proof.
  intros Hkeep Hfit.
  apply fit_summary in Hfit as (s & diff & opt & Hcv & Hyp & Hpr & _).
  destruct (cross_validate_spec mem self x yv s Hcv)
    as (folds & Hs & Hacc & Hle & Hnpc & _).
  destruct (Hacc Ypred) as (_ & Hc & _). simpl in Hc.
  unfold cross_validate in Hcv. rewrite Hs in Hcv. simpl in Hcv.
  apply (fit_folds_cells _ _ _ _ _ _ Hkeep) in Hcv
    as (_ & _ & (ytes & Hytes & Hval) & _).
  - rewrite enumerate_snd in Hytes. simpl in Hytes.
    eexists folds, ytes, _, _.
    split; [done|]. split; [done|]. split; [exact Hyp|]. split; [exact Hpr|].
    intros i tr te yte q r j Hi Hyte Hq Hj. simpl in Hj.
    assert (j < v_npc0 s) as Hj' by lia.
    destruct (Hval i (i, (tr, te)) yte q r j) as (v & e & Hv & He & Hp); try done.
    + by apply enumerate_lookup.
    + specialize (Hnpc i (tr, te) Hi). lia.
    + exists v, e. rewrite !cell_first_cols by done. done.
  - simpl. apply np_empty_shape.
  - simpl. apply np_empty_shape.
  - destruct (decide (1 <= kfold self)%Z) as [Hk|Hk].
    2:{ unfold _split, py_range in Hs. case_decide; [done|]. injection Hs as <-.
        assert (seqZ 0 (kfold self) = []) as ->; [|constructor].
        unfold seqZ. destruct (kfold self); [done|lia|done]. }
    apply NoDup_concat_disjoint.
    + intros i te Hi. rewrite list_lookup_fmap in Hi.
      destruct (enumerate folds !! i) as [[i' [tr te']]|] eqn:Hfold; [|done].
      simpl in Hi. injection Hi as <-.
      apply enumerate_lookup in Hfold as [_ Hfold].
      apply (split_lookup _ _ _ _ _ _ Hk Hs) in Hfold as (_ & -> & _).
      apply NoDup_seq.
    + intros i1 i2 te1 te2 r H1 H2 Hr1 Hr2. rewrite list_lookup_fmap in H1, H2.
      destruct (enumerate folds !! i1) as [[i1' [tr1 te1']]|] eqn:Hf1; [|done].
      destruct (enumerate folds !! i2) as [[i2' [tr2 te2']]|] eqn:Hf2; [|done].
      simpl in H1, H2. injection H1 as <-. injection H2 as <-.
      apply enumerate_lookup in Hf1 as [_ Hf1]. apply enumerate_lookup in Hf2 as [_ Hf2].
      by eapply (split_disjoint (kfold self) (nrows x) folds).
Qed.

End SquaredErrors.

Lemma fixture_scaler_keeps_length :
  scaler_keeps_length (F := Q) (SC := list Q).
Proof.
  intros sc v v' Hv. simpl in Hv. injection Hv as <-. apply length_fmap.
Qed.

Lemma pressy_is_squared_error_witness :
  fit Fixture.mem0 (Fixture.cv "pls" 3) Fixture.x6 Fixture.y6
    = Ok (Fixture.fitted "pls" 3)
  /\ exists ypred pressy,
       _ypred (Fixture.fitted "pls" 3) = Some ypred
       /\ _pressy (Fixture.fitted "pls" 3) = Some pressy
       /\ exists yte, squared_error_at ypred pressy yte 1 3 0.
Proof.
  assert (fit Fixture.mem0 (Fixture.cv "pls" 3) Fixture.x6 Fixture.y6
          = Ok (Fixture.fitted "pls" 3)) as Hfit by (vm_compute; reflexivity).
  split; [exact Hfit|].
  destruct (pressy_is_squared_error _ _ _ _ _ fixture_scaler_keeps_length Hfit)
    as (folds & ytes & ypred & pressy & Hs & Hytes & Hyp & Hpr & Hcells).
  exists ypred, pressy. split; [exact Hyp|]. split; [exact Hpr|].
  assert (folds !! 1 = Some ([0; 1; 4; 5], [2; 3])) as Hfold.
  { vm_compute in Hs. injection Hs as <-. reflexivity. }
  assert (exists yte, ytes !! 1 = Some yte) as [yte Hyte].
  { vm_compute in Hs. injection Hs as <-.
    vm_compute in Hytes. injection Hytes as <-. by eexists. }
  exists yte. apply (Hcells 1 _ _ yte 1 3 0 Hfold Hyte); [reflexivity|].
  vm_compute in Hyp. injection Hyp as <-. simpl. lia.
Defined.

(** ** The metrics of the final model *)

Section Refit.
Context {F E SC : Type}.
Context `{!Float64 F, !Numpy F, !Estimator F E, !Scaler F SC}.
Implicit Types s : fit_vars F E SC.
Implicit Types self : CrossValidation F E SC.

(** What [_summary_fit] computes from the scaled data and the
    estimator. *)
Lemma summary_fit_spec self x yv self' :
  _summary_fit self x yv = Ok self' ->
  exists opt est xrec yrec dx dy,
    _opt_component self = Some opt /\ estimator self = Some est
    /\ (estimator_id self <> "opls" ->
        np_dot_mm (first_cols (est_scores_x est) (opt + 1))
                  (transpose (first_cols (est_loadings_x est) (opt + 1))) = Ok xrec
        /\ np_dot_mv (first_cols (est_scores_x est) (opt + 1))
                     (take (opt + 1) (est_weights_y est)) = Ok yrec)
    /\ (estimator_id self = "opls" ->
        exists tp ss_tp w corr xorth pl outer wy,
          est_predictive_score est (opt + 1) = Ok tp
          /\ np_dot_vv tp tp = Ok ss_tp
          /\ np_dot_vm tp x = Ok w
          /\ broadcast2 f_div w (f_mul (f_sqrt ss_tp) <$> la_norm_axis0 x) = Ok corr
          /\ _cov self' = Some ((fun a => f_div a ss_tp) <$> w)
          /\ _corr self' = Some corr
          /\ np_dot_mm (est_orthogonal_scores est)
                       (transpose (est_orthogonal_loadings est)) = Ok xorth
          /\ column (est_predictive_loadings est) opt = Ok pl
          /\ np_dot_mm (as_column tp) (as_row pl) = Ok outer
          /\ elementwise2 f_add xorth outer = Ok xrec
          /\ nrows xrec = nrows xorth /\ ncols xrec = ncols xorth
          /\ getitem (est_weights_y est) opt = Ok wy
          /\ yrec = (fun a => f_mul a wy) <$> tp)
    /\ elementwise2 f_sub x xrec = Ok dx
    /\ broadcast2 f_sub yv yrec = Ok dy
    /\ _r2x self' = Some (f_sub f_one (f_div (sum_sq2 dx) (sum_sq2 x)))
    /\ _r2y self' = Some (f_sub f_one (f_div (sum_sq dy) (sum_sq yv))).
Proof.
  unfold _summary_fit, not_none, attribute. intros Hs.
  destruct (_opt_component self) as [opt|]; [|done]. simpl in Hs.
  destruct (estimator self) as [est|]; [|done]. simpl in Hs.
  apply bind_Ok in Hs as ([[[cov corr] xrec] yrec] & Hbranch & Hs).
  apply bind_Ok in Hs as (dx & Hdx & Hs).
  apply bind_Ok in Hs as (dy & Hdy & Hs).
  injection Hs as <-. simpl.
  exists opt, est, xrec, yrec, dx, dy.
  split; [done|]. split; [done|].
  destruct (decide (estimator_id self = "opls")) as [Hid|Hid].
  - split; [done|]. split; [|done]. intros _.
    replace (opt + 1 - 1) with opt in Hbranch by lia.
    apply bind_Ok in Hbranch as (tp & Htp & Hbranch).
    apply bind_Ok in Hbranch as (ss_tp & Hss & Hbranch).
    apply bind_Ok in Hbranch as (w & Hw & Hbranch).
    apply bind_Ok in Hbranch as (corr' & Hcorr & Hbranch).
    apply bind_Ok in Hbranch as (xorth & Hxorth & Hbranch).
    apply bind_Ok in Hbranch as (tp1 & Htp1 & Hbranch).
    apply bind_Ok in Hbranch as (pl & Hpl & Hbranch).
    apply bind_Ok in Hbranch as (outer & Houter & Hbranch).
    apply bind_Ok in Hbranch as (xrec1 & Hadd & Hbranch).
    apply bind_Ok in Hbranch as (tp2 & Htp2 & Hbranch).
    apply bind_Ok in Hbranch as (wy & Hwy & Hbranch).
    injection Hbranch as <- <- <- <-.
    rewrite Htp in Htp1, Htp2. injection Htp1 as <-. injection Htp2 as <-.
    unfold iadd2 in Hadd. apply bind_Ok in Hadd as (sum & Hsum & Hadd).
    case_decide as Hshape; [|done]. injection Hadd as <-.
    destruct Hshape as [Hr Hc].
    by exists tp, ss_tp, w, corr', xorth, pl, outer, wy.
  - split; [|done]. intros _.
    apply bind_Ok in Hbranch as (xrec0 & Hx & Hbranch).
    apply bind_Ok in Hbranch as (yrec0 & Hy & Hbranch).
    injection Hbranch as <- <- <- <-. done.
Qed.

(** After a [fit] that returns, [R2X] and [R2y] compare the whole data,
    scaled by the refit, with its reconstruction by the estimator that
    was refitted on it at the chosen component count. Without ["opls"]
    the reconstruction is the product of the first scores with the first
    loadings and weights. With ["opls"] the reconstruction of [x] is the
    product of the orthogonal scores and loadings plus the outer product
    of the predictive score with the chosen column of the predictive
    loadings, that of [y] is the predictive score times the chosen
    weight; [covariance] and [correlation] are the products of the
    predictive score with the scaled data, divided by its sum of squares
    and by the norms. *)
Theorem metrics_of_final_refit mem self x yv self' :
  fit mem self x yv = Ok self' ->
  exists s sc1 y_scale sc x_scale est0 est opt xrec yrec dx dy,
    cross_validate mem self x yv = Ok s
    /\ sc_fit_y (v_scaler s) yv = Ok (sc1, y_scale)
    /\ sc_fit sc1 x = Ok (sc, x_scale)
    /\ v_estimator s = Some est0
    /\ est_fit est0 x_scale y_scale (opt + 1) = Ok est
    /\ _opt_component self' = Some opt
    /\ (estimator_id self <> "opls" ->
        np_dot_mm (first_cols (est_scores_x est) (opt + 1))
                  (transpose (first_cols (est_loadings_x est) (opt + 1))) = Ok xrec
        /\ np_dot_mv (first_cols (est_scores_x est) (opt + 1))
                     (take (opt + 1) (est_weights_y est)) = Ok yrec)
    /\ (estimator_id self = "opls" ->
        exists tp ss_tp w corr xorth pl outer wy,
          est_predictive_score est (opt + 1) = Ok tp
          /\ np_dot_vv tp tp = Ok ss_tp
          /\ np_dot_vm tp x_scale = Ok w
          /\ broadcast2 f_div w (f_mul (f_sqrt ss_tp) <$> la_norm_axis0 x_scale)
             = Ok corr
          /\ covariance self' = Ok ((fun a => f_div a ss_tp) <$> w)
          /\ correlation self' = Ok corr
          /\ np_dot_mm (est_orthogonal_scores est)
                       (transpose (est_orthogonal_loadings est)) = Ok xorth
          /\ column (est_predictive_loadings est) opt = Ok pl
          /\ np_dot_mm (as_column tp) (as_row pl) = Ok outer
          /\ elementwise2 f_add xorth outer = Ok xrec
          /\ nrows xrec = nrows xorth /\ ncols xrec = ncols xorth
          /\ getitem (est_weights_y est) opt = Ok wy
          /\ yrec = (fun a => f_mul a wy) <$> tp)
    /\ elementwise2 f_sub x_scale xrec = Ok dx
    /\ broadcast2 f_sub y_scale yrec = Ok dy
    /\ R2X self' = Ok (f_sub f_one (f_div (sum_sq2 dx) (sum_sq2 x_scale)))
    /\ R2y self' = Ok (f_sub f_one (f_div (sum_sq dy) (sum_sq y_scale))).
Proof.
  intros Hfit.
  apply fit_steps in Hfit
    as (s & self1 & sc1 & y_scale & sc2 & x_scale & opt & est0 & est
        & Hcv & Hsum & Hfy & Hfx & Hopt & Hest0 & Hefit & Hfin).
  pose proof (summary_fit_frame _ _ _ _ Hfin)
    as (_ & _ & Hid & _ & _ & _ & _ & _ & _ & _ & Hopt' & _).
  apply summary_fit_spec in Hfin
    as (opt' & est' & xrec & yrec & dx & dy & Hopt1 & Hest & Hpls & Hopls
        & Hdx & Hdy & Hr2x & Hr2y).
  apply summary_cv_frame in Hsum as (_ & Hest1 & Hid1 & Hsc1 & _).
  simpl in *. rewrite Hopt in Hopt1. injection Hopt1 as <-. injection Hest as <-.
  rewrite Hsc1 in Hfy. rewrite Hest1 in Hest0. rewrite Hid1 in Hpls, Hopls, Hid.
  exists s, sc1, y_scale, sc2, x_scale, est0, est, opt, xrec, yrec, dx, dy.
  split; [done|]. split; [done|]. split; [done|]. split; [done|]. split; [done|].
  split; [congruence|]. split; [done|]. split.
  { intros Hopls_id.
    destruct (Hopls Hopls_id)
      as (tp & ss_tp & w & corr & xorth & pl & outer & wy
          & Htp & Hss & Hw & Hcorr & Hcov & Hco & Hrest).
    exists tp, ss_tp, w, corr, xorth, pl, outer, wy.
    split; [done|]. split; [done|]. split; [done|]. split; [done|].
    split; [|split]; [| |exact Hrest].
    - unfold covariance. rewrite Hid, Hcov, Hopls_id. done.
    - unfold correlation. rewrite Hid, Hco, Hopls_id. done. }
  split; [done|]. split; [done|].
  unfold R2X, R2y. by rewrite Hr2x, Hr2y.
Qed.

End Refit.

Lemma metrics_of_final_refit_witness :
  fit Fixture.mem0 (Fixture.cv "opls" 3) Fixture.x6 Fixture.y6
    = Ok (Fixture.fitted "opls" 3)
  /\ exists r2x r2y cov,
       R2X (Fixture.fitted "opls" 3) = Ok r2x
       /\ R2y (Fixture.fitted "opls" 3) = Ok r2y
       /\ covariance (Fixture.fitted "opls" 3) = Ok cov.
Proof.
  assert (fit Fixture.mem0 (Fixture.cv "opls" 3) Fixture.x6 Fixture.y6
          = Ok (Fixture.fitted "opls" 3)) as Hfit by (vm_compute; reflexivity).
  split; [exact Hfit|].
  destruct (metrics_of_final_refit _ _ _ _ _ Hfit)
    as (s & sc1 & y_scale & sc & x_scale & est0 & est & opt & xrec & yrec & dx & dy
        & _ & _ & _ & _ & _ & _ & _ & Hopls & _ & _ & Hr2x & Hr2y).
  destruct (Hopls eq_refl)
    as (tp & ss_tp & w & corr & xorth & pl & outer & wy & _ & _ & _ & _ & Hcov & _).
  eexists _, _, _. split; [exact Hr2x|]. split; [exact Hr2y | exact Hcov].
Defined.

(** ** The values that the folds assign *)

Section AssignedValues.
Context {F E SC : Type}.
Context `{!Float64 F, !Numpy F, !Estimator F E, !Scaler F SC}.
Implicit Types s : fit_vars F E SC.
Implicit Types self : CrossValidation F E SC.
Implicit Types m : fold_model F E.

Lemma broadcast_to_entry {A : Type} (L : nat) (v vs : list A) (q : nat) :
  broadcast_to L v = Ok vs -> q < L ->
  exists a, vs !! q = Some a /\ entry_of L v q = Some a.
Proof.
  unfold broadcast_to, entry_of. intros Hvs Hq. case_decide as Hlen.
  - injection Hvs as <-.
    destruct (lookup_lt_is_Some_2 v q ltac:(lia)) as [a Ha]. eauto.
  - destruct v as [|a [|]]; try done. injection Hvs as <-.
    exists a. rewrite decide_True by done. split; [by apply lookup_replicate_2 | done].
Qed.

Lemma entry_of_single {A : Type} (v : list A) (a : A) :
  entry_of 1 v 0 = Some a -> v = [a].
Proof.
  unfold entry_of. case_decide as Hlen.
  - destruct v as [|b [|]]; try done. by intros [= ->].
  - by destruct v as [|b [|]].
Qed.

Lemma cell_rows {A : Type} (a b : ndarray2 A) (r c : nat) :
  rows a !! r = rows b !! r -> cell a r c = cell b r c.
Proof. unfold cell. by intros ->. Qed.

(** One round of the loop over the component counts is one assignment
    [a[test_index, col] = vec] to each array that the estimator fills. *)
Lemma fit_component_assigns opls i te xtr_scale xte_scale yte_scale ssx_tot est
    s k s' m name :
  fm_est m = est -> fm_xte m = xte_scale -> fm_yte m = yte_scale ->
  fit_component opls i te xtr_scale xte_scale yte_scale ssx_tot est s k = Ok s' ->
  if active opls name then
    exists vec,
      assigned_vector opls m k name = Ok vec
      /\ assign_column i k (acc_of s name) te (assigned_col name m k) vec
         = Ok (acc_of s' name)
  else acc_of s' name = acc_of s name.
Proof.
  intros <- <- <- Hfit. unfold fit_component in Hfit.
  apply bind_Ok in Hfit as ([[[[yp_k tortho] tpred] ssx] pcv] & Hbranch & Hfit).
  apply bind_Ok in Hfit as (ypred & Hypred & Hfit).
  apply bind_Ok in Hfit as (err & Herr & Hfit).
  apply bind_Ok in Hfit as (pressy & Hpressy & Hfit).
  injection Hfit as <-.
  destruct opls.
  - apply bind_Ok in Hbranch as ([xte_corr tcorr] & Hcorr & Hbranch).
    apply bind_Ok in Hbranch as ([yp tp_k] & Hpred & Hbranch).
    apply bind_Ok in Hbranch as (tortho' & Htortho & Hbranch).
    apply bind_Ok in Hbranch as (tpred' & Htpred & Hbranch).
    apply bind_Ok in Hbranch as (xte_ortho & _ & Hbranch).
    apply bind_Ok in Hbranch as (tp & _ & Hbranch).
    apply bind_Ok in Hbranch as (w & _ & Hbranch).
    injection Hbranch as <- <- <- <- <-.
    destruct name; simpl.
    + exists yp. split; [|done].
      unfold fold_prediction. rewrite Hcorr. simpl. by rewrite Hpred.
    + exists (f_sq <$> err). split; [|done].
      unfold fold_prediction. rewrite Hcorr. simpl. rewrite Hpred. simpl.
      by rewrite Herr.
    + destruct (decide (nrows (fm_xte m) = 1)) as [H1|H1].
      * apply bind_Ok in Htortho as (row0 & Hrow0 & Htortho).
        apply bind_Ok in Htortho as (t00 & Ht00 & Htortho).
        exists [t00]. split; [|done].
        unfold fold_orthogonal_score. rewrite Hcorr. simpl. rewrite Hrow0. simpl.
        by rewrite Ht00.
      * apply bind_Ok in Htortho as (tc & Htc & Htortho).
        exists tc. split; [|done]. rewrite Hcorr. simpl. done.
    + exists tp_k. split; [|done].
      unfold fold_predictive_scores. rewrite Hcorr. simpl. by rewrite Hpred.
  - apply bind_Ok in Hbranch as (yp & Hpred & Hbranch).
    injection Hbranch as <- <- <- <- <-.
    destruct name; simpl; try done.
    + by exists yp.
    + exists (f_sq <$> err). split; [|done].
      unfold fold_prediction. rewrite Hpred. simpl. by rewrite Herr.
Qed.

(** The loop over the component counts, for one array: the cells of the
    test rows hold the entries of the last vector assigned to their
    column. *)
Lemma fit_components_values opls i te xtr_scale xte_scale yte_scale ssx_tot est
    m name ks s s' :
  fm_est m = est -> fm_xte m = xte_scale -> fm_yte m = yte_scale ->
  active opls name = true -> NoDup te ->
  for_each (fit_component opls i te xtr_scale xte_scale yte_scale ssx_tot est) ks s
    = Ok s' ->
  well_formed (acc_data (acc_of s name)) ->
  well_formed (acc_data (acc_of s' name))
  /\ (forall pre k post, ks = pre ++ k :: post ->
        (forall k', k' ∈ post -> assigned_col name m k' <> assigned_col name m k) ->
        forall q r, te !! q = Some r ->
          exists vec v,
            assigned_vector opls m k name = Ok vec
            /\ entry_of (length te) vec q = Some v
            /\ cell (acc_data (acc_of s' name)) r (assigned_col name m k) = Some v)
  /\ forall r c, r ∉ te \/ (forall k, k ∈ ks -> c <> assigned_col name m k) ->
       cell (acc_data (acc_of s' name)) r c = cell (acc_data (acc_of s name)) r c.
Proof.
  intros Hest Hxte Hyte Hact Hnd. revert ks s s'.
  apply (for_each_ind _ (fun ks s s' =>
    well_formed (acc_data (acc_of s name)) ->
    well_formed (acc_data (acc_of s' name))
    /\ (forall pre k post, ks = pre ++ k :: post ->
          (forall k', k' ∈ post -> assigned_col name m k' <> assigned_col name m k) ->
          forall q r, te !! q = Some r ->
            exists vec v,
              assigned_vector opls m k name = Ok vec
              /\ entry_of (length te) vec q = Some v
              /\ cell (acc_data (acc_of s' name)) r (assigned_col name m k) = Some v)
    /\ forall r c, r ∉ te \/ (forall k, k ∈ ks -> c <> assigned_col name m k) ->
         cell (acc_data (acc_of s' name)) r c = cell (acc_data (acc_of s name)) r c)).
  - intros s Hwf. split; [done|]. split; [|done].
    intros pre k post Hks. by destruct pre.
  - intros k0 ks s s1 s2 Hstep IH Hwf.
    pose proof (fit_component_assigns _ _ _ _ _ _ _ _ _ _ _ m name
                  Hest Hxte Hyte Hstep) as Hassign.
    rewrite Hact in Hassign. destruct Hassign as (vec & Hvec & Hassign).
    apply assign_column_cells in Hassign
      as (Hwf1 & vs & Hvs & Hval1 & Hframe1); [|done..].
    destruct (IH Hwf1) as (Hwf2 & Hval2 & Hframe2).
    split; [done|]. split.
    + intros pre k post Hks Hlast q r Hq.
      destruct pre as [|p pre]; simpl in Hks; injection Hks as -> ->.
      * destruct (broadcast_to_entry _ _ _ q Hvs ltac:(by eapply lookup_lt_Some))
          as (a & Ha & Hentry).
        exists vec, a. split; [done|]. split; [done|].
        rewrite Hframe2 by (right; intros k' Hk' Heq; by apply (Hlast k')).
        by rewrite (Hval1 q r Hq).
      * by apply (Hval2 pre k post).
    + intros r c Hne.
      rewrite Hframe2.
      2:{ destruct Hne as [?|Hne]; [by left|]. right. intros k Hk.
          apply Hne. by right. }
      apply Hframe1. destruct Hne as [?|Hne]; [by left|]. right.
      apply Hne. by left.
Qed.

(** One round of the loop over the folds, for one array. *)
Lemma fit_fold_values opls x yv s fold s' name :
  active opls name = true -> NoDup fold.2.2 ->
  fit_fold opls x yv s fold = Ok s' ->
  well_formed (acc_data (acc_of s name)) ->
  well_formed (acc_data (acc_of s' name))
  /\ exists m,
       (forall rest,
          fold_models (v_scaler s) (v_estimator s) x yv (fold.2 :: rest)
          = (ms ← fold_models (v_scaler s') (v_estimator s') x yv rest;
             Ok (m :: ms)))
       /\ fm_npc m = fold_npc (ncols x) fold
       /\ (scaler_keeps_rows -> nrows (fm_xte m) = length fold.2.2)
       /\ forall pre k post, seq 1 (fm_npc m) = pre ++ k :: post ->
            (forall k', k' ∈ post -> assigned_col name m k' <> assigned_col name m k) ->
            forall q r, fold.2.2 !! q = Some r ->
              exists vec v,
                assigned_vector opls m k name = Ok vec
                /\ entry_of (length fold.2.2) vec q = Some v
                /\ cell (acc_data (acc_of s' name)) r (assigned_col name m k) = Some v.
Proof.
  destruct fold as [i [tr te]]. unfold fit_fold. simpl.
  intros Hact Hnd Hfit Hwf.
  apply bind_Ok in Hfit as (xtr & Hxtr & Hfit).
  apply bind_Ok in Hfit as (xte & Hxte & Hfit).
  apply bind_Ok in Hfit as (ytr & Hytr & Hfit).
  apply bind_Ok in Hfit as (yte & Hyte & Hfit).
  apply bind_Ok in Hfit as ([sc1 xtr_scale] & Hsc1 & Hfit).
  apply bind_Ok in Hfit as (xte_scale & Hxte_scale & Hfit).
  apply bind_Ok in Hfit as ([sc2 ytr_scale] & Hsc2 & Hfit).
  apply bind_Ok in Hfit as (yte_scale & Hyte_scale & Hfit).
  apply bind_Ok in Hfit as (est0 & Hest0 & Hfit).
  apply bind_Ok in Hfit as (est & Hest & Hfit).
  apply bind_Ok in Hfit as (s1 & Hloop & Hfit).
  injection Hfit as <-. simpl.
  apply take_rows_shape in Hxtr as Hshape. destruct Hshape as [Hn Hp].
  apply take_rows_shape in Hxte as Hshape. destruct Hshape as [Hnte _].
  set (m := FoldModel est xte_scale yte_scale (nrows xtr `min` ncols xtr)).
  pose proof (fit_components_spec _ _ _ _ _ _ _ _ _ _ _
                ltac:(intros Hc; by rewrite (Hc _ _ _ Hxte_scale)) Hloop)
    as (_ & _ & _ & Hsc & Hes).
  apply (fit_components_values _ _ _ _ _ _ _ _ m name) in Hloop
    as (Hwf' & Hval & _); [|done..| by destruct name].
  split; [by destruct name|]. exists m. split; [|split; [|split]].
  - intros rest. rewrite Hxtr, Hxte, Hytr, Hyte. simpl. rewrite Hsc1. simpl.
    rewrite Hxte_scale. simpl. rewrite Hsc2. simpl. rewrite Hyte_scale. simpl.
    rewrite Hest0. simpl. rewrite Hest. simpl. rewrite Hsc, Hes. done.
  - unfold fold_npc. simpl. by rewrite Hn, Hp.
  - intros Hc. simpl. by rewrite (Hc _ _ _ Hxte_scale).
  - intros pre k post Hks Hlast q r Hq.
    destruct (Hval pre k post Hks Hlast q r Hq) as (vec & v & Hvec & Hentry & Hcell).
    exists vec, v. split; [done|]. split; [done|]. by destruct name.
Qed.

Lemma fold_models_length sc est x yv folds (models : list (fold_model F E)) :
  fold_models sc est x yv folds = Ok models -> length models = length folds.
Proof.
  revert sc est models. induction folds as [|[tr te] folds IH];
    intros sc est models Hm; simpl in Hm.
  - by injection Hm as <-.
  - repeat (inv_ok Hm; try discriminate).
    simpl. f_equal. by eapply IH.
Qed.

(** The loop over numbered folds whose test indices are all distinct,
    for one array: when it ends, the rows of the test samples of a fold
    are as that fold left them. *)
Lemma fit_folds_values opls x yv name l s s' :
  active opls name = true ->
  for_each (fit_fold opls x yv) l s = Ok s' ->
  well_formed (acc_data (acc_of s name)) ->
  NoDup (concat ((fun fold => fold.2.2) <$> l)) ->
  well_formed (acc_data (acc_of s' name))
  /\ (exists models,
        fold_models (v_scaler s) (v_estimator s) x yv (l.*2) = Ok models
        /\ forall idx fold m, l !! idx = Some fold -> models !! idx = Some m ->
             fm_npc m = fold_npc (ncols x) fold
             /\ (scaler_keeps_rows -> nrows (fm_xte m) = length fold.2.2)
             /\ forall pre k post, seq 1 (fm_npc m) = pre ++ k :: post ->
                  (forall k', k' ∈ post ->
                     assigned_col name m k' <> assigned_col name m k) ->
                  forall q r, fold.2.2 !! q = Some r ->
                    exists vec v,
                      assigned_vector opls m k name = Ok vec
                      /\ entry_of (length fold.2.2) vec q = Some v
                      /\ cell (acc_data (acc_of s' name)) r (assigned_col name m k)
                         = Some v)
  /\ forall r c, r ∉ concat ((fun fold => fold.2.2) <$> l) ->
       cell (acc_data (acc_of s' name)) r c = cell (acc_data (acc_of s name)) r c.
Proof.
  intros Hact. revert l s s'.
  apply (for_each_ind _ (fun l s s' =>
    well_formed (acc_data (acc_of s name)) ->
    NoDup (concat ((fun fold => fold.2.2) <$> l)) ->
    well_formed (acc_data (acc_of s' name))
    /\ (exists models,
          fold_models (v_scaler s) (v_estimator s) x yv (l.*2) = Ok models
          /\ forall idx fold m, l !! idx = Some fold -> models !! idx = Some m ->
               fm_npc m = fold_npc (ncols x) fold
               /\ (scaler_keeps_rows -> nrows (fm_xte m) = length fold.2.2)
               /\ forall pre k post, seq 1 (fm_npc m) = pre ++ k :: post ->
                    (forall k', k' ∈ post ->
                       assigned_col name m k' <> assigned_col name m k) ->
                    forall q r, fold.2.2 !! q = Some r ->
                      exists vec v,
                        assigned_vector opls m k name = Ok vec
                        /\ entry_of (length fold.2.2) vec q = Some v
                        /\ cell (acc_data (acc_of s' name)) r (assigned_col name m k)
                           = Some v)
    /\ forall r c, r ∉ concat ((fun fold => fold.2.2) <$> l) ->
         cell (acc_data (acc_of s' name)) r c = cell (acc_data (acc_of s name)) r c)).
  - intros s Hwf _. split; [done|]. split; [|done].
    exists []. split; [done|]. intros idx fold m Hidx. done.
  - intros fold l s s1 s2 Hstep IH Hwf Hnd.
    rewrite fmap_cons in Hnd. simpl in Hnd.
    apply NoDup_app in Hnd as (Hnd1 & Hdisj & Hnd2).
    destruct (fit_fold_values _ _ _ _ _ _ name Hact Hnd1 Hstep Hwf)
      as (Hwf1 & m0 & Hchain & Hnpc0 & Hrows0 & Hval1).
    destruct (IH Hwf1 Hnd2) as (Hwf2 & (models & Hmodels & Hval2) & Hframe2).
    split; [done|]. split.
    + exists (m0 :: models). split.
      { rewrite fmap_cons, Hchain, Hmodels. done. }
      intros [|idx] fold' m Hidx Hm; simpl in Hidx, Hm.
      * injection Hidx as <-. injection Hm as <-.
        split; [done|]. split; [done|].
        intros pre k post Hks Hlast q r Hq.
        destruct (Hval1 pre k post Hks Hlast q r Hq) as (vec & v & Hvec & He & Hc).
        exists vec, v. split; [done|]. split; [done|].
        rewrite Hframe2; [done|]. apply Hdisj. by eapply list_elem_of_lookup_2.
      * by apply (Hval2 idx).
    + intros r c Hr. rewrite fmap_cons in Hr. simpl in Hr.
      apply not_elem_of_app in Hr as [Hr1 Hr2].
      rewrite Hframe2 by done. apply cell_rows.
      by apply (fit_fold_other_rows _ _ _ _ _ _ r name Hstep).
Qed.

(** The test indices of the folds of [_split] are all distinct. *)
Lemma split_tests_NoDup (kfold : Z) (n : nat) (folds : list (list nat * list nat)) :
  _split kfold n = Ok folds ->
  NoDup (concat ((fun fold : nat * (list nat * list nat) => fold.2.2)
                   <$> enumerate folds)).
Proof.
  intros Hs. destruct (decide (1 <= kfold)%Z) as [Hk|Hk].
  2:{ unfold _split, py_range in Hs. case_decide; [done|]. injection Hs as <-.
      assert (seqZ 0 kfold = []) as ->; [|constructor].
      unfold seqZ. destruct kfold; [done|lia|done]. }
  apply NoDup_concat_disjoint.
  - intros i te Hi. rewrite list_lookup_fmap in Hi.
    destruct (enumerate folds !! i) as [[i' [tr te']]|] eqn:Hfold; [|done].
    simpl in Hi. injection Hi as <-.
    apply enumerate_lookup in Hfold as [_ Hfold].
    apply (split_lookup _ _ _ _ _ _ Hk Hs) in Hfold as (_ & -> & _).
    apply NoDup_seq.
  - intros i1 i2 te1 te2 r H1 H2 Hr1 Hr2. rewrite list_lookup_fmap in H1, H2.
    destruct (enumerate folds !! i1) as [[i1' [tr1 te1']]|] eqn:Hf1; [|done].
    destruct (enumerate folds !! i2) as [[i2' [tr2 te2']]|] eqn:Hf2; [|done].
    simpl in H1, H2. injection H1 as <-. injection H2 as <-.
    apply enumerate_lookup in Hf1 as [_ Hf1]. apply enumerate_lookup in Hf2 as [_ Hf2].
    by eapply (split_disjoint kfold n folds).
Qed.

(** When the loop of [fit] ends: the models of the folds, and in each
    array that the estimator fills, the cells of the test rows of a
    fold hold the entries of the last vector that the fold assigned to
    their column. *)
Lemma cross_validate_values mem self x yv s folds name :
  cross_validate mem self x yv = Ok s ->
  _split (kfold self) (nrows x) = Ok folds ->
  active (bool_decide (estimator_id self = "opls")) name = true ->
  exists models,
    fold_models (scaler self) (estimator self) x yv folds = Ok models
    /\ length models = length folds
    /\ forall i tr te m, folds !! i = Some (tr, te) -> models !! i = Some m ->
         fm_npc m = length tr `min` ncols x
         /\ (scaler_keeps_rows -> nrows (fm_xte m) = length te)
         /\ forall pre k post, seq 1 (fm_npc m) = pre ++ k :: post ->
              (forall k', k' ∈ post -> assigned_col name m k' <> assigned_col name m k) ->
              forall q r, te !! q = Some r ->
                exists vec v,
                  assigned_vector (bool_decide (estimator_id self = "opls")) m k name
                  = Ok vec
                  /\ entry_of (length te) vec q = Some v
                  /\ cell (acc_data (acc_of s name)) r (assigned_col name m k) = Some v.
Proof.
  intros Hcv Hs Hact. unfold cross_validate in Hcv.
  rewrite Hs in Hcv. simpl in Hcv.
  apply (fit_folds_values _ _ _ name) in Hcv
    as (_ & (models & Hmodels & Hval) & _); [|done| |by eapply split_tests_NoDup].
  2:{ destruct name; simpl; apply np_empty_shape. }
  rewrite enumerate_snd in Hmodels. simpl in Hmodels.
  exists models. split; [done|].
  split; [by eapply fold_models_length|].
  intros i tr te m Hi Hm.
  apply (Hval i (i, (tr, te)) m); [|done]. by apply enumerate_lookup.
Qed.

Lemma seq_split_at (j n : nat) :
  j < n -> seq 1 n = seq 1 j ++ (j + 1) :: seq (j + 2) (n - j - 1).
Proof.
  intros Hj. replace n with (j + S (n - j - 1)) at 1 by lia.
  rewrite seq_app. simpl. f_equal. f_equal; [lia|]. f_equal. lia.
Qed.

(** The cells of a column [k - 1]: arrays other than [tortho]. *)
Lemma cross_validate_cell mem self x yv s folds models name i tr te m q r j :
  cross_validate mem self x yv = Ok s ->
  _split (kfold self) (nrows x) = Ok folds ->
  fold_models (scaler self) (estimator self) x yv folds = Ok models ->
  active (bool_decide (estimator_id self = "opls")) name = true ->
  name <> Tortho ->
  folds !! i = Some (tr, te) -> models !! i = Some m -> te !! q = Some r ->
  j < length tr `min` ncols x ->
  exists vec v,
    assigned_vector (bool_decide (estimator_id self = "opls")) m (j + 1) name = Ok vec
    /\ entry_of (length te) vec q = Some v
    /\ cell (acc_data (acc_of s name)) r j = Some v.
Proof.
  intros Hcv Hs Hmodels Hact Hname Hi Hm Hq Hj.
  destruct (cross_validate_values mem self x yv s folds name Hcv Hs Hact)
    as (models' & Hmodels' & _ & Hval).
  rewrite Hmodels in Hmodels'. injection Hmodels' as <-.
  destruct (Hval i tr te m Hi Hm) as (Hnpc & _ & Hcells).
  destruct (Hcells (seq 1 j) (j + 1) (seq (j + 2) (fm_npc m - j - 1))) with q r
    as (vec & v & Hvec & Hentry & Hcell); [| |done|].
  - apply seq_split_at. lia.
  - intros k' Hk'. apply elem_of_seq in Hk'. destruct name; simpl; try done; lia.
  - exists vec, v. split; [done|]. split; [done|].
    replace (assigned_col name m (j + 1)) with j in Hcell; [done|].
    destruct name; simpl; try done; lia.
Qed.

End AssignedValues.

(** ** What the held-out rows hold *)

Section ValueClaims.
Context {F E SC : Type}.
Context `{!Float64 F, !Numpy F, !Estimator F E, !Scaler F SC}.
Implicit Types s : fit_vars F E SC.
Implicit Types self : CrossValidation F E SC.
Implicit Types m : fold_model F E.

Lemma seq_last (n : nat) : 1 <= n -> seq 1 n = seq 1 (n - 1) ++ [n].
Proof.
  intros Hn. replace n with ((n - 1) + 1) at 1 by lia.
  rewrite seq_app. simpl. f_equal. f_equal. lia.
Qed.

(** C5. With a fold count [kfold >= 1] that divides the number of
    samples, when the loop of [fit] ends, every cell of [ypred] and of
    [pressy] in a row [r < n] and a column [j < npc0] (the columns that
    [fit] keeps) was assigned exactly once, at component count [j + 1]
    of the fold that holds sample [r] out, and it holds what that fold
    assigned: in [ypred] the out-of-fold prediction of the fold for the
    sample with [j + 1] components, in [pressy] the square of its
    difference to the scaled response. No cell of any row and column was
    assigned more than once. *)
Theorem held_out_rows_written_once mem self x yv s :
  (1 <= kfold self)%Z ->
  (Z.of_nat (nrows x) `mod` kfold self = 0)%Z ->
  cross_validate mem self x yv = Ok s ->
  exists folds models,
    _split (kfold self) (nrows x) = Ok folds
    /\ fold_models (scaler self) (estimator self) x yv folds = Ok models
    /\ forall name, name = Ypred \/ name = Pressy ->
         let cell_writes r j :=
           filter (fun w => w_row w = r /\ w_col w = j) (acc_writes (acc_of s name)) in
         (forall r j, r < nrows x -> j < v_npc0 s ->
            exists i tr te m q vec v,
              folds !! i = Some (tr, te) /\ r ∈ te
              /\ cell_writes r j = [Wr i (j + 1) r j]
              /\ models !! i = Some m /\ te !! q = Some r
              /\ assigned_vector (bool_decide (estimator_id self = "opls")) m (j + 1) name
                 = Ok vec
              /\ entry_of (length te) vec q = Some v
              /\ cell (acc_data (acc_of s name)) r j = Some v)
         /\ (forall r j, length (cell_writes r j) <= 1).
Proof.
  intros Hk Hdiv Hcv.
  destruct (cross_validate_spec mem self x yv s Hcv)
    as (folds & Hs & Hacc & _ & Hnpc & _).
  destruct (cross_validate_values mem self x yv s folds Ypred Hcv Hs eq_refl)
    as (models & Hmodels & Hlen & _).
  exists folds, models. split; [done|]. split; [done|].
  intros name Hname cell_writes.
  destruct (Hacc name) as (_ & _ & _ & Hw).
  assert (acc_writes (acc_of s name)
          = cv_writes (bool_decide (estimator_id self = "opls")) (ncols x) folds name)
    as Hwrites by (apply Hw; destruct Hname; congruence).
  assert (active (bool_decide (estimator_id self = "opls")) name = true) as Hact
    by (by destruct Hname as [-> | ->]).
  assert (name <> Tortho) as Hne by (destruct Hname; congruence).
  pose proof (fun r j => cv_writes_cell (kfold self) (nrows x) folds _ (ncols x)
                           name r j Hk Hs Hact Hne) as Hcell.
  unfold cell_writes. setoid_rewrite Hwrites. split.
  - intros r j Hr Hj.
    assert (r < nrows x `div` Z.to_nat (kfold self) * Z.to_nat (kfold self)) as Hr'.
    { replace (nrows x `div` Z.to_nat (kfold self) * Z.to_nat (kfold self))
        with (nrows x); [done|].
      apply Nat2Z.inj. rewrite Nat2Z.inj_mul, Nat2Z.inj_div, Z2Nat.id by lia.
      pose proof (Z.div_mod (Z.of_nat (nrows x)) (kfold self) ltac:(lia)). lia. }
    apply (split_held_out (kfold self) (nrows x) folds r Hk Hs) in Hr'
      as (i & tr & te & Hi & Hin).
    assert (j < length tr `min` ncols x) as Hj'.
    { specialize (Hnpc i (tr, te) Hi). unfold fold_npc in Hnpc. simpl in Hnpc. lia. }
    destruct (lookup_lt_is_Some_2 models i) as [m Hm].
    { rewrite Hlen. by eapply lookup_lt_Some. }
    apply list_elem_of_lookup in Hin as Hq. destruct Hq as [q Hq].
    destruct (cross_validate_cell mem self x yv s folds models name i tr te m q r j
                Hcv Hs Hmodels Hact Hne Hi Hm Hq Hj')
      as (vec & v & Hvec & Hentry & Hval).
    exists i, tr, te, m, q, vec, v. split; [done|]. split; [done|]. split.
    { destruct (Hcell r j) as [Hc _]. rewrite (Hc i tr te Hi Hin).
      by rewrite decide_True. }
    done.
  - intros r j. by destruct (Hcell r j) as [_ Hc].
Qed.

(** C10. With the identifier ["opls"] and a scaler that keeps the
    number of rows: when a fold [i] holds out the single sample [r], the
    assignments to row [r] of [tortho] in the whole loop of [fit] are
    one per component count [k = 1 .. npc] of that fold, all of them to
    column [0]; no other column of that row is assigned. The rows [r]
    of [tpred], [ypred] and [pressy] are assigned at column [k - 1].
    When the loop ends, column [0] of that row of [tortho] holds the
    orthogonal score [tcorr[0][0]] of the sample at the last component
    count [npc], the columns from [1] on hold what [np.empty] left
    there, and column [k - 1] of the row in [tpred], [ypred] and
    [pressy] holds the predictive score, the prediction and the squared
    error of the sample with [k] components. *)
Theorem single_sample_fold_tortho mem self x yv s folds i tr r :
  scaler_keeps_rows ->
  estimator_id self = "opls" ->
  cross_validate mem self x yv = Ok s ->
  _split (kfold self) (nrows x) = Ok folds ->
  folds !! i = Some (tr, [r]) ->
  let npc := length tr `min` ncols x in
  let row_writes a := filter (fun w => w_row w = r) (acc_writes a) in
  row_writes (v_tortho s) = (fun k => Wr i k r 0) <$> seq 1 npc
  /\ (forall w, w ∈ acc_writes (v_tortho s) -> w_row w = r -> w_col w = 0)
  /\ row_writes (v_tpred s) = (fun k => Wr i k r (k - 1)) <$> seq 1 npc
  /\ row_writes (v_ypred s) = (fun k => Wr i k r (k - 1)) <$> seq 1 npc
  /\ row_writes (v_pressy s) = (fun k => Wr i k r (k - 1)) <$> seq 1 npc
  /\ exists models m,
       fold_models (scaler self) (estimator self) x yv folds = Ok models
       /\ models !! i = Some m
       /\ (1 <= npc ->
           exists t, fold_orthogonal_score m npc = Ok t
                     /\ cell (acc_data (v_tortho s)) r 0 = Some t)
       /\ (forall c, 1 <= c < nrows x `min` ncols x ->
             cell (acc_data (v_tortho s)) r c = Some (mem Tortho r c))
       /\ (forall k name, 1 <= k <= npc -> name <> Tortho ->
             exists v, assigned_vector true m k name = Ok [v]
                       /\ cell (acc_data (acc_of s name)) r (k - 1) = Some v).
Proof.
  intros Hkeep Hid Hcv Hs Hi npc row_writes.
  pose proof (split_fold_count _ _ _ _ _ Hs Hi) as Hk.
  destruct (cross_validate_spec mem self x yv s Hcv)
    as (folds' & Hs' & Hacc & _).
  rewrite Hs in Hs'. injection Hs' as <-.
  rewrite bool_decide_eq_true_2 in Hacc by done.
  assert (forall name,
            filter (fun w => w_row w = r) (acc_writes (acc_of s name))
            = (fun k => Wr i k r (write_col name [r] k)) <$> seq 1 npc) as Hrow.
  { intros name. destruct (Hacc name) as (_ & _ & _ & Hw). rewrite Hw by done.
    apply (cv_writes_row (kfold self) (nrows x)); try done; [set_solver|].
    by destruct name. }
  assert (row_writes (v_tortho s) = (fun k => Wr i k r 0) <$> seq 1 npc) as Hto
    by apply (Hrow Tortho).
  assert (forall w, w ∈ acc_writes (v_tortho s) -> w_row w = r -> w_col w = 0) as Hcol0.
  { intros w Hw Hr.
    assert (w ∈ row_writes (v_tortho s)) as Hin
      by (by apply list_elem_of_filter).
    rewrite Hto in Hin. apply list_elem_of_fmap in Hin as (k & -> & _). done. }
  split; [exact Hto|]. split; [exact Hcol0|].
  split; [apply (Hrow Tpred)|]. split; [apply (Hrow Ypred)|].
  split; [apply (Hrow Pressy)|].
  assert (forall name, active (bool_decide (estimator_id self = "opls")) name = true)
    as Hact by (intros name; rewrite bool_decide_eq_true_2 by done; by destruct name).
  destruct (cross_validate_values mem self x yv s folds Tortho Hcv Hs (Hact Tortho))
    as (models & Hmodels & Hlen & Hval).
  destruct (lookup_lt_is_Some_2 models i) as [m Hm].
  { rewrite Hlen. by eapply lookup_lt_Some. }
  exists models, m. split; [done|]. split; [done|].
  destruct (Hval i tr [r] m Hi Hm) as (Hnpc & Hrows & Hcells).
  specialize (Hrows Hkeep). simpl in Hrows. fold npc in Hnpc.
  split; [|split].
  - intros Hnpc1.
    destruct (Hcells (seq 1 (npc - 1)) npc []) with 0 r
      as (vec & v & Hvec & Hentry & Hcell); [| |done|].
    { rewrite Hnpc. by apply seq_last. }
    { intros k' Hk'. by apply elem_of_nil in Hk'. }
    unfold assigned_vector in Hvec. unfold assigned_col in Hcell.
    rewrite decide_True in Hvec by done. rewrite decide_True in Hcell by done.
    apply bind_Ok in Hvec as (t & Ht & Hvec). injection Hvec as <-.
    simpl in Hentry. injection Hentry as <-.
    exists t. split; [done|]. exact Hcell.
  - intros c Hc.
    rewrite (cross_validate_sound mem self x yv s Tortho Hcv).
    + apply cell_np_empty; [|lia].
      assert (r < nrows x `div` Z.to_nat (kfold self) * Z.to_nat (kfold self)) as Hr.
      { apply (split_held_out (kfold self) (nrows x) folds r Hk Hs).
        exists i, tr, [r]. split; [done|]. set_solver. }
      pose proof (Nat.Div0.mul_div_le (nrows x) (Z.to_nat (kfold self))). lia.
    + simpl. intros w Hw Hr. rewrite (Hcol0 w Hw Hr). lia.
  - intros k name Hk1 Hname.
    destruct (cross_validate_cell mem self x yv s folds models name i tr [r] m 0 r
                (k - 1) Hcv Hs Hmodels (Hact name) Hname Hi Hm eq_refl ltac:(lia))
      as (vec & v & Hvec & Hentry & Hcell).
    apply entry_of_single in Hentry as ->.
    rewrite bool_decide_eq_true_2 in Hvec by done.
    replace (k - 1 + 1) with k in Hvec by lia.
    by exists v.
Qed.

End ValueClaims.

Lemma held_out_rows_written_once_witness :
  exists s folds models,
    cross_validate Fixture.mem0 (Fixture.cv "pls" 3) Fixture.x6 Fixture.y6 = Ok s
    /\ _split 3 6 = Ok folds
    /\ fold_models (scaler (Fixture.cv "pls" 3)) (estimator (Fixture.cv "pls" 3))
         Fixture.x6 Fixture.y6 folds = Ok models
    /\ forall name, name = Ypred \/ name = Pressy ->
         let cell_writes r j :=
           filter (fun w => w_row w = r /\ w_col w = j) (acc_writes (acc_of s name)) in
         (forall r j, r < 6 -> j < v_npc0 s ->
            exists i tr te m q vec v,
              folds !! i = Some (tr, te) /\ r ∈ te
              /\ cell_writes r j = [Wr i (j + 1) r j]
              /\ models !! i = Some m /\ te !! q = Some r
              /\ assigned_vector false m (j + 1) name = Ok vec
              /\ entry_of (length te) vec q = Some v
              /\ cell (acc_data (acc_of s name)) r j = Some v)
         /\ (forall r j, length (cell_writes r j) <= 1).
Proof.
  destruct (cross_validate Fixture.mem0 (Fixture.cv "pls" 3) Fixture.x6 Fixture.y6)
    as [s|e] eqn:Hcv; [|vm_compute in Hcv; discriminate Hcv].
  destruct (held_out_rows_written_once
              Fixture.mem0 (Fixture.cv "pls" 3) Fixture.x6 Fixture.y6 s)
    as (folds & models & Hs & Hm & Hw); [simpl; lia | reflexivity | exact Hcv |].
  exists s, folds, models. split; [reflexivity|]. split; [exact Hs|].
  split; [exact Hm | exact Hw].
Defined.

Lemma single_sample_fold_tortho_witness :
  exists s,
    cross_validate Fixture.mem0 (Fixture.cv "opls" 6) Fixture.x6 Fixture.y6 = Ok s
    /\ filter (fun w => w_row w = 2) (acc_writes (v_tortho s))
       = [Wr 2 1 2 0; Wr 2 2 2 0]
    /\ filter (fun w => w_row w = 2) (acc_writes (v_ypred s))
       = [Wr 2 1 2 0; Wr 2 2 2 1]
    /\ exists m t,
         fold_orthogonal_score m 2 = Ok t
         /\ cell (acc_data (v_tortho s)) 2 0 = Some t
         /\ cell (acc_data (v_tortho s)) 2 1 = Some (Fixture.mem0 Tortho 2 1).
Proof.
  destruct (cross_validate Fixture.mem0 (Fixture.cv "opls" 6) Fixture.x6 Fixture.y6)
    as [s|e] eqn:Hcv; [|vm_compute in Hcv; discriminate Hcv].
  exists s. split; [reflexivity|].
  destruct (single_sample_fold_tortho
              Fixture.mem0 (Fixture.cv "opls" 6) Fixture.x6 Fixture.y6 s
              (split_fold 6 1 <$> seqZ 0 6) 2 [0; 1; 3; 4; 5] 2
              fixture_scaler_keeps_rows eq_refl Hcv eq_refl eq_refl)
    as (Hto & _ & _ & Hyp & _ & models & m & _ & _ & Hscore & Hempty & _).
  split; [exact Hto|]. split; [exact Hyp|].
  destruct (Hscore ltac:(simpl; lia)) as (t & Ht & Hcell).
  exists m, t. split; [exact Ht|]. split; [exact Hcell|].
  apply Hempty. vm_compute. lia.
Defined.
